(** * obsidian-onlyoffice: the local servers, the key registry and the
    configuration signer of [src/main.ts], embedded in Rocq.

    JavaScript strings are sequences of UTF-16 code units ([jsstr]); numbers
    that the code only counts with (loop counters, timestamps) are integers,
    exact for doubles below 2^53, and a port is a whole number added to with
    the rounding of a double; the vault, the file system and the key registry
    are finite maps.  Platform services that are not part of the
    repository (the network, the JWT signer, the URL and form parsers, the MIME
    table) are Section variables. *)

From Stdlib Require Import ZArith NArith Ascii String DecimalString DecimalN Strings.Byte.
From stdpp Require Import gmap list fin_maps.

Local Open Scope N_scope.
Set Warnings "-register-all".

(** ** JavaScript strings *)

Module Js.

(** A string: its UTF-16 code units. *)
Abbreviation jsstr := (list N).

(** A literal of the source, as code units. *)
Definition js (s : string) : jsstr := N_of_ascii <$> list_ascii_of_string s.

Arguments js : simpl never.

Definition eqs (a b : jsstr) : bool := bool_decide (a = b).

(** [s.startsWith(p)] and, when it holds, the rest of [s]. *)
Fixpoint strip_prefix (p s : jsstr) : option jsstr :=
  match p, s with
  | [], _ => Some s
  | a :: p', b :: s' => if a =? b then strip_prefix p' s' else None
  | _ :: _, [] => None
  end.

(** [s.includes(p)]. *)
Fixpoint includes (s p : jsstr) : bool :=
  match strip_prefix p s with
  | Some _ => true
  | None => match s with [] => false | _ :: s' => includes s' p end
  end.

(** [s.split(sep)[0]] for a one-unit separator: the part before the first
    occurrence of [sep], the whole string when there is none. *)
Fixpoint before_first (sep : N) (s : jsstr) : jsstr :=
  match s with
  | [] => []
  | c :: s' => if c =? sep then [] else c :: before_first sep s'
  end.

(** [s.split(sep)] for a one-unit separator. *)
Fixpoint split_on (sep : N) (s : jsstr) : list jsstr :=
  match s with
  | [] => [[]]
  | c :: s' =>
      if c =? sep then [] :: split_on sep s'
      else match split_on sep s' with
           | [] => [[c]]
           | seg :: segs => (c :: seg) :: segs
           end
  end.

(** [parts.join(sep)]. *)
Fixpoint join (sep : jsstr) (parts : list jsstr) : jsstr :=
  match parts with
  | [] => []
  | [p] => p
  | p :: ps => p ++ sep ++ join sep ps
  end.

(** ECMAScript LineTerminator: what [.] of a regular expression refuses. *)
Definition is_line_terminator (c : N) : bool :=
  (c =? 10) || (c =? 13) || (c =? 0x2028) || (c =? 0x2029).

(** ECMAScript WhiteSpace and LineTerminator: what [trim] and the start of
    [parseInt] skip. *)
Definition is_white_space (c : N) : bool :=
  (c =? 9) || (c =? 11) || (c =? 12) || (c =? 32) || (c =? 0xA0)
  || (c =? 0x1680) || ((0x2000 <=? c) && (c <=? 0x200A))
  || (c =? 0x202F) || (c =? 0x205F) || (c =? 0x3000) || (c =? 0xFEFF)
  || is_line_terminator c.

Fixpoint trim_start (s : jsstr) : jsstr :=
  match s with
  | c :: s' => if is_white_space c then trim_start s' else s
  | [] => []
  end.

Definition trim (s : jsstr) : jsstr :=
  reverse (trim_start (reverse (trim_start s))).

Definition is_digit (c : N) : bool := (48 <=? c) && (c <=? 57).
Definition is_lower (c : N) : bool := (97 <=? c) && (c <=? 122).
Definition is_upper (c : N) : bool := (65 <=? c) && (c <=? 90).

(** The longest prefix of units that satisfy [p], and the rest. *)
Fixpoint span (p : N → bool) (s : jsstr) : jsstr * jsstr :=
  match s with
  | c :: s' => if p c then let '(a, b) := span p s' in (c :: a, b) else ([], s)
  | [] => ([], [])
  end.

(** Decimal rendering of a non-negative integer, as [String(n)] and the
    template literals give it (below 10^21). *)
Definition decimal (n : N) : jsstr := js (NilEmpty.string_of_uint (N.to_uint n)).

Definition decimalZ (z : Z) : jsstr :=
  if (z <? 0)%Z then js "-" ++ decimal (Z.abs_N z) else decimal (Z.to_N z).

(** Digit [d < 36] of [Number.prototype.toString(36)]. *)
Definition digit36 (d : N) : N := if d <? 10 then 48 + d else 87 + d.

Fixpoint to_base36_aux (fuel : nat) (n : N) (acc : jsstr) : jsstr :=
  match fuel with
  | O => acc
  | S f =>
      let acc' := digit36 (n mod 36) :: acc in
      if n / 36 =? 0 then acc' else to_base36_aux f (n / 36) acc'
  end.

(** [n.toString(36)] of a non-negative integer. *)
Definition to_base36 (n : N) : jsstr := to_base36_aux (S (N.to_nat (N.log2 n))) n [].

End Js.
Import Js.

(** ** Exceptions and the values of the language *)

Inductive Exn := TypeError | URIError | HostError.

Inductive Result (A : Type) :=
  | Ok (a : A)
  | Throw (e : Exn).
Arguments Ok {A} a.
Arguments Throw {A} e.

Definition rbind {A B} (m : Result A) (k : A → Result B) : Result B :=
  match m with
  | Ok a => k a
  | Throw e => Throw e
  end.

Notation "'let*' x ':=' m 'in' k" := (rbind m (λ x, k))
  (at level 10, x name, m at level 100, k at level 200).

Module Value.

(** A value as [JSON.parse] or [Object.fromEntries] builds it.  A number is
    carried by its canonical rendering ([Number::toString]): the code under
    study only converts numbers to strings or tests them for truth. *)
Inductive JsValue :=
  | JUndefined
  | JNull
  | JBool (b : bool)
  | JNum (repr : jsstr)
  | JStr (s : jsstr)
  | JArr (items : list JsValue)
  | JObj (props : list (jsstr * JsValue)).

(** ToBoolean. *)
Definition truthy (v : JsValue) : bool :=
  match v with
  | JUndefined | JNull => false
  | JBool b => b
  | JNum r => negb (eqs r (js "0")) && negb (eqs r (js "NaN"))
  | JStr s => negb (eqs s [])
  | JArr _ | JObj _ => true
  end.

Fixpoint assoc (name : jsstr) (props : list (jsstr * JsValue)) : option JsValue :=
  match props with
  | [] => None
  | (k, v) :: rest => if eqs k name then Some v else assoc name rest
  end.

(** ToString.  An array joins its elements with commas, [null] and
    [undefined] elements rendering as the empty string, the others by their
    own conversion, left to right.  A plain object is rendered by the
    [toString] it inherits, unless it has a member of that name of its own:
    no value of [JSON.parse] is callable, so that member is passed over, no
    [valueOf] gives a primitive either, and the conversion throws a
    [TypeError]. *)
Fixpoint toString (v : JsValue) : Result jsstr :=
  match v with
  | JUndefined => Ok (js "undefined")
  | JNull => Ok (js "null")
  | JBool true => Ok (js "true")
  | JBool false => Ok (js "false")
  | JNum r => Ok r
  | JStr s => Ok s
  | JArr items =>
      let* parts :=
        (fix each (l : list JsValue) : Result (list jsstr) :=
           match l with
           | [] => Ok []
           | x :: l' =>
               let* s := match x with
                         | JUndefined | JNull => Ok []
                         | _ => toString x
                         end in
               let* r := each l' in
               Ok (s :: r)
           end) items in
      Ok (join (js ",") parts)
  | JObj props =>
      match assoc (js "toString") props with
      | Some _ => Throw TypeError
      | None => Ok (js "[object Object]")
      end
  end.

(** [v.name] for the names [status], [url] and [key], none of which is a
    member of a built-in prototype: reading them off [null] throws, off an
    object gives the own property, off anything else [undefined]. *)
Definition get_prop (v : JsValue) (name : jsstr) : Result JsValue :=
  match v with
  | JUndefined | JNull => Throw TypeError
  | JObj props => Ok (default JUndefined (assoc name props))
  | _ => Ok JUndefined
  end.

(** [Object.fromEntries(entries)]: a later entry of the same name wins. *)
Definition fromEntries (entries : list (jsstr * jsstr)) : JsValue :=
  JObj (reverse (map (λ '(k, v), (k, JStr v)) entries)).

Definition radix_digit (radix c : N) : option N :=
  let d := if is_digit c then Some (c - 48)
           else if is_lower c then Some (c - 87)
           else if is_upper c then Some (c - 55)
           else None in
  match d with
  | Some n => if n <? radix then Some n else None
  | None => None
  end.

Fixpoint digits_value (radix : N) (acc : Z) (ds : jsstr) : Z :=
  match ds with
  | [] => acc
  | c :: ds' =>
      digits_value radix (acc * Z.of_N radix + Z.of_N (default 0%N (radix_digit radix c)))%Z ds'
  end.

(** [parseInt(s)] of a string, without a radix; [None] is [NaN].  The
    integer is exact where the double is rounded, which no comparison with
    0, 2 or 6 sees. *)
Definition parseInt_str (s : jsstr) : option Z :=
  let s1 := trim_start s in
  let '(sign, s2) :=
    match s1 with
    | 45 :: r => ((-1)%Z, r)
    | 43 :: r => (1%Z, r)
    | _ => (1%Z, s1)
    end in
  let '(radix, s3) :=
    match s2 with
    | 48 :: 120 :: r => (16, r)
    | 48 :: 88 :: r => (16, r)
    | _ => (10, s2)
    end in
  let '(ds, _) := span (λ c, bool_decide (is_Some (radix_digit radix c))) s3 in
  match ds with
  | [] => None
  | _ => Some (sign * digits_value radix 0 ds)%Z
  end.

(** [parseInt(v)]: the argument is converted to a string first. *)
Definition parseInt (v : JsValue) : Result (option Z) :=
  let* s := toString v in Ok (parseInt_str s).

End Value.
Import Value.

(** ** [decodeURIComponent] *)

Module Uri.

Definition hexval (c : N) : option N := radix_digit 16 c.

Definition hex_byte (h1 h2 : N) : option N :=
  match hexval h1, hexval h2 with
  | Some a, Some b => Some (16 * a + b)
  | _, _ => None
  end.

(** An escape [%XY] that must follow as part of a multi-byte sequence. *)
Definition escape (p h1 h2 : N) : option N :=
  if p =? 37 then hex_byte h1 h2 else None.

Definition is_cont (b : N) : bool := (0x80 <=? b) && (b <? 0xC0).

(** The code point of a well-formed UTF-8 sequence of 2, 3 or 4 octets:
    continuation octets in range, shortest form, no surrogate, at most
    U+10FFFF. *)
Definition utf8_code_point (octets : list N) : option N :=
  match octets with
  | [b1; b2] =>
      let v := (b1 - 0xC0) * 64 + (b2 - 0x80) in
      if is_cont b2 && (0x80 <=? v) then Some v else None
  | [b1; b2; b3] =>
      let v := (b1 - 0xE0) * 4096 + (b2 - 0x80) * 64 + (b3 - 0x80) in
      if is_cont b2 && is_cont b3 && (0x800 <=? v)
         && negb ((0xD800 <=? v) && (v <=? 0xDFFF)) then Some v else None
  | [b1; b2; b3; b4] =>
      let v := (b1 - 0xF0) * 262144 + (b2 - 0x80) * 4096 + (b3 - 0x80) * 64 + (b4 - 0x80) in
      if is_cont b2 && is_cont b3 && is_cont b4 && (0x10000 <=? v) && (v <=? 0x10FFFF)
      then Some v else None
  | _ => None
  end.

(** UTF-16 encoding of a code point. *)
Definition utf16 (v : N) : jsstr :=
  if v <? 0x10000 then [v]
  else [0xD800 + (v - 0x10000) / 0x400; 0xDC00 + (v - 0x10000) mod 0x400].

Definition emit (octets : list N) (rest : Result jsstr) : Result jsstr :=
  match utf8_code_point octets with
  | Some v => let* r := rest in Ok (utf16 v ++ r)
  | None => Throw URIError
  end.

(** [decodeURIComponent(s)]: every [%XY] escape is replaced by the code
    point its UTF-8 sequence encodes; a malformed escape or sequence throws
    a [URIError]. *)
Fixpoint decodeURIComponent (s : jsstr) : Result jsstr :=
  match s with
  | [] => Ok []
  | c :: t =>
      if negb (c =? 37) then let* r := decodeURIComponent t in Ok (c :: r)
      else
        match t with
        | h1 :: h2 :: t1 =>
            match hex_byte h1 h2 with
            | None => Throw URIError
            | Some b1 =>
                if b1 <? 0x80 then let* r := decodeURIComponent t1 in Ok (b1 :: r)
                else if b1 <? 0xC0 then Throw URIError
                else if b1 <? 0xE0 then
                  match t1 with
                  | p2 :: h3 :: h4 :: t2 =>
                      match escape p2 h3 h4 with
                      | Some b2 => emit [b1; b2] (decodeURIComponent t2)
                      | None => Throw URIError
                      end
                  | _ => Throw URIError
                  end
                else if b1 <? 0xF0 then
                  match t1 with
                  | p2 :: h3 :: h4 :: p3 :: h5 :: h6 :: t3 =>
                      match escape p2 h3 h4, escape p3 h5 h6 with
                      | Some b2, Some b3 => emit [b1; b2; b3] (decodeURIComponent t3)
                      | _, _ => Throw URIError
                      end
                  | _ => Throw URIError
                  end
                else if b1 <? 0xF8 then
                  match t1 with
                  | p2 :: h3 :: h4 :: p3 :: h5 :: h6 :: p4 :: h7 :: h8 :: t4 =>
                      match escape p2 h3 h4, escape p3 h5 h6, escape p4 h7 h8 with
                      | Some b2, Some b3, Some b4 =>
                          emit [b1; b2; b3; b4] (decodeURIComponent t4)
                      | _, _, _ => Throw URIError
                      end
                  | _ => Throw URIError
                  end
                else Throw URIError
            end
        | _ => Throw URIError
        end
  end.

End Uri.
Import Uri.

(** ** Document keys and the key registry ([onLoadFile], lines 274-281) *)

Module Registry.

(** One step of the rolling hash: [(hash*31 + c) >>> 0]. *)
Definition hashStep (hash c : N) : N := (hash * 31 + c) mod 2 ^ 32.

Definition rollingHash (s : jsstr) : N := fold_left hashStep s 0.

(** The key of one open attempt; [mtime] is
    [effectiveFile.stat?.mtime || Date.now()] and [randomId] the draw
    [Math.random().toString(36).slice(2,10)]. *)
Definition uniqueKey (path : jsstr) (mtime : N) (randomId : jsstr) : jsstr :=
  let baseForKey := path ++ js "|" ++ decimal mtime ++ js "|" ++ randomId in
  js "oo_" ++ to_base36 (rollingHash baseForKey) ++ js "_" ++ randomId.

(** [keyFileMap[uniqueKey] = effectiveFile.path]. *)
Definition register (key path : jsstr) (reg : gmap jsstr jsstr) : gmap jsstr jsstr :=
  <[key := path]> reg.

(** The members every plain object inherits from [Object.prototype]. *)
Definition objectPrototypeNames : list jsstr :=
  js <$> ["constructor"; "__defineGetter__"; "__defineSetter__"; "hasOwnProperty";
          "__lookupGetter__"; "__lookupSetter__"; "isPrototypeOf";
          "propertyIsEnumerable"; "toString"; "valueOf"; "__proto__";
          "toLocaleString"]%string.

(** What [filePath] can hold: a string, or an inherited member of the
    registry object, which is no string. *)
Inductive PathVal :=
  | PStr (p : jsstr)
  | PInherited.

(** [keyFileMap[key]]; [None] is [undefined]. *)
Definition registry_get (reg : gmap jsstr jsstr) (key : jsstr) : option PathVal :=
  match reg !! key with
  | Some p => Some (PStr p)
  | None => if bool_decide (key ∈ objectPrototypeNames) then Some PInherited else None
  end.

Definition path_truthy (v : PathVal) : bool :=
  match v with
  | PStr p => negb (eqs p [])
  | PInherited => true
  end.

(** The end of the legacy pattern, [_\d+_[a-z0-9]+$]. *)
Definition legacy_tail (s : jsstr) : bool :=
  match s with
  | c :: t =>
      let '(ds, r) := span is_digit t in
      (c =? 95) && negb (eqs ds [])
      && match r with
         | c' :: a =>
             (c' =? 95) && negb (eqs a []) && forallb (λ c, is_lower c || is_digit c) a
         | [] => false
         end
  | [] => false
  end.

(** The lazy group [(.+?)]: it takes one more unit that is no line
    terminator at a time and stops at the first length after which the rest
    of the pattern matches. *)
Fixpoint lazy_group (taken rest : jsstr) : option jsstr :=
  match rest with
  | [] => None
  | c :: rest' =>
      if is_line_terminator c then None
      else if legacy_tail rest' then Some (taken ++ [c])
      else lazy_group (taken ++ [c]) rest'
  end.

(** [/^obsidian_(.+?)_\d+_[a-z0-9]+$/.exec(key)], giving [match[1]]. *)
Definition legacy_exec (key : jsstr) : option jsstr :=
  match strip_prefix (js "obsidian_") key with
  | Some rest => lazy_group [] rest
  | None => None
  end.

(** Lines 1683-1695: the registry first, the legacy pattern when the
    registry has nothing truthy under the key; [Ok None] leaves [filePath]
    null, and a capture that does not decode throws. *)
Definition resolve (reg : gmap jsstr jsstr) (key : jsstr) : Result (option PathVal) :=
  match registry_get reg key with
  | Some v =>
      if path_truthy v then Ok (Some v)
      else match legacy_exec key with
           | Some cap => let* p := decodeURIComponent cap in Ok (Some (PStr p))
           | None => Ok None
           end
  | None =>
      match legacy_exec key with
      | Some cap => let* p := decodeURIComponent cap in Ok (Some (PStr p))
      | None => Ok None
      end
  end.

(** The pattern as a shape, for the properties below. *)
Definition isLowerAlnum (c : N) : Prop := is_lower c || is_digit c = true.

Definition noLineTerminator (c : N) : Prop := is_line_terminator c = false.

(** The end of the legacy pattern, read as a shape. *)
Definition tailShape (s : jsstr) : Prop :=
  ∃ ds an, s = 95 :: ds ++ 95 :: an
    ∧ ds ≠ [] ∧ Forall (λ c, is_digit c = true) ds
    ∧ an ≠ [] ∧ Forall isLowerAlnum an.

Definition underscores (s : jsstr) : nat := length (filter (λ c, c = 95) s).

End Registry.
Import Registry.

(** ** The vault, the network and HTTP messages *)

Inductive VaultEntry :=
  | VFile (data : list byte)
  | VFolder.

(** [vault.getAbstractFileByPath(filePath)]; the host finds nothing for an
    argument that is no string. *)
Definition getAbstractFileByPath (vault : gmap jsstr VaultEntry) (v : PathVal)
  : option VaultEntry :=
  match v with
  | PStr p => vault !! p
  | PInherited => None
  end.

(** [vault.modifyBinary(file, data)] for the file found at [p]. *)
Definition modifyBinary (vault : gmap jsstr VaultEntry) (p : jsstr) (data : list byte)
  : gmap jsstr VaultEntry :=
  <[p := VFile data]> vault.

(** What [requestUrl] does: it throws, or it gives a response. *)
Inductive FetchResult :=
  | FetchThrows
  | FetchResponse (status : Z) (arrayBuffer : list byte).

Record PluginState := {
  keyFileMap : gmap jsstr jsstr;
  vault : gmap jsstr VaultEntry
}.

Inductive Body :=
  | BodyJson (data : JsValue)   (* the text is JSON, [JSON.parse] gives [data] *)
  | BodyText (text : jsstr).    (* [JSON.parse] throws on the text *)

Record Request := {
  method : jsstr;
  url : option jsstr;
  host : option jsstr;
  body : Body
}.

Inductive Page :=
  | CreateNewPage
  | SaveAsPage (url title : jsstr).

Inductive Content :=
  | CEmpty
  | CJson (v : JsValue)
  | CText (msg : jsstr)
  | CHtml (page : Page)
  | CFile (path : jsstr) (data : list byte).

Record Response := {
  code : Z;
  contentType : option jsstr;
  content : Content
}.

(** [{ error: 0 }], the acknowledgement of the callback receiver. *)
Definition ackBody : JsValue := JObj [(js "error", JNum (js "0"))].

Definition ack : Response :=
  {| code := 200; contentType := Some (js "application/json"); content := CJson ackBody |}.

Definition ackInfo : Response :=
  {| code := 200; contentType := Some (js "application/json");
     content := CJson (JObj [(js "error", JNum (js "0"));
                             (js "info", JStr (js "OnlyOffice callback server is running"))]) |}.

Definition preflight : Response := {| code := 200; contentType := None; content := CEmpty |}.

(** ** The callback receiver ([startCallbackServer], lines 1620-1745) *)

(** Line 1639: [req.method === 'POST'] and the URL up to its query is
    [/callback]; a missing or empty URL reads as [/]. *)
Definition isCallbackPost (req : Request) : bool :=
  let rawUrl := match url req with
                | Some u => if eqs u [] then js "/" else u
                | None => js "/"
                end in
  eqs (method req) (js "POST") && eqs (before_first 63 rawUrl) (js "/callback").

Section Callback.

(** [new URL(u).searchParams.get('key')], [None] when it throws or is null. *)
Variable url_key : JsValue → option jsstr.
(** The entries of [new URLSearchParams(body)]. *)
Variable form_entries : jsstr → list (jsstr * jsstr).
(** [requestUrl({ url, method: 'GET', ... })]. *)
Variable requestUrl : JsValue → FetchResult.

Definition savedNotice : jsstr := js "OnlyOffice: Document saved from callback".

(** Lines 1645-1660: [None] is the early acknowledgement of a body that is
    neither JSON nor form-encoded. *)
Definition parseBody (b : Body) : option JsValue :=
  match b with
  | BodyJson data => Some data
  | BodyText text =>
      if includes text (js "url=") && includes text (js "&")
      then Some (fromEntries (form_entries text))
      else None
  end.

(** Line 1664, [parseInt(data.status) || 0]: [NaN] reads as 0, and the
    conversion of the status to a string may throw. *)
Definition statusOf (status : JsValue) : Result Z :=
  let* n := parseInt status in Ok (default 0%Z n).

(** Lines 1664-1666: the status is read, then tested with the url. *)
Definition isSaveRequest (data status_v url_v : JsValue) : Result bool :=
  let* status := statusOf status_v in
  Ok (truthy data
      && (bool_decide (status = 2%Z) || bool_decide (status = 6%Z)
          || bool_decide (status = 0%Z))
      && truthy url_v).

(** Lines 1670-1679. *)
Definition keyOf (key_v url_v : JsValue) : JsValue :=
  if truthy key_v then key_v
  else if truthy url_v then
    match url_key url_v with
    | Some k => JStr k
    | None => key_v
    end
  else key_v.

(** Lines 1696-1719: the file is fetched and overwritten only when the path
    names a file of the vault and the response has status 200. *)
Definition saveTo (st : PluginState) (filePath : PathVal) (url_v : JsValue)
  : PluginState * list jsstr :=
  match filePath, getAbstractFileByPath (vault st) filePath with
  | PStr p, Some (VFile _) =>
      match requestUrl url_v with
      | FetchResponse status buf =>
          if (status =? 200)%Z
          then ({| keyFileMap := keyFileMap st; vault := modifyBinary (vault st) p buf |},
                [savedNotice])
          else (st, [])
      | FetchThrows => (st, [])
      end
  | _, _ => (st, [])
  end.

(** The body of the [try] of lines 1643-1732, after the early return.  The
    key is converted to a string where it is used as a property name
    (line 1685). *)
Definition processCallback (st : PluginState) (data : JsValue)
  : Result (PluginState * list jsstr) :=
  let* status_v := get_prop data (js "status") in
  let* url_v := get_prop data (js "url") in
  let* save := isSaveRequest data status_v url_v in
  if save then
    let* key_v := get_prop data (js "key") in
    let key := keyOf key_v url_v in
    if truthy key then
      let* name := toString key in
      let* filePath := resolve (keyFileMap st) name in
      match filePath with
      | Some fp => if path_truthy fp then Ok (saveTo st fp url_v) else Ok (st, [])
      | None => Ok (st, [])
      end
    else Ok (st, [])
  else Ok (st, []).

(** The request listener.  Every branch of a POST to [/callback] ends in the
    acknowledgement, the [catch] of line 1733 included. *)
Definition callbackHandler (st : PluginState) (req : Request)
  : PluginState * list jsstr * Response :=
  if eqs (method req) (js "OPTIONS") then (st, [], preflight)
  else
    if isCallbackPost req then
      match parseBody (body req) with
      | None => (st, [], ack)
      | Some data =>
          match processCallback st data with
          | Ok (st', notices) => (st', notices, ack)
          | Throw _ => (st, [], ack)
          end
      end
    else (st, [], ackInfo).

End Callback.

(** ** Paths and the file system ([path.join], [fs])

    Paths are those of Node's [path.posix], the [path] module on Linux and
    macOS: the only separator is the slash and a path is absolute when it
    begins with one.  ([path.win32] also splits on the backslash and knows
    drive letters; it is not modelled.) *)

Module Path.

Definition slash : N := 47.
Definition dot : jsstr := js ".".
Definition dotdot : jsstr := js "..".

(** [normalizeString]: the segments are read left to right; an empty
    segment and [.] are dropped, [..] removes the segment before it, and
    where there is none it is kept only when the path may climb above its
    start.  [stack] holds the result so far, last segment first. *)
Fixpoint normalize_segments (allowAboveRoot : bool) (stack segs : list jsstr)
  : list jsstr :=
  match segs with
  | [] => reverse stack
  | seg :: rest =>
      if eqs seg [] || eqs seg dot then normalize_segments allowAboveRoot stack rest
      else if eqs seg dotdot then
        match stack with
        | top :: below =>
            if eqs top dotdot
            then normalize_segments allowAboveRoot (dotdot :: stack) rest
            else normalize_segments allowAboveRoot below rest
        | [] =>
            if allowAboveRoot
            then normalize_segments allowAboveRoot [dotdot] rest
            else normalize_segments allowAboveRoot [] rest
        end
      else normalize_segments allowAboveRoot (seg :: stack) rest
  end.

Definition isAbsolute (p : jsstr) : bool :=
  match p with
  | c :: _ => c =? slash
  | [] => false
  end.

(** [path.normalize(p)]. *)
Definition normalize (p : jsstr) : jsstr :=
  match p with
  | [] => dot
  | _ =>
      let trailing := bool_decide (last p = Some slash) in
      let inner :=
        join [slash] (normalize_segments (negb (isAbsolute p)) [] (split_on slash p)) in
      if eqs inner [] then
        if isAbsolute p then [slash] else if trailing then js "./" else dot
      else
        (if isAbsolute p then [slash] else [])
        ++ inner ++ (if trailing then [slash] else [])
  end.

(** [path.join(...parts)]: the non-empty parts joined by [/], normalized. *)
Definition join_paths (parts : list jsstr) : jsstr :=
  match filter (λ p, p ≠ []) parts with
  | [] => dot
  | nonempty => normalize (join [slash] nonempty)
  end.

(** The directory chain of a path that begins with a slash. *)
Definition canon (p : jsstr) : list jsstr :=
  normalize_segments false [] (split_on slash p).

(** [p] lies in the tree under [root]. *)
Definition inside (root p : jsstr) : Prop := canon root `prefix_of` canon p.

End Path.
Import Path.

Inductive FsNode :=
  | FsFile (data : list byte)
  | FsDir.

(** [fs.existsSync(p)]; a path with a NUL unit is refused by the runtime. *)
Definition existsSync (fs : gmap jsstr FsNode) (p : jsstr) : bool :=
  negb (bool_decide (0 ∈ p)) && bool_decide (is_Some (fs !! p)).

(** [fs.promises.readFile(p)]: the bytes of a file; a directory, or
    nothing at [p], rejects. *)
Definition readFile (fs : gmap jsstr FsNode) (p : jsstr) : Result (list byte) :=
  match fs !! p with
  | Some (FsFile data) => Ok data
  | _ => Throw HostError
  end.

(** [fs.existsSync(p) && fs.statSync(p).isFile()], with the bytes a read
    stream of [p] then yields. *)
Definition regularFile (fs : gmap jsstr FsNode) (p : jsstr) : option (list byte) :=
  if existsSync fs p then
    match fs !! p with
    | Some (FsFile data) => Some data
    | _ => None
    end
  else None.

(** ** The static file server ([startInternalServer], lines 1460-1569) *)

(** [req.url?.split('?')[0] || '/']. *)
Definition requestedPath (req : Request) : jsstr :=
  let first := before_first 63 (default [] (url req)) in
  if eqs first [] then js "/" else first.

Section StaticServer.

(** [mime.lookup(p)], [None] for [false]. *)
Variable mime_lookup : jsstr → option jsstr.
(** [new URL(u, base).searchParams.get(name)]; the constructor may throw. *)
Variable search_get : jsstr → jsstr → jsstr → Result (option jsstr).

Variables vaultPath resolvedPluginPath : jsstr.
(** [e.message] of what the [try] of line 1476 catches: the text the
    runtime gives the exception. *)
Variable message : Exn → jsstr.

Definition textResponse (c : Z) (msg : jsstr) : Response :=
  {| code := c; contentType := Some (js "text/plain"); content := CText msg |}.

Definition htmlResponse (pg : Page) : Response :=
  {| code := 200; contentType := Some (js "text/html"); content := CHtml pg |}.

Definition fileResponse (ctype : jsstr) (p : jsstr) (data : list byte) : Response :=
  {| code := 200; contentType := Some ctype; content := CFile p data |}.

Definition mimeOf (p : jsstr) : jsstr :=
  default (js "application/octet-stream") (mime_lookup p).

(** [reqPath.replace(/^\//, '')]. *)
Definition dropLeadingSlash (reqPath : jsstr) : jsstr :=
  match reqPath with
  | c :: r => if c =? 47 then r else reqPath
  | [] => reqPath
  end.

(** Lines 1499-1519 and 1521-1535: one of the two pages of the plugin
    directory. *)
Definition servePage (fs : gmap jsstr FsNode) (name : jsstr) : Response :=
  let pagePath := join_paths [resolvedPluginPath; name] in
  if existsSync fs pagePath then
    match fs !! pagePath with
    | Some (FsFile data) => fileResponse (js "text/html; charset=UTF-8") pagePath data
    | _ => textResponse 500 (js "Error reading " ++ name)
    end
  else textResponse 404 (name ++ js " not found").

(** Lines 1537-1562: the vault first, then the plugin directory. *)
Definition serveFile (fs : gmap jsstr FsNode) (reqPath : jsstr) : Response :=
  let filePath := join_paths [vaultPath; dropLeadingSlash reqPath] in
  match regularFile fs filePath with
  | Some data => fileResponse (mimeOf filePath) filePath data
  | None =>
      let pluginFilePath := join_paths [resolvedPluginPath; dropLeadingSlash reqPath] in
      match regularFile fs pluginFilePath with
      | Some data => fileResponse (mimeOf pluginFilePath) pluginFilePath data
      | None => textResponse 404 (js "File not found: " ++ filePath)
      end
  end.

(** The body of the [try] of line 1476. *)
Definition route (fs : gmap jsstr FsNode) (req : Request) : Result Response :=
  let rawUrl := default [] (url req) in
  let* reqPath := decodeURIComponent (requestedPath req) in
  if eqs reqPath (js "/api/createNew") then Ok (htmlResponse CreateNewPage)
  else if eqs reqPath (js "/api/saveAs") then
    let base := js "http://" ++ match host req with
                                | Some h => if eqs h [] then js "localhost" else h
                                | None => js "localhost"
                                end in
    let* u := search_get rawUrl base (js "url") in
    let* t := search_get rawUrl base (js "title") in
    Ok (htmlResponse (SaveAsPage (default [] u) (default [] t)))
  else if eqs reqPath (js "/") || eqs reqPath (js "/editor.html")
  then Ok (servePage fs (js "editor.html"))
  else if eqs reqPath (js "/embedded-editor.html")
  then Ok (servePage fs (js "embedded-editor.html"))
  else Ok (serveFile fs reqPath).

(** The request listener; an exception while serving answers 500 with its
    message (line 1567).  GET and HEAD take the same path: [content] is what
    the handler writes, of which the runtime sends the headers only in answer
    to HEAD. *)
Definition staticHandler (fs : gmap jsstr FsNode) (req : Request) : Response :=
  if eqs (method req) (js "OPTIONS") then preflight
  else
    match route fs req with
    | Ok r => r
    | Throw e => textResponse 500 (js "Internal server error: " ++ message e)
    end.

End StaticServer.

(** ** The configuration builder and signer
    ([loadDirectOnlyOfficeInterface], lines 417-511) *)

Module Config.

Record Permissions := {
  edit : bool; download : bool; print : bool; chat : bool; comment : bool;
  copy : bool; fillForms : bool; modifyContent : bool; modifyFilter : bool;
  review : bool; rename : bool
}.

Definition allPermissions : Permissions :=
  {| edit := true; download := true; print := true; chat := false; comment := true;
     copy := true; fillForms := true; modifyContent := true; modifyFilter := true;
     review := true; rename := true |}.

Record Document := {
  fileType : jsstr;
  key : option jsstr;
  title : jsstr;
  url : jsstr;
  permissions : Permissions
}.

Record Customization := {
  autosave : bool; toolbarNoTabs : bool; plugins : bool; comments : bool;
  compactChat : bool; forcesave : bool
}.

Record EditorConfig := {
  mode : jsstr;
  lang : jsstr;
  userId : jsstr;
  userName : jsstr;
  customization : Customization;
  callbackUrl : jsstr;
  createUrl : jsstr;
  saveAsUrl : jsstr;
  coEditingMode : jsstr;
  coEditingChange : bool;
  fastCoAuthoring : bool
}.

Record BaseConfig := {
  documentType : jsstr;
  document : Document;
  editorConfig : EditorConfig;
  width : jsstr;
  height : jsstr
}.

(** What is handed to [new SignJWT(...)]. *)
Inductive Claims :=
  | RequestClaims (key : option jsstr) (ts : N)
  | ConfigClaims (document : Document) (editorConfig : EditorConfig) (iat : N).

Record Settings := {
  jwtSecret : option jsstr;
  useRequestToken : option bool
}.

Record OpenedFile := {
  name : jsstr;
  extension : jsstr
}.

(** What the webview receives once it has loaded: the configuration and the
    token of the payload; [signedPayload] records the claim set given to the
    signer. *)
Record EditorLaunch := {
  sentConfig : BaseConfig;
  signedPayload : option Claims;
  signedToken : option jsstr
}.

Section Builder.

(** [new SignJWT(claims).setProtectedHeader(...).sign(secret)]. *)
Variable signJWT : Claims → jsstr → Result jsstr.
Variable encodeURIComponent : jsstr → Result jsstr.
Variable toLowerCase : jsstr → jsstr.

(** The arrow function [append] of line 489, for an encoded token. *)
Definition append (encodedToken u : jsstr) : jsstr :=
  u ++ (if includes u (js "?") then js "&" else js "?") ++ js "token=" ++ encodedToken.

Definition documentTypeOf (ext : jsstr) : jsstr :=
  if eqs ext (js "xlsx") then js "cell"
  else if eqs ext (js "pptx") then js "slide"
  else js "word".

(** Lines 420-473. *)
Definition baseConfigOf (localServerPort : N) (dockerFileUrl dockerBaseUrl cbUrl : jsstr)
    (file : OpenedFile) (isStartDocx : bool) (uniqueKey : option jsstr) : BaseConfig :=
  let documentUrl :=
    if isStartDocx then dockerBaseUrl ++ js "/assets/Start.docx" else dockerFileUrl in
  let ext := toLowerCase (if eqs (extension file) [] then js "docx" else extension file) in
  let dtype := documentTypeOf ext in
  {| documentType := dtype;
     document := {| fileType := if eqs ext [] then js "docx" else ext;
                    key := uniqueKey;
                    title := name file;
                    url := documentUrl;
                    permissions := allPermissions |};
     editorConfig := {| mode := js "edit"; lang := js "en";
                        userId := js "obsidian-static-user";
                        userName := js "Obsidian User";
                        customization := {| autosave := false; toolbarNoTabs := false;
                                            plugins := true; comments := false;
                                            compactChat := false; forcesave := true |};
                        callbackUrl := cbUrl;
                        createUrl := js "http://127.0.0.1:" ++ decimal localServerPort
                                     ++ js "/api/createNew?fileType=" ++ dtype;
                        saveAsUrl := js "http://127.0.0.1:" ++ decimal localServerPort
                                     ++ js "/api/saveAs";
                        coEditingMode := js "strict";
                        coEditingChange := false;
                        fastCoAuthoring := false |};
     width := js "100%";
     height := js "100%" |}.

(** Lines 490-493: the four assignments. *)
Definition appendToken (encodedToken : jsstr) (c : BaseConfig) : BaseConfig :=
  let d := document c in
  let e := editorConfig c in
  {| documentType := documentType c;
     document := {| fileType := fileType d; key := key d; title := title d;
                    url := append encodedToken (url d);
                    permissions := permissions d |};
     editorConfig := {| mode := mode e; lang := lang e; userId := userId e;
                        userName := userName e; customization := customization e;
                        callbackUrl := append encodedToken (callbackUrl e);
                        createUrl := append encodedToken (createUrl e);
                        saveAsUrl := append encodedToken (saveAsUrl e);
                        coEditingMode := coEditingMode e;
                        coEditingChange := coEditingChange e;
                        fastCoAuthoring := fastCoAuthoring e |};
     width := width c;
     height := height c |}.

(** [jwtSecret && jwtSecret.trim() !== '']. *)
Definition secretConfigured (st : Settings) : option jsstr :=
  match jwtSecret st with
  | Some s => if eqs (trim s) [] then None else Some s
  | None => None
  end.

(** [useRequestToken !== false]. *)
Definition requestTokensEnabled (st : Settings) : bool :=
  match useRequestToken st with
  | Some false => false
  | _ => true
  end.

(** Lines 475-511, and what [did-finish-load] then injects.  [now1] and
    [now2] are the two readings of [Date.now()]; a [Throw] is the error panel
    of line 508, after which nothing is sent. *)
Definition buildEditorConfig (st : Settings) (localServerPort : N)
    (dockerFileUrl dockerBaseUrl cbUrl : jsstr) (file : OpenedFile)
    (isStartDocx : bool) (uniqueKey : option jsstr) (now1 now2 : N)
  : Result EditorLaunch :=
  let base := baseConfigOf localServerPort dockerFileUrl dockerBaseUrl cbUrl file
                isStartDocx uniqueKey in
  match secretConfigured st with
  | None => Ok {| sentConfig := base; signedPayload := None; signedToken := None |}
  | Some secret =>
      let* final :=
        if requestTokensEnabled st then
          let* requestToken := signJWT (RequestClaims uniqueKey (now1 / 1000)) secret in
          let* encoded := encodeURIComponent requestToken in
          Ok (appendToken encoded base)
        else Ok base in
      let payload := ConfigClaims (document final) (editorConfig final) (now2 / 1000) in
      let* token := signJWT payload secret in
      Ok {| sentConfig := final; signedPayload := Some payload; signedToken := Some token |}
  end.

End Builder.

End Config.

(** ** Creating a new document ([openNewDocument], lines 1308-1429) *)

Module Create.

Inductive DocType := docx | xlsx | pptx.

Definition extOf (t : DocType) : jsstr :=
  match t with
  | docx => js "docx"
  | xlsx => js "xlsx"
  | pptx => js "pptx"
  end.

(** Line 1359: the nine units a file name may not hold (backslash, slash,
    colon, star, question mark, double quote, angle brackets, bar) are
    removed, then the name is trimmed. *)
Definition forbidden (c : N) : bool :=
  bool_decide (c ∈ [92; 47; 58; 42; 63; 34; 60; 62; 124]).

Definition sanitize (v : jsstr) : jsstr := trim (filter (λ c, negb (forbidden c)) v).

(** Canonicalize of a case-insensitive pattern without the [u] flag: a
    unit at or above 128 never canonicalizes to an ASCII letter. *)
Definition upper (c : N) : N := if is_lower c then c - 32 else c.

Definition sameLetters (a b : jsstr) : bool :=
  bool_decide (upper <$> a = upper <$> b).

(** The pattern [new RegExp(`\.${chosenType}$`,'i')].  In the template
    literal [\.] is the escape of a plain dot, so the pattern is
    [.docx$] with the wildcard: one unit that is no line terminator, then
    the letters of the type, then the end.  The result is what lies before
    the match. *)
Definition extRegex (t : DocType) (s : jsstr) : option jsstr :=
  let n := (length s - S (length (extOf t)))%nat in
  match drop n s with
  | c :: e =>
      if negb (is_line_terminator c) && sameLetters e (extOf t)
         && bool_decide (S (length (extOf t)) ≤ length s)%nat
      then Some (take n s) else None
  | [] => None
  end.

(** [`${base} (${i}).${chosenType}`]. *)
Definition candidate (base : jsstr) (t : DocType) (i : N) : jsstr :=
  base ++ js " (" ++ decimal i ++ js ")." ++ extOf t.

(** [`${baseName} ${idx}.${wantedExt}`]. *)
Definition untitled (t : DocType) (idx : N) : jsstr :=
  js "Untitled Document " ++ decimal idx ++ js "." ++ extOf t.

(** [while (vault.getAbstractFileByPath(mk i)) i++], from [i]. *)
Fixpoint firstFree (vault : gmap jsstr VaultEntry) (mk : N → jsstr) (fuel : nat) (i : N)
  : option jsstr :=
  match fuel with
  | O => None
  | S f =>
      match vault !! mk i with
      | Some _ => firstFree vault mk f (i + 1)
      | None => Some (mk i)
      end
  end.

(** How [openNewDocument] ends: the file is created, one of the three
    notices of lines 1358, 1360 and 1409 is shown, or the [catch] of line
    1425 reports a failure (a template that exists and cannot be read, a
    name the host refuses). *)
Inductive Outcome :=
  | Created (name : jsstr)
  | CreationCancelled
  | InvalidName
  | NoTemplate
  | Failed.

(** Lines 1359-1368 for a non-empty sanitized name. *)
Definition uniqueName (vault : gmap jsstr VaultEntry) (fuel : nat) (t : DocType)
    (sanitized : jsstr) : option jsstr :=
  let requestedName :=
    match extRegex t sanitized with
    | Some _ => sanitized
    | None => sanitized ++ js "." ++ extOf t
    end in
  match vault !! requestedName with
  | Some _ =>
      let base := default requestedName (extRegex t requestedName) in
      firstFree vault (candidate base t) fuel 1
  | None => Some requestedName
  end.

(** [vault.createBinary(name, data)]: the host refuses an existing path. *)
Definition createBinary (vault : gmap jsstr VaultEntry) (name : jsstr) (data : list byte)
  : Result (gmap jsstr VaultEntry) :=
  match vault !! name with
  | Some _ => Throw HostError
  | None => Ok (<[name := VFile data]> vault)
  end.

Section OpenNew.

(** The file system, [adapter.getBasePath()] and the plugin directory of
    line 1374. *)
Variable fs : gmap jsstr FsNode.
Variables base pluginDir : jsstr.
(** The embedded minimal document of line 1400. *)
Variable minimalDocx : list byte.

(** Lines 1376-1380. *)
Definition candidateNames (t : DocType) : list jsstr :=
  match t with
  | docx => [js "Start.docx"; js "Start.dotx"]
  | xlsx => [js "Start.xlsx"]
  | pptx => [js "Start.pptx"]
  end.

(** Lines 1381-1385: for each name the assets of the plugin, then the
    vault root. *)
Definition candidatePaths (t : DocType) : list jsstr :=
  flat_map (λ nm, [join_paths [pluginDir; js "assets"; nm]; join_paths [base; nm]])
    (candidateNames t).

(** Lines 1386-1396: the first candidate that exists is read, whatever it
    is; a read that fails leaves the function through the [catch] of line
    1425. *)
Fixpoint firstTemplate (paths : list jsstr) : Result (option (list byte)) :=
  match paths with
  | [] => Ok None
  | p :: rest =>
      if existsSync fs p then let* buf := readFile fs p in Ok (Some buf)
      else firstTemplate rest
  end.

(** Lines 1386-1411: the template that was read, the embedded document for
    a Word document without template, or nothing. *)
Definition templateData (t : DocType) : Result (option (list byte)) :=
  let* found := firstTemplate (candidatePaths t) in
  match found, t with
  | Some d, _ => Ok (Some d)
  | None, docx => Ok (Some minimalDocx)
  | None, _ => Ok None
  end.

(** Lines 1370-1428, once the name and the type are settled. *)
Definition create (vault : gmap jsstr VaultEntry) (fuel : nat) (t : DocType)
    (requestedName : option jsstr) : option (gmap jsstr VaultEntry * Outcome) :=
  match templateData t with
  | Throw _ => Some (vault, Failed)
  | Ok None => Some (vault, NoTemplate)
  | Ok (Some data) =>
      let fresh :=
        match vault !! (js "Untitled Document." ++ extOf t) with
        | Some _ => firstFree vault (untitled t) fuel 2
        | None => Some (js "Untitled Document." ++ extOf t)
        end in
      let finalName :=
        match requestedName with
        | Some n => if eqs n [] then fresh else Some n
        | None => fresh
        end in
      match finalName with
      | None => None
      | Some n =>
          match createBinary vault n data with
          | Ok vault' => Some (vault', Created n)
          | Throw _ => Some (vault, Failed)
          end
      end
  end.

(** [openNewDocument]: [prompt] is the setting [promptNameOnCreate], [modal]
    what the dialog resolves to (the entered name and the selected type, or
    null); [None] is a loop that has not ended within [fuel] rounds. *)
Definition openNewDocument (vault : gmap jsstr VaultEntry) (fuel : nat)
    (prompt : option bool) (modal : option (jsstr * DocType))
  : option (gmap jsstr VaultEntry * Outcome) :=
  match prompt with
  | Some false => create vault fuel docx None
  | _ =>
      match modal with
      | None => Some (vault, CreationCancelled)
      | Some (v, t) =>
          let sanitized := sanitize v in
          if eqs sanitized [] then Some (vault, InvalidName)
          else
            match uniqueName vault fuel t sanitized with
            | None => None
            | Some n => create vault fuel t (Some n)
            end
      end
  end.

End OpenNew.

(** [p] is the first of [paths] that exists. *)
Definition firstExisting (fs : gmap jsstr FsNode) (paths : list jsstr) (p : jsstr) : Prop :=
  ∃ before after, paths = before ++ p :: after
    ∧ Forall (λ q, existsSync fs q = false) before ∧ existsSync fs p = true.

(** What the search for a free name returns: the first name from [i] on that
    the vault does not hold. *)
Definition firstFreeSpec (vault : gmap jsstr VaultEntry) (mk : N → jsstr) (i : N)
    (name : jsstr) : Prop :=
  vault !! name = None
  ∧ ∃ j, i ≤ j ∧ name = mk j ∧ ∀ k, i ≤ k < j → is_Some (vault !! mk k).

(** The name asked for and the base of its numbered variants: a name that
    does not end in the extension gets it appended; a name that ends in a
    dot and the letters of the type, in any case, is kept. *)
Definition naming (t : DocType) (n full base : jsstr) : Prop :=
  (extRegex t n = None ∧ full = n ++ js "." ++ extOf t ∧ base = n)
  ∨ (∃ e, n = base ++ 46 :: e ∧ sameLetters e (extOf t) = true ∧ full = n).

End Create.

(** ** Binding the two servers (lines 1454-1458, 1601-1608, 1613-1618,
    1780-1804) *)

Module Ports.

(** A port is the number of the setting: a whole number, held as a double.
    Every whole number up to 2^53 in magnitude is a double; beyond, the
    doubles are the multiples of a power of two, and the result of an
    addition is the nearest of them, the one with the even significand when
    two are as near (finite doubles; the largest is just below 2^1024). *)
Definition toDouble (z : Z) : Z :=
  if (Z.abs z <=? 2 ^ 53)%Z then z
  else
    let q := (2 ^ (Z.log2 (Z.abs z) - 52))%Z in
    let m := (Z.abs z / q)%Z in
    let r := (Z.abs z mod q)%Z in
    let m' := if (2 * r <? q)%Z then m
              else if (q <? 2 * r)%Z then (m + 1)%Z
              else if Z.even m then m else (m + 1)%Z in
    (Z.sgn z * (m' * q))%Z.

(** [x + y] on doubles that hold whole numbers. *)
Definition plus (x y : Z) : Z := toDouble (x + y).

Record BindResult := {
  bound : option Z;
  attempts : list Z
}.

(** What the request of lines 1769-1773 comes to: a response with its
    status, or an exception with its message. *)
Inductive TestResult :=
  | TestStatus (status : Z)
  | TestFails (message : jsstr).

Section Bind.

(** Whether [listen(port)] succeeds. *)
Variable listen : Z → bool.
(** The HEAD request to the callback server that has just started. *)
Variable selfTest : Z → TestResult.

(** [setting === 0 ? dflt : (setting || dflt)]; [None] is a setting that is
    missing. *)
Definition startPort (setting : option Z) (dflt : Z) : Z :=
  match setting with
  | Some 0%Z => dflt
  | Some p => p
  | None => dflt
  end.

(** [while (port < maxPort && !serverStarted)]: a successful [listen] sets
    [serverStarted], a failed one is caught and followed by [port++]. *)
Fixpoint bindLoop (fuel : nat) (port maxPort : Z) (tried : list Z) : option BindResult :=
  match fuel with
  | O => None
  | S f =>
      if (port <? maxPort)%Z then
        if listen port then Some {| bound := Some port; attempts := tried ++ [port] |}
        else bindLoop f (plus port 1) maxPort (tried ++ [port])
      else Some {| bound := None; attempts := tried |}
  end.

Record Started := {
  serverPort : Z;
  notices : list jsstr;
  tried : list Z
}.

(** The notices; a number is rendered as [decimalZ] does (below 10^21). *)
Definition noPortNotice (maxPort : Z) : jsstr :=
  js "OnlyOffice plugin could not find an open port between 8081 and "
  ++ decimalZ maxPort ++ js ".".
Definition noAdapterNotice : jsstr :=
  js "OnlyOffice plugin requires a file system adapter to run the local server.".
Definition noCallbackNotice : jsstr :=
  js "OnlyOffice plugin could not start the callback server. Some features may not work correctly.".

(** Lines 1775 and 1778: the notice after the callback server has started. *)
Definition startedNotice (port : Z) : jsstr :=
  match selfTest port with
  | TestStatus status =>
      js "OnlyOffice callback server running on port " ++ decimalZ port
      ++ js " (status: " ++ decimalZ status ++ js ")"
  | TestFails message =>
      js "OnlyOffice callback server started on port " ++ decimalZ port
      ++ js ", but test failed: " ++ message
  end.

(** [startInternalServer]; [fsAdapter] tells whether the vault lives on a
    file system (line 1434), [previous] is [localServerPort] before the
    call.  A start that succeeds shows no notice. *)
Definition startInternalServer (fuel : nat) (fsAdapter : bool) (setting : option Z)
    (previous : Z) : option Started :=
  if negb fsAdapter
  then Some {| serverPort := previous; notices := [noAdapterNotice]; tried := [] |}
  else
    let port := startPort setting 8081 in
    let maxPort := plus port 50 in
    match bindLoop fuel port maxPort [] with
    | None => None
    | Some r =>
        Some match bound r with
             | Some p => {| serverPort := p; notices := []; tried := attempts r |}
             | None => {| serverPort := previous; notices := [noPortNotice maxPort];
                          tried := attempts r |}
             end
    end.

(** [startCallbackServer]; the port is set to 0 when none could be bound. *)
Definition startCallbackServer (fuel : nat) (setting : option Z) : option Started :=
  let port := startPort setting 8082 in
  match bindLoop fuel port (plus port 1000) [] with
  | None => None
  | Some r =>
      Some match bound r with
           | Some p => {| serverPort := p; notices := [startedNotice p];
                          tried := attempts r |}
           | None => {| serverPort := 0; notices := [noCallbackNotice];
                        tried := attempts r |}
           end
  end.

End Bind.

(** What a finished binding loop has done between [port] and [maxPort]. *)
Definition bindSpec (listen : Z → bool) (port maxPort : Z) (before : list Z) (r : BindResult) : Prop :=
  match bound r with
  | Some p =>
      (port ≤ p < maxPort)%Z ∧ listen p = true
      ∧ (∀ q, (port ≤ q < p)%Z → listen q = false)
      ∧ attempts r = before ++ seqZ port (p - port + 1)
  | None =>
      (∀ q, (port ≤ q < maxPort)%Z → listen q = false)
      ∧ attempts r = before ++ seqZ port (maxPort - port)
  end.

(** What a server start leaves behind for a loop over [width] ports from
    [port]: a bound port with every port before it tried and refused, and
    the notices [started] of that port, or the notice [failed] after all of
    them were refused. *)
Definition startSpec (listen : Z → bool) (port width fallback : Z)
    (started : Z → list jsstr) (failed : jsstr) (r : Started) : Prop :=
  (∃ p, (port ≤ p < port + width)%Z ∧ listen p = true
        ∧ (∀ q, (port ≤ q < p)%Z → listen q = false)
        ∧ serverPort r = p ∧ notices r = started p
        ∧ tried r = seqZ port (p - port + 1))
  ∨ ((∀ q, (port ≤ q < port + width)%Z → listen q = false)
     ∧ serverPort r = fallback ∧ notices r = [failed]
     ∧ tried r = seqZ port width).

End Ports.


(** ** Events of a running plugin: documents are opened, callbacks arrive *)

Inductive Event :=
  | EvOpen (path : jsstr) (mtime : N) (randomId : jsstr)
  | EvCallback (req : Request).

Section Process.

Variable url_key : JsValue → option jsstr.
Variable form_entries : jsstr → list (jsstr * jsstr).
Variable requestUrl : JsValue → FetchResult.

(** The registration of lines 275-281 for a file at [path]. *)
Definition openFile (st : PluginState) (path : jsstr) (mtime : N) (randomId : jsstr)
  : PluginState :=
  {| keyFileMap := register (uniqueKey path mtime randomId) path (keyFileMap st);
     vault := vault st |}.

Definition step (st : PluginState) (ev : Event) : PluginState :=
  match ev with
  | EvOpen path mtime randomId => openFile st path mtime randomId
  | EvCallback req => (callbackHandler url_key form_entries requestUrl st req).1.1
  end.

Definition run (st : PluginState) (evs : list Event) : PluginState :=
  fold_left step evs st.

End Process.

(** ** Sample inputs *)

Module Sample.

Definition noUrlKey : JsValue → option jsstr := λ _, None.
Definition noForm : jsstr → list (jsstr * jsstr) := λ _, [].

Definition outUrl : jsstr := js "http://docs:8080/cache/files/out.bin".
Definition oldBytes : list byte := ["o"; "l"; "d"]%byte.
Definition newBytes : list byte := ["n"; "e"; "w"]%byte.

(** A network on which [outUrl] yields [newBytes] and nothing else answers. *)
Definition net : JsValue → FetchResult :=
  λ u, match u with
       | JStr s => if eqs s outUrl then FetchResponse 200 newBytes else FetchThrows
       | _ => FetchThrows
       end.

Definition reportPath : jsstr := js "Notes/report.docx".
Definition reportKey : jsstr := js "oo_abc123_xy9".

Definition state : PluginState :=
  {| keyFileMap := {[ reportKey := reportPath ]};
     vault := {[ reportPath := VFile oldBytes; js "Notes" := VFolder ]} |}.

Definition post (b : Body) : Request :=
  {| method := js "POST"; url := Some (js "/callback?token=t"); host := None; body := b |}.

(** The registry with the key of the report registered for a folder. *)
Definition folderState : PluginState :=
  {| keyFileMap := {[ reportKey := js "Notes" ]};
     vault := {[ reportPath := VFile oldBytes; js "Notes" := VFolder ]} |}.

(** A [listen] for which every port number is free, and a self-test that
    is answered. *)
Definition freePorts : Z → bool := λ p, (0 <? p)%Z && (p <? 65536)%Z.
Definition testOk : Z → Ports.TestResult := λ _, Ports.TestStatus 200.

(** A save notification of status 2. *)
Definition mustSave : Request :=
  post (BodyJson (JObj [(js "key", JStr reportKey); (js "status", JNum (js "2"));
                        (js "url", JStr outUrl)])).

(** The same notification without a status. *)
Definition noStatus : Request :=
  post (BodyJson (JObj [(js "key", JStr reportKey); (js "url", JStr outUrl)])).

(** A body that is neither JSON nor form-encoded. *)
Definition malformed : Request := post (BodyText (js "<save/>")).

(** A signer and an encoder to run the configuration builder with. *)
Definition toySign (c : Config.Claims) (secret : jsstr) : Result jsstr :=
  match c with
  | Config.RequestClaims _ _ => Ok (js "rq.")
  | Config.ConfigClaims _ _ _ => Ok (js "cfg.")
  end.

Definition settings : Config.Settings :=
  {| Config.jwtSecret := Some (js "s3cret"); Config.useRequestToken := Some true |}.

Definition report : Config.OpenedFile :=
  {| Config.name := js "report.docx"; Config.extension := js "docx" |}.

(** A file system with one file outside the vault. *)
Definition vaultRoot : jsstr := js "/home/u/vault".
Definition pluginRoot : jsstr := js "/home/u/vault/.obsidian/plugins/onlyoffice".
Definition passwd : list byte := ["r"; "o"; "o"; "t"]%byte.

Definition disk : gmap jsstr FsNode :=
  {[ js "/etc/passwd" := FsFile passwd;
     js "/home/u/vault/Notes/report.docx" := FsFile oldBytes;
     js "/home/u/vault/Notes" := FsDir ]}.

Definition get (u : jsstr) : Request :=
  {| method := js "GET"; url := Some u; host := Some (js "127.0.0.1:8081");
     body := BodyText [] |}.

(** A path that climbs above both roots, with its slashes escaped. *)
Definition climbing : jsstr := js "/..%2F..%2F..%2F..%2F..%2F..%2Fetc%2Fpasswd".

(** Two opens that draw the same random suffix for files whose names hash
    alike. *)
Definition firstOpen : Event := EvOpen (js "Aa.docx") 1700000000000 (js "k3j9x2ab").
Definition secondOpen : Event := EvOpen (js "BB.docx") 1700000000000 (js "k3j9x2ab").
Definition otherOpen : Event := EvOpen (js "Notes/plan.xlsx") 1700000000500 (js "q8w7e6r5").

(** A vault that holds [Draft.xlsx], and one that holds [Draft.xlsx.xlsx]. *)
Definition drafts : gmap jsstr VaultEntry := {[ js "Draft.xlsx" := VFile [] ]}.
Definition doubled : gmap jsstr VaultEntry := {[ js "Draft.xlsx.xlsx" := VFile [] ]}.
(** A plugin directory whose assets hold an empty template of each type,
    and a vault with a folder where a template is looked for. *)
Definition templates : gmap jsstr FsNode :=
  {[ js "/home/u/vault/.obsidian/plugins/onlyoffice/assets/Start.docx" := FsFile [];
     js "/home/u/vault/.obsidian/plugins/onlyoffice/assets/Start.xlsx" := FsFile [];
     js "/home/u/vault/.obsidian/plugins/onlyoffice/assets/Start.pptx" := FsFile [] ]}.
Definition templateFolder : gmap jsstr FsNode := {[ js "/home/u/vault/Start.docx" := FsDir ]}.

Definition noMime : jsstr → option jsstr := λ _, None.
Definition noSearch : jsstr → jsstr → jsstr → Result (option jsstr) := λ _ _ _, Ok None.
(** The messages of a runtime. *)
Definition messageOf : Exn → jsstr :=
  λ e, match e with
       | URIError => js "URI malformed"
       | TypeError => js "Invalid URL"
       | HostError => js "failed"
       end.

End Sample.

(** ** [encodeURIComponent] and the file URLs of [onLoadFile]
    (lines 243-244 and 284-286) *)

Module UriEncode.

(** The units [encodeURIComponent] leaves alone: letters, digits and
    [- _ . ! ~ * ' ( )]. *)
Definition unreserved (c : N) : bool :=
  is_digit c || is_lower c || is_upper c
  || bool_decide (c ∈ [45; 95; 46; 33; 126; 42; 39; 40; 41]).

(** An upper-case hexadecimal digit. *)
Definition hexdigit (d : N) : N := if d <? 10 then 48 + d else 55 + d.

(** The escape [%XY] of an octet. *)
Definition pct (b : N) : jsstr := [37; hexdigit (b / 16); hexdigit (b mod 16)].

(** The UTF-8 octets of a code point. *)
Definition utf8 (v : N) : list N :=
  if v <? 0x80 then [v]
  else if v <? 0x800 then [0xC0 + v / 64; 0x80 + v mod 64]
  else if v <? 0x10000 then [0xE0 + v / 4096; 0x80 + (v / 64) mod 64; 0x80 + v mod 64]
  else [0xF0 + v / 262144; 0x80 + (v / 4096) mod 64; 0x80 + (v / 64) mod 64;
        0x80 + v mod 64].

Definition escapes (v : N) : jsstr := concat (pct <$> utf8 v).

Definition isHighSurrogate (c : N) : bool := (0xD800 <=? c) && (c <=? 0xDBFF).
Definition isLowSurrogate (c : N) : bool := (0xDC00 <=? c) && (c <=? 0xDFFF).

(** [encodeURIComponent(s)]: an unreserved unit is kept, any other code
    point is replaced by the escapes of its UTF-8 octets; a surrogate that
    is not part of a pair throws a [URIError]. *)
Fixpoint encodeURIComponent (s : jsstr) : Result jsstr :=
  match s with
  | [] => Ok []
  | c :: t =>
      if unreserved c then let* r := encodeURIComponent t in Ok (c :: r)
      else if isLowSurrogate c then Throw URIError
      else if isHighSurrogate c then
        match t with
        | c2 :: t' =>
            if isLowSurrogate c2 then
              let* r := encodeURIComponent t' in
              Ok (escapes ((c - 0xD800) * 0x400 + (c2 - 0xDC00) + 0x10000) ++ r)
            else Throw URIError
        | [] => Throw URIError
        end
      else let* r := encodeURIComponent t in Ok (escapes c ++ r)
  end.

(** [segments.map(encodeURIComponent)]. *)
Fixpoint encodeAll (segs : list jsstr) : Result (list jsstr) :=
  match segs with
  | [] => Ok []
  | seg :: rest =>
      let* e := encodeURIComponent seg in
      let* es := encodeAll rest in
      Ok (e :: es)
  end.

(** [path.replace(/\\/g, '/')]. *)
Definition toSlashes (path : jsstr) : jsstr := (λ c, if c =? 92 then 47 else c) <$> path.

(** [file.path.replace(/\\/g,'/').split('/').map(encodeURIComponent).join('/')]. *)
Definition relPathOf (path : jsstr) : Result jsstr :=
  let* es := encodeAll (split_on 47 (toSlashes path)) in
  Ok (join [47] es).

(** [`${base}/${relPath}`], the URL under which a file of the vault is
    asked from the static server. *)
Definition fileUrl (base path : jsstr) : Result jsstr :=
  let* rel := relPathOf path in
  Ok (base ++ [47] ++ rel).

(** A well-formed string: every unit is a 16-bit code unit. *)
Definition wellFormed (s : jsstr) : Prop := Forall (λ c, c < 65536) s.

(** What an encoded component is made of: unreserved units, [%] and
    upper-case hexadecimal digits. *)
Definition urlUnit (c : N) : Prop :=
  unreserved c = true ∨ c = 37 ∨ ∃ d, d < 16 ∧ c = hexdigit d.

(** Every [%] is followed by two hexadecimal digits. *)
Fixpoint wellEscaped (s : jsstr) : bool :=
  match s with
  | [] => true
  | c :: t =>
      (if c =? 37
       then match t with
            | h1 :: h2 :: _ => bool_decide (is_Some (hex_byte h1 h2))
            | _ => false
            end
       else true) && wellEscaped t
  end.

(** The decoded paths the static server answers itself (lines 1480-1520). *)
Definition reservedRoutes : list jsstr :=
  [js "/api/createNew"; js "/api/saveAs"; js "/"; js "/editor.html";
   js "/embedded-editor.html"].

End UriEncode.
Import UriEncode.

(** ** Opening a file in the view ([onLoadFile], lines 144-326) *)

Module Load.

Record TFile := {
  path : jsstr;
  name : jsstr;
  extension : jsstr;
  mtime : option N          (* [stat?.mtime] *)
}.

Record Env := {
  localServerAddress : jsstr;
  localServerPort : N;
  callbackServerPort : N
}.

(** The fields of the view that [onLoadFile] writes. *)
Record View := {
  isDirty : bool;
  currentExt : jsstr
}.

Definition maxWait : Z := 5000.
Definition checkInterval : Z := 250.

Definition localHostBaseUrl (env : Env) : jsstr :=
  js "http://127.0.0.1:" ++ decimal (localServerPort env).

(** [settings.localServerAddress || 'host.docker.internal']. *)
Definition dockerHost (env : Env) : jsstr :=
  if eqs (localServerAddress env) [] then js "host.docker.internal"
  else localServerAddress env.

Definition dockerHostBaseUrl (env : Env) : jsstr :=
  js "http://" ++ dockerHost env ++ js ":" ++ decimal (localServerPort env).

Definition callbackUrlOf (env : Env) : jsstr :=
  js "http://" ++ dockerHost env ++ js ":" ++ decimal (callbackServerPort env)
  ++ js "/callback".

Definition supported : list jsstr := [js "docx"; js "xlsx"; js "pptx"; js "pdf"].

(** How [onLoadFile] ends. *)
Inductive Outcome :=
  | NoContainer
  | FileError
  | ViewStateUpdated
  | EditorUnavailable
  | FileUnavailable (fileName : jsstr)
  | LoadFailed
  | Unsupported (ext : jsstr)
  | Launched (hostFileUrl dockerFileUrl dockerBaseUrl callbackUrl key : jsstr).

Section OnLoad.

(** Whether the HEAD request to a URL is answered, by the number of
    requests made before it during this load; [requestUrl] throws when it
    is not. *)
Variable head : jsstr → nat → bool.
Variable toLowerCase : jsstr → jsstr.

(** The loops of lines 218-230 and 248-260: [k] requests were made so far,
    [waited] is the time waited in this loop.  The result tells whether a
    request was answered and how many were made. *)
Fixpoint probe (fuel : nat) (u : jsstr) (k : nat) (waited : Z) : option (bool * nat) :=
  match fuel with
  | O => None
  | S f =>
      if (waited <? maxWait)%Z then
        if head u k then Some (true, S k)
        else probe f u (S k) (waited + checkInterval)%Z
      else Some (false, k)
  end.

(** [effectiveFile.stat?.mtime || Date.now()]. *)
Definition mtimeOrNow (f : TFile) (now : N) : N :=
  match mtime f with
  | Some m => if m =? 0 then now else m
  | None => now
  end.

(** [onLoadFile(file)].  [container] tells whether the view has a content
    element, [leafFile] is [state.state.file] of the leaf when there is a
    leaf ([None] inside for a missing state or member), [now] the reading of
    the clock and [randomId] the draw of line 275.  The result holds the
    registry, the fields of the view, the outcome and the number of HEAD
    requests made; [None] is a probe that has not ended within [fuel]
    rounds. *)
Definition onLoadFile (fuel : nat) (env : Env) (reg : gmap jsstr jsstr) (view : View)
    (container : bool) (file : option TFile) (leafFile : option (option jsstr))
    (now : N) (randomId : jsstr)
  : option (gmap jsstr jsstr * View * Outcome * nat) :=
  if negb container then Some (reg, view, NoContainer, 0%nat)
  else
    match file with
    | None => Some (reg, view, FileError, 0%nat)
    | Some f =>
        if match leafFile with
           | Some current => negb (bool_decide (current = Some (path f)))
           | None => false
           end
        then Some (reg, view, ViewStateUpdated, 0%nat)
        else
          let view1 := {| isDirty := false; currentExt := currentExt view |} in
          match probe fuel (localHostBaseUrl env ++ js "/editor.html") 0 0 with
          | None => None
          | Some (false, k) => Some (reg, view1, EditorUnavailable, k)
          | Some (true, k) =>
              match relPathOf (path f) with
              | Throw _ => Some (reg, view1, LoadFailed, k)
              | Ok rel =>
                  match probe fuel (localHostBaseUrl env ++ js "/" ++ rel) k 0 with
                  | None => None
                  | Some (false, k') => Some (reg, view1, FileUnavailable (name f), k')
                  | Some (true, k') =>
                      let key := uniqueKey (path f) (mtimeOrNow f now) randomId in
                      let reg' := register key (path f) reg in
                      let ext := toLowerCase (extension f) in
                      let view2 :=
                        {| isDirty := false;
                           currentExt := if eqs ext [] then js "docx" else ext |} in
                      if bool_decide (ext ∈ supported)
                      then Some (reg', view2,
                                 Launched (localHostBaseUrl env ++ js "/" ++ rel)
                                   (dockerHostBaseUrl env ++ js "/" ++ rel)
                                   (dockerHostBaseUrl env) (callbackUrlOf env) key,
                                 k')
                      else Some (reg', view2, Unsupported ext, k')
                  end
              end
          end
    end.

End OnLoad.

(** What a finished probe has done from request [k] on: it stopped at the
    first answered request among the twenty it may make. *)
Definition probeSpec (head : jsstr → nat → bool) (u : jsstr) (k : nat)
    (r : bool * nat) : Prop :=
  match r with
  | (true, k') =>
      (k < k' ≤ k + 20)%nat ∧ head u (k' - 1)%nat = true
      ∧ ∀ j, (k ≤ j < k' - 1)%nat → head u j = false
  | (false, k') =>
      k' = (k + 20)%nat ∧ ∀ j, (k ≤ j < k + 20)%nat → head u j = false
  end.

End Load.

(** ** Save As ([saveAsDocument], lines 931-1011, [saveFallbackToObsidian],
    lines 860-880, and [fallbackSystemSaveAsFromVault], lines 1014-1034) *)

Module SaveAs.

(** [s.endsWith(suf)]. *)
Definition endsWith (s suf : jsstr) : bool :=
  bool_decide (length suf ≤ length s)%nat && eqs (drop (length s - length suf) s) suf.

(** The fields of the view that Save As reads and writes. *)
Record View := {
  fallbackEditor : bool;            (* the fallback editor is shown *)
  webview : bool;                   (* there is a webview *)
  currentExt : jsstr;
  fileExtension : option jsstr;     (* [this.file?.extension] *)
  pendingSaveAsName : option jsstr
}.

(** How a Save As ends. *)
Inductive Outcome :=
  | NoteSaved (fileName : jsstr)
  | NoteFailed
  | SystemDownload (urlValue : JsValue) (fileName : jsstr) (injected : bool)
  | Saved (fileName : jsstr)
  | Cancelled
  | DownloadRequested (format : jsstr)
  | NotAvailable
  | Failed.

(** A string that counts as true. *)
Definition present (o : option jsstr) : option jsstr :=
  match o with
  | Some s => if eqs s [] then None else Some s
  | None => None
  end.

(** [`${originalBase} (${attempt}).${activeExt}`]. *)
Definition alt (originalBase ext : jsstr) (attempt : N) : jsstr :=
  originalBase ++ js " (" ++ decimal attempt ++ js ")." ++ ext.

(** [new Date().toISOString().replace(/[:.]/g, '-')]. *)
Definition stamp (iso : jsstr) : jsstr :=
  (λ c, if (c =? 58) || (c =? 46) then 45 else c) <$> iso.

Definition noteName (iso : jsstr) : jsstr :=
  js "OnlyOffice Document " ++ stamp iso ++ js ".md".

(** [saveFallbackToObsidian] once there is a fallback editor: [stored] is
    what [vault.create] writes for the converted content, [iso] the reading
    of the clock. *)
Definition saveFallbackToObsidian (vault : gmap jsstr VaultEntry) (iso : jsstr)
    (stored : list byte) : gmap jsstr VaultEntry * Outcome :=
  match Create.createBinary vault (noteName iso) stored with
  | Ok vault' => (vault', NoteSaved (noteName iso))
  | Throw _ => (vault, NoteFailed)
  end.

Section Save.

Variable toLowerCase : jsstr → jsstr.
(** [fileName.replace(new RegExp(`\.${ext}$`,'i'),'')] for [ext] and
    [fileName]; the constructor may throw. *)
Variable stripExt : jsstr → jsstr → Result jsstr.
Variable requestUrl : JsValue → FetchResult.
(** What the Save As dialog resolves to, by the number of dialogs shown
    before it during this call. *)
Variable prompt : nat → option jsstr.

(** [this.currentExt || this.file?.extension?.toLowerCase() || 'docx']. *)
Definition activeExtOf (v : View) : jsstr :=
  if negb (eqs (currentExt v) []) then currentExt v
  else match fileExtension v with
       | Some e => if eqs (toLowerCase e) [] then js "docx" else toLowerCase e
       | None => js "docx"
       end.

(** [name.toLowerCase().endsWith('.'+ext) ? name : name + '.'+ext]. *)
Definition withExt (ext fileName : jsstr) : jsstr :=
  if endsWith (toLowerCase fileName) (46 :: ext) then fileName else fileName ++ 46 :: ext.

(** [this.pendingSaveAsName || saveAsData.title || dflt]. *)
Definition firstName (pending : option jsstr) (title : JsValue) (dflt : jsstr) : JsValue :=
  match present pending with
  | Some p => JStr p
  | None => if truthy title then title else JStr dflt
  end.

(** The receiver of [.toLowerCase()]: a value that is no string has no such
    method. *)
Definition asString (v : JsValue) : Result jsstr :=
  match v with
  | JStr s => Ok s
  | _ => Throw TypeError
  end.

(** The loop of lines 970-983: on the first conflict the dialog is shown
    once more and a name entered there is checked next; otherwise, and from
    then on, the numbered names are tried. *)
Fixpoint nameLoop (fuel : nat) (vault : gmap jsstr VaultEntry) (retry : option jsstr)
    (originalBase ext : jsstr) (attempt : N) (fileName : jsstr) : option jsstr :=
  match fuel with
  | O => None
  | S f =>
      match vault !! fileName with
      | None => Some fileName
      | Some _ =>
          let attempt' := attempt + 1 in
          match (if attempt' =? 1 then present retry else None) with
          | Some r => nameLoop f vault retry originalBase ext attempt' (withExt ext r)
          | None => nameLoop f vault retry originalBase ext attempt'
                      (alt originalBase ext attempt')
          end
      end
  end.

Definition consume (v : View) (pending : option jsstr) : View :=
  {| fallbackEditor := fallbackEditor v; webview := webview v;
     currentExt := currentExt v; fileExtension := fileExtension v;
     pendingSaveAsName := pending |}.

(** Lines 953-988: Save As into the vault, for the value [urlValue] of
    [saveAsData.url]. *)
Definition saveIntoVault (fuel : nat) (vault : gmap jsstr VaultEntry) (view : View)
    (urlValue title : JsValue)
  : option (gmap jsstr VaultEntry * View * Outcome) :=
  let ext := activeExtOf view in
  match requestUrl urlValue with
  | FetchThrows => Some (vault, view, Failed)
  | FetchResponse status buf =>
      if negb (status =? 200)%Z then Some (vault, view, Failed)
      else
        let view' := consume view None in
        let first := firstName (pendingSaveAsName view) title [] in
        let '(chosen, shown) :=
          if truthy first then (first, 0%nat)
          else (JStr (default [] (present (prompt 0))), 1%nat) in
        if negb (truthy chosen) then Some (vault, view', Cancelled)
        else
          match asString chosen with
          | Throw _ => Some (vault, view', Failed)
          | Ok entered =>
              let fileName := withExt ext entered in
              match stripExt ext fileName with
              | Throw _ => Some (vault, view', Failed)
              | Ok originalBase =>
                  match nameLoop fuel vault (prompt shown) originalBase ext 0 fileName with
                  | None => None
                  | Some final =>
                      match Create.createBinary vault final buf with
                      | Ok vault' => Some (vault', view', Saved final)
                      | Throw _ => Some (vault, view', Failed)
                      end
                  end
              end
          end
  end.

(** [saveAsDocument(forceSaveAs, saveAsData)]; [iso] and [stored] are what
    [saveFallbackToObsidian] reads; [None] is a loop that has not ended
    within [fuel] rounds. *)
Definition saveAsDocument (fuel : nat) (useSystemSaveAs : bool)
    (vault : gmap jsstr VaultEntry) (view : View) (iso : jsstr) (stored : list byte)
    (forceSaveAs : bool) (saveAsData : option JsValue)
  : option (gmap jsstr VaultEntry * View * Outcome) :=
  if fallbackEditor view then
    let '(vault', out) := saveFallbackToObsidian vault iso stored in
    Some (vault', view, out)
  else
    let ext := activeExtOf view in
    let data := default JUndefined saveAsData in
    let urlValue := if truthy data
                    then match get_prop data (js "url") with
                         | Ok u => u
                         | Throw _ => JUndefined
                         end
                    else JUndefined in
    if truthy data && truthy urlValue then
      let title := match get_prop data (js "title") with
                   | Ok t => t
                   | Throw _ => JUndefined
                   end in
      if useSystemSaveAs then
        let first := firstName (pendingSaveAsName view) title (js "Document." ++ ext) in
        match asString first with
        | Throw _ => Some (vault, consume view None, Failed)
        | Ok entered =>
            Some (vault, consume view None,
                  SystemDownload urlValue (withExt ext entered) (webview view))
        end
      else saveIntoVault fuel vault view urlValue title
    else if webview view then
      if negb useSystemSaveAs && forceSaveAs then
        match present (prompt 0) with
        | None => Some (vault, view, Cancelled)
        | Some chosen =>
            Some (vault, consume view (Some chosen),
                  DownloadRequested (if eqs ext (js "pdf") then js "docx" else ext))
        end
      else Some (vault, view,
                 DownloadRequested (if eqs ext (js "pdf") then js "docx" else ext))
    else Some (vault, view, NotAvailable).

(** The name of the download in [fallbackSystemSaveAsFromVault] (lines
    1020-1023) for the base name and the extension of the open file. *)
Definition fallbackDownloadName (view : View) (basename extension : jsstr) : jsstr :=
  let base := if eqs basename [] then js "Document" else basename in
  let ext := if negb (eqs (currentExt view) []) then currentExt view
             else if negb (eqs extension []) then extension else js "docx" in
  let name := if endsWith (toLowerCase base) (46 :: ext) then base else base ++ 46 :: ext in
  if endsWith name (46 :: ext) then name else name ++ 46 :: ext.

End Save.

(** What the loop over names returns for the name [fileName] it starts
    with: that name when it is free; else the name entered in the second
    dialog when one was entered and is free; else the first free numbered
    name, counted from 1, or from 2 after a second dialog. *)
Definition nameSpec (withExt : jsstr → jsstr) (vault : gmap jsstr VaultEntry)
    (retry : option jsstr) (originalBase ext fileName final : jsstr) : Prop :=
  vault !! final = None
  ∧ (vault !! fileName = None → final = fileName)
  ∧ (is_Some (vault !! fileName) →
     match present retry with
     | Some r =>
         (vault !! withExt r = None → final = withExt r)
         ∧ (is_Some (vault !! withExt r) →
            Create.firstFreeSpec vault (alt originalBase ext) 2 final)
     | None => Create.firstFreeSpec vault (alt originalBase ext) 1 final
     end).

End SaveAs.

(** ** Events of the editor (the [console-message] and [ipc-message]
    listeners of lines 685-754, [onUnloadFile], [onSaveComplete]) *)

Module Bridge.

(** The flags of the view the listeners write. *)
Record Flags := {
  isDirty : bool;
  systemSaveAsRetryPending : bool;
  performingSystemSaveAsFallback : bool
}.

(** What a listener starts. *)
Inductive Action :=
  | CallSaveAs (forceSaveAs : bool) (saveAsData : option JsValue)
  | CallFallbackSaveAs
  | CallOpenNew
  | SetTemplateViewState
  | ForceSave
  | ShowNotice (msg : jsstr)
  | Log.

Definition saveAsChannel : jsstr := js "onlyoffice-save-as".
Definition createNewChannel : jsstr := js "onlyoffice-create-new".
Definition dirtyChannel : jsstr := js "onlyoffice-dirty-state".
Definition appReadyChannel : jsstr := js "onlyoffice-app-ready".
Definition errorChannel : jsstr := js "onlyoffice-error".

(** The object [{ channel, data }] whose JSON text the injected script logs
    after [OO-EVT:] (line 542). *)
Definition eventPayload (channel : jsstr) (data : JsValue) : JsValue :=
  JObj [(js "channel", JStr channel); (js "data", data)].

(** [v === 'literal']. *)
Definition isStr (v : JsValue) (s : jsstr) : bool :=
  match v with
  | JStr t => eqs t s
  | _ => false
  end.

(** [!!(v && v.name)] for a member name no built-in prototype has. *)
Definition truthyMember (v : JsValue) (name : jsstr) : bool :=
  truthy v && match get_prop v name with
              | Ok m => truthy m
              | Throw _ => false
              end.

Definition setDirty (f : Flags) (b : bool) : Flags :=
  {| isDirty := b; systemSaveAsRetryPending := systemSaveAsRetryPending f;
     performingSystemSaveAsFallback := performingSystemSaveAsFallback f |}.

Section Listeners.

(** [JSON.parse(text)], [None] when it throws. *)
Variable json_parse : jsstr → option JsValue.
(** [settings.useSystemSaveAs], read for its truth. *)
Variable useSystemSaveAs : bool.

(** The body of the [try] of lines 689-714 for the parsed payload. *)
Definition dispatch (f : Flags) (payload : JsValue) : Result (Flags * list Action) :=
  let* channel := get_prop payload (js "channel") in
  let* data := get_prop payload (js "data") in
  if isStr channel saveAsChannel then
    if truthyMember data (js "url") then
      Ok ({| isDirty := isDirty f; systemSaveAsRetryPending := false;
             performingSystemSaveAsFallback := false |},
          [CallSaveAs false (Some data)])
    else if useSystemSaveAs then
      if negb (performingSystemSaveAsFallback f)
      then Ok ({| isDirty := isDirty f;
                  systemSaveAsRetryPending := systemSaveAsRetryPending f;
                  performingSystemSaveAsFallback := true |},
               [CallFallbackSaveAs])
      else Ok (f, [])
    else Ok (f, [CallSaveAs true None])
  else if isStr channel createNewChannel then Ok (f, [CallOpenNew])
  else if isStr channel dirtyChannel then Ok (setDirty f (truthyMember data (js "isDirty")), [])
  else Ok (f, []).

(** The [console-message] listener for the message text. *)
Definition onConsoleMessage (f : Flags) (msg : jsstr) : Flags * list Action :=
  match strip_prefix (js "OO-EVT:") msg with
  | Some rest =>
      match json_parse rest with
      | Some payload =>
          match dispatch f payload with
          | Ok r => r
          | Throw _ => (f, [Log])
          end
      | None => (f, [Log])
      end
  | None => (f, [Log])
  end.

(** The [ipc-message] listener for an event with its channel and arguments;
    [leaf] tells whether the view has a leaf.  An exception (the code or the
    message of an error event that has no string form) is caught and logged
    (line 751). *)
Definition onIpcMessage (f : Flags) (leaf : bool) (channel : jsstr) (args : list JsValue)
  : Flags * list Action :=
  let arg := match args with
             | a :: _ => if truthy a then a else JObj []
             | [] => JObj []
             end in
  let member name := match get_prop arg name with
                     | Ok m => m
                     | Throw _ => JUndefined
                     end in
  if eqs channel saveAsChannel then
    (f, [ShowNotice (js "OnlyOffice: Save As event received");
         CallSaveAs (negb useSystemSaveAs) (Some arg)])
  else if eqs channel createNewChannel then
    (f, [ShowNotice (js "OnlyOffice: Create New event received");
         if leaf then SetTemplateViewState else CallOpenNew])
  else if eqs channel appReadyChannel then
    (f, [ShowNotice (js "OnlyOffice: App Ready")])
  else if eqs channel dirtyChannel then
    (setDirty f (truthy (member (js "isDirty"))), [])
  else if eqs channel errorChannel then
    let text v := if truthy v then toString v else Ok [] in
    let msg :=
      if truthy (member (js "message")) || truthy (member (js "code"))
      then
        let* c := text (member (js "code")) in
        let* m := text (member (js "message")) in
        Ok (trim (c ++ js " " ++ m))
      else Ok (js "Unknown error") in
    match msg with
    | Ok t => (f, [ShowNotice (js "OnlyOffice error: " ++ t)])
    | Throw _ => (f, [Log])
    end
  else (f, []).

End Listeners.

(** The listener over the messages of a webview, in the order they come;
    the actions it starts are collected. *)
Fixpoint consoleRun (json_parse : jsstr → option JsValue) (useSystemSaveAs : bool)
    (f : Flags) (msgs : list jsstr) : Flags * list Action :=
  match msgs with
  | [] => (f, [])
  | msg :: rest =>
      let '(f1, started) := onConsoleMessage json_parse useSystemSaveAs f msg in
      let '(f2, later) := consoleRun json_parse useSystemSaveAs f1 rest in
      (f2, started ++ later)
  end.

Definition isFallback (a : Action) : bool :=
  match a with
  | CallFallbackSaveAs => true
  | _ => false
  end.

(** A Save As with the data of an event that carries a url. *)
Definition isUrlSave (a : Action) : bool :=
  match a with
  | CallSaveAs false (Some _) => true
  | _ => false
  end.

Definition count (p : Action → bool) (acts : list Action) : nat :=
  length (List.filter p acts).

(** [onUnloadFile]: a dirty document is saved through the editor. *)
Definition onUnloadFile (f : Flags) (webview : bool) : list Action :=
  if isDirty f
  then (if webview then [ForceSave] else []) ++ [ShowNotice (js "Saving document on close...")]
  else [].

(** [onSaveComplete]. *)
Definition onSaveComplete (f : Flags) : Flags := setDirty f false.

End Bridge.

(** ** The save notification of the Document Server *)

(** A POST to [/callback] whose JSON body carries a key, the status 2 and
    the url of the edited copy. *)
Definition saveNotification (key out : jsstr) : Request :=
  {| method := js "POST"; url := Some (js "/callback"); host := None;
     body := BodyJson (JObj [(js "key", JStr key); (js "status", JNum (js "2"));
                             (js "url", JStr out)]) |}.

(** ** More sample inputs *)

Module Scenario.

(** A path with a backslash, a letter outside ASCII, a space, a percent
    sign and a question mark, and the relative URL [onLoadFile] builds for
    it. *)
Definition notePath : jsstr := js "Notes\Caf" ++ [233] ++ js " 100%?.docx".
Definition noteRel : jsstr := js "Notes/Caf%C3%A9%20100%25%3F.docx".
Definition noteBytes : list byte := ["d"; "o"; "c"]%byte.

Definition disk : gmap jsstr FsNode :=
  {[ js "/home/u/vault/Notes/Caf" ++ [233] ++ js " 100%?.docx" := FsFile noteBytes ]}.

(** The request for the file URL with a request token. *)
Definition tokened : Request :=
  Sample.get (47 :: noteRel ++ 63 :: js "token=rq.").

(** A file name with a stray percent sign, asked for as it is. *)
Definition stray : Request := Sample.get (js "/100%.docx").

(** A legacy key for a path with underscores. *)
Definition legacyPath : jsstr := js "Notes/a_b 1.docx".
Definition legacyKey : jsstr := js "obsidian_Notes%2Fa_b%201.docx_1700000000000_k3j9".

(** A static server that answers from the fourth HEAD request on. *)
Definition slowStart : jsstr → nat → bool := λ _ k, (3 <=? k)%nat.

Definition env : Load.Env :=
  {| Load.localServerAddress := []; Load.localServerPort := 8081;
     Load.callbackServerPort := 8082 |}.

Definition noteFile : Load.TFile :=
  {| Load.path := notePath; Load.name := js "Caf" ++ [233] ++ js " 100%?.docx";
     Load.extension := js "docx"; Load.mtime := Some 1700000000000 |}.

Definition cleanView : Load.View := {| Load.isDirty := true; Load.currentExt := js "docx" |}.

(** A vault that holds the untitled document. *)
Definition untitledTaken : gmap jsstr VaultEntry :=
  {[ js "Untitled Document.docx" := VFile [] ]}.

(** A view on a spreadsheet with a name chosen for the copy, and a Save As
    event with the url of the copy. *)
Definition sheetView : SaveAs.View :=
  {| SaveAs.fallbackEditor := false; SaveAs.webview := true;
     SaveAs.currentExt := js "xlsx"; SaveAs.fileExtension := Some (js "xlsx");
     SaveAs.pendingSaveAsName := Some (js "Draft") |}.

Definition saveAsEvent : JsValue :=
  JObj [(js "url", JStr Sample.outUrl); (js "title", JStr (js "Budget.xlsx"))].

(** What is left of a name without its last dot and extension. *)
Definition dropExt (ext fileName : jsstr) : Result jsstr :=
  Ok (take (length fileName - S (length ext)) fileName).

Definition noPrompt : nat → option jsstr := λ _, None.

(** The plugin with the sample file in its vault and nothing registered. *)
Definition fresh : PluginState :=
  {| keyFileMap := ∅; vault := {[ notePath := VFile Sample.oldBytes ]} |}.

Definition noteKey : jsstr := uniqueKey notePath 1700000000000 (js "k3j9x2ab").

(** A file whose name holds a high surrogate without its partner. *)
Definition brokenFile : Load.TFile :=
  {| Load.path := js "a" ++ [0xD83D] ++ js ".docx";
     Load.name := js "a" ++ [0xD83D] ++ js ".docx";
     Load.extension := js "docx"; Load.mtime := None |}.

(** A signer that always fails. *)
Definition noSign (c : Config.Claims) (secret : jsstr) : Result jsstr := Throw HostError.

(** A parser that knows the text of one dirty-state event. *)
Definition quoted (t : jsstr) : jsstr := [34] ++ t ++ [34].
Definition dirtyText : jsstr :=
  js "{" ++ quoted (js "channel") ++ js ":" ++ quoted Bridge.dirtyChannel ++ js ","
  ++ quoted (js "data") ++ js ":{" ++ quoted (js "isDirty") ++ js ":true}}".
Definition dirtyData : JsValue := JObj [(js "isDirty", JBool true)].
Definition parseDirty : jsstr → option JsValue :=
  λ t, if eqs t dirtyText then Some (Bridge.eventPayload Bridge.dirtyChannel dirtyData)
       else None.

End Scenario.

(** * Properties *)

(** ** The embedding on small inputs *)

Example decode_escapes :
  decodeURIComponent (js "/a%20b/%2e%2e/%C3%A9%E2%82%AC")
  = Ok (js "/a b/../" ++ [0xE9; 0x20AC]).
Proof. reflexivity. Qed.

Example decode_astral : decodeURIComponent (js "%F0%9F%98%80") = Ok [0xD83D; 0xDE00].
Proof. reflexivity. Qed.

Example decode_malformed :
  decodeURIComponent (js "%") = Throw URIError
  ∧ decodeURIComponent (js "%C0%80") = Throw URIError
  ∧ decodeURIComponent (js "%ED%A0%80") = Throw URIError
  ∧ decodeURIComponent (js "%E2%82") = Throw URIError.
Proof. by vm_compute. Qed.

Example parseInt_samples :
  parseInt (JStr (js " 2abc")) = Ok (Some 2%Z)
  ∧ parseInt (JStr (js "0x10")) = Ok (Some 16%Z)
  ∧ parseInt (JNum (js "-6")) = Ok (Some (-6)%Z)
  ∧ parseInt (JArr [JNum (js "2"); JNull]) = Ok (Some 2%Z)
  ∧ parseInt JUndefined = Ok None
  ∧ parseInt (JStr (js "six")) = Ok None
  ∧ parseInt (JBool true) = Ok None
  ∧ parseInt (JObj [(js "status", JNum (js "2"))]) = Ok None.
Proof. by vm_compute. Qed.

(** An object with a member [toString] of its own has no string form, alone
    or as an element of an array. *)
Example toString_samples :
  toString (JObj [(js "a", JNull)]) = Ok (js "[object Object]")
  ∧ toString (JArr [JNum (js "1"); JNull; JArr [JStr (js "a"); JBool true]]) = Ok (js "1,,a,true")
  ∧ toString (JObj [(js "toString", JNum (js "1"))]) = Throw TypeError
  ∧ toString (JArr [JNum (js "2"); JObj [(js "toString", JNum (js "1"))]]) = Throw TypeError
  ∧ parseInt (JArr [JNum (js "2"); JObj [(js "toString", JNum (js "1"))]]) = Throw TypeError.
Proof. by vm_compute. Qed.

Example join_samples :
  join_paths [js "/home/u/vault"; js "Notes/./a b//c.docx"] = js "/home/u/vault/Notes/a b/c.docx"
  ∧ join_paths [js "/home/u/vault"; js "../x"] = js "/home/u/x"
  ∧ join_paths [js "/a/b/"; js "c/"] = js "/a/b/c/"
  ∧ join_paths [js "a"; js "../../b"] = js "../b"
  ∧ normalize (js "/..") = js "/"
  ∧ normalize [] = js ".".
Proof. by vm_compute. Qed.

Example legacy_samples :
  legacy_exec (js "obsidian_Notes%2Freport.docx_1700000000000_x9k2")
  = Some (js "Notes%2Freport.docx")
  ∧ legacy_exec (js "obsidian_a_1_b_2_c") = Some (js "a_1_b")
  ∧ legacy_exec (js "obsidian__1_b") = None
  ∧ legacy_exec (js "obsidian_a_1_B") = None
  ∧ legacy_exec (js "oo_abc123_xy9") = None.
Proof. by vm_compute. Qed.

Example hash_samples :
  rollingHash (js "abc") = 96354
  ∧ rollingHash (js "Aa") = rollingHash (js "BB")
  ∧ to_base36 4294967295 = js "1z141z3"
  ∧ to_base36 0 = js "0"
  ∧ decimal 1700000000000 = js "1700000000000".
Proof. by vm_compute. Qed.

Example key_sample :
  uniqueKey (js "Aa.docx") 1700000000000 (js "k3j9x2ab")
  = js "oo_" ++ to_base36 (rollingHash (js "Aa.docx|1700000000000|k3j9x2ab"))
    ++ js "_k3j9x2ab".
Proof. reflexivity. Qed.

Example pattern_samples :
  Create.extRegex Create.docx (js "report.DOCX") = Some (js "report")
  ∧ Create.extRegex Create.docx (js "report") = None
  ∧ Create.extRegex Create.docx (js "docx") = None
  ∧ Create.extRegex Create.xlsx (js "Draft.docx") = None.
Proof. by vm_compute. Qed.

(** The dot of the pattern is a wildcard: a name that ends in the letters
    of the type after any unit is taken to carry the extension, and the file
    is created without one. *)
Example letters_taken_for_extension :
  Create.extRegex Create.docx (js "Xdocx") = Some []
  ∧ Create.openNewDocument Sample.templates Sample.vaultRoot Sample.pluginRoot [] ∅ 1 None
      (Some (js "Xdocx", Create.docx))
    = Some ({[ js "Xdocx" := VFile [] ]}, Create.Created (js "Xdocx")).
Proof. by vm_compute. Qed.

Example untitled_sample :
  Create.openNewDocument Sample.templates Sample.vaultRoot Sample.pluginRoot []
    {[ js "Untitled Document.docx" := VFile [] ]} 2 (Some false) None
  = Some (<[ js "Untitled Document 2.docx" := VFile [] ]>
            {[ js "Untitled Document.docx" := VFile [] ]},
          Create.Created (js "Untitled Document 2.docx")).
Proof. by vm_compute. Qed.

Example no_template_sample :
  Create.openNewDocument ∅ Sample.vaultRoot Sample.pluginRoot [] ∅ 1 None
    (Some (js "Budget", Create.xlsx))
  = Some (∅, Create.NoTemplate).
Proof. by vm_compute. Qed.

(** A folder where a template is looked for: it exists, it cannot be read,
    and nothing is created. *)
Example template_folder_sample :
  Create.candidatePaths Sample.vaultRoot Sample.pluginRoot Create.docx
  = [js "/home/u/vault/.obsidian/plugins/onlyoffice/assets/Start.docx";
     js "/home/u/vault/Start.docx";
     js "/home/u/vault/.obsidian/plugins/onlyoffice/assets/Start.dotx";
     js "/home/u/vault/Start.dotx"]
  ∧ Create.openNewDocument Sample.templateFolder Sample.vaultRoot Sample.pluginRoot [] ∅ 1
      (Some false) None
    = Some (∅, Create.Failed).
Proof. by vm_compute. Qed.

Example static_samples :
  code (staticHandler Sample.noMime Sample.noSearch Sample.vaultRoot Sample.pluginRoot Sample.messageOf
          Sample.disk (Sample.get (js "/Notes/missing.docx"))) = 404%Z
  ∧ code (staticHandler Sample.noMime Sample.noSearch Sample.vaultRoot Sample.pluginRoot Sample.messageOf
            Sample.disk (Sample.get (js "/Notes"))) = 404%Z
  ∧ code (staticHandler Sample.noMime Sample.noSearch Sample.vaultRoot Sample.pluginRoot Sample.messageOf
            Sample.disk (Sample.get (js "/%zz"))) = 500%Z
  ∧ content (staticHandler Sample.noMime Sample.noSearch Sample.vaultRoot
               Sample.pluginRoot Sample.messageOf Sample.disk (Sample.get (js "/api/createNew?x=1")))
    = CHtml CreateNewPage.
Proof. by vm_compute. Qed.

Example callback_samples :
  (callbackHandler Sample.noUrlKey Sample.noForm Sample.net Sample.state
     (Sample.post (BodyJson JNull))) = (Sample.state, [], ack)
  ∧ (callbackHandler Sample.noUrlKey Sample.noForm Sample.net Sample.state
       (Sample.post (BodyJson (JObj [(js "key", JStr (js "obsidian_%_1_a"));
                                     (js "status", JNum (js "2"));
                                     (js "url", JStr Sample.outUrl)]))))
    = (Sample.state, [], ack)
  ∧ (callbackHandler Sample.noUrlKey Sample.noForm Sample.net Sample.state
       (Sample.post (BodyJson (JObj [(js "key", JStr (js "constructor"));
                                     (js "status", JNum (js "6"));
                                     (js "url", JStr Sample.outUrl)]))))
    = (Sample.state, [], ack)
  ∧ (callbackHandler Sample.noUrlKey Sample.noForm Sample.net Sample.state
       (Sample.post (BodyJson (JObj [(js "key", JStr Sample.reportKey);
                                     (js "status", JNum (js "4"));
                                     (js "url", JStr Sample.outUrl)]))))
    = (Sample.state, [], ack).
Proof. by vm_compute. Qed.

(** A status or a key that has no string form: the conversion throws, the
    [catch] acknowledges, and nothing is written. *)
Example unprintable_samples :
  statusOf (JObj [(js "toString", JNum (js "1"))]) = Throw TypeError
  ∧ statusOf (JArr [JNum (js "2"); JObj [(js "toString", JNum (js "1"))]]) = Throw TypeError
  ∧ (callbackHandler Sample.noUrlKey Sample.noForm Sample.net Sample.state
       (Sample.post (BodyJson (JObj [(js "key", JStr Sample.reportKey);
                                     (js "status",
                                      JArr [JNum (js "2");
                                            JObj [(js "toString", JNum (js "1"))]]);
                                     (js "url", JStr Sample.outUrl)]))))
    = (Sample.state, [], ack)
  ∧ (callbackHandler Sample.noUrlKey Sample.noForm Sample.net Sample.state
       (Sample.post (BodyJson (JObj [(js "key", JObj [(js "toString", JNull)]);
                                     (js "status", JNum (js "2"));
                                     (js "url", JStr Sample.outUrl)]))))
    = (Sample.state, [], ack).
Proof. by vm_compute. Qed.

(** ** Strings and the legacy pattern *)

Lemma strip_prefix_spec p s r : strip_prefix p s = Some r ↔ s = p ++ r.
Proof.
  revert s. induction p as [|a p IH]; intros s; simpl.
  - split; [by intros [= ->]|by intros ->].
  - destruct s as [|b s]; [split; [done|by intros [=]]|].
    destruct (N.eqb_spec a b) as [->|Hne].
    + rewrite IH. split; [by intros ->|by intros [= ->]].
    + split; [done|]. intros [= -> _]. done.
Qed.

Lemma span_spec p s a b :
  span p s = (a, b) → s = a ++ b ∧ Forall (λ c, p c = true) a.
Proof.
  revert a b. induction s as [|c s IH]; intros a b; simpl.
  - intros [= <- <-]. by split.
  - destruct (p c) eqn:Hc.
    + destruct (span p s) as [a' b'] eqn:Hs. intros [= <- <-].
      destruct (IH a' b' eq_refl) as [-> Ha]. split; [done|by constructor].
    + intros [= <- <-]. by split.
Qed.

Lemma span_app p a c r :
  Forall (λ x, p x = true) a → p c = false → span p (a ++ c :: r) = (a, c :: r).
Proof.
  intros Ha Hc. induction Ha as [|x a Hx _ IH]; simpl.
  - by rewrite Hc.
  - by rewrite Hx, IH.
Qed.

Lemma legacy_tail_spec s : legacy_tail s = true ↔ tailShape s.
Proof.
  unfold legacy_tail, tailShape, eqs. split.
  - destruct s as [|c t]; [done|].
    destruct (span is_digit t) as [ds r] eqn:Hsp.
    apply span_spec in Hsp as [-> Hds].
    intros [[->%N.eqb_eq Hne]%andb_prop Hr]%andb_prop.
    destruct r as [|c' a]; [done|].
    apply andb_prop in Hr as [[->%N.eqb_eq Ha]%andb_prop Hall].
    exists ds, a. split_and!; try done.
    + intros ->. done.
    + intros ->. done.
    + apply Forall_forall. intros x Hx.
      apply (proj1 (forallb_forall _ _) Hall). by apply list_elem_of_In.
  - intros (ds & an & -> & Hds & Hd & Han & Ha).
    rewrite (span_app is_digit ds 95 an Hd eq_refl).
    rewrite (bool_decide_eq_false_2 _ Hds), (bool_decide_eq_false_2 _ Han). simpl.
    apply forallb_forall. intros x Hx%list_elem_of_In.
    by apply (proj1 (Forall_forall _ _) Ha).
Qed.

Lemma underscores_app a b : underscores (a ++ b) = (underscores a + underscores b)%nat.
Proof. unfold underscores. by rewrite filter_app, length_app. Qed.

Lemma underscores_none (P : N → Prop) s :
  Forall P s → ¬ P 95 → underscores s = 0%nat.
Proof.
  intros Hs H95. unfold underscores. induction Hs as [|x s Hx _ IH]; [done|].
  rewrite filter_cons. destruct (decide (x = 95)) as [->|]; done.
Qed.

(** A string that ends the legacy pattern holds exactly two underscores. *)
Lemma tailShape_underscores s : tailShape s → underscores s = 2%nat.
Proof.
  intros (ds & an & -> & _ & Hd & _ & Ha).
  change (95 :: ds ++ 95 :: an) with ([95] ++ ds ++ [95] ++ an).
  rewrite !underscores_app.
  rewrite (underscores_none _ ds Hd), (underscores_none _ an Ha); done.
Qed.

Lemma lazy_group_sound taken rest cap :
  lazy_group taken rest = Some cap →
  ∃ more tail, cap = taken ++ more ∧ rest = more ++ tail ∧ more ≠ []
    ∧ Forall noLineTerminator more ∧ tailShape tail.
Proof.
  revert taken. induction rest as [|c rest IH]; intros taken; simpl; [done|].
  destruct (is_line_terminator c) eqn:Hc; [done|].
  destruct (legacy_tail rest) eqn:Ht.
  - intros [= <-]. exists [c], rest. split_and!; try done.
    + by repeat constructor.
    + by apply legacy_tail_spec.
  - intros (more & tail & -> & -> & Hne & Hall & Htail)%IH.
    exists (c :: more), tail. rewrite <- app_assoc. split_and!; try done.
    by constructor.
Qed.

Lemma lazy_group_complete taken cap tail :
  cap ≠ [] → Forall noLineTerminator cap → tailShape tail →
  lazy_group taken (cap ++ tail) = Some (taken ++ cap).
Proof.
  intros Hne Hall Htail. revert taken.
  induction Hall as [|c cap Hc Hall IH]; intros taken; [done|]. simpl.
  rewrite Hc. destruct cap as [|c' cap'].
  - simpl. by rewrite (proj2 (legacy_tail_spec tail) Htail).
  - destruct (legacy_tail ((c' :: cap') ++ tail)) eqn:Ht.
    + exfalso. apply legacy_tail_spec in Ht.
      pose proof (tailShape_underscores _ Ht) as Hn.
      pose proof (tailShape_underscores _ Htail) as Hm.
      rewrite underscores_app, Hm in Hn.
      destruct Ht as (ds & an & Heq & _). injection Heq as -> _.
      unfold underscores in Hn. rewrite filter_cons in Hn. simpl in Hn.
      destruct (decide (95 = 95)); [simpl in Hn; lia|done].
    + rewrite IH; [|done]. by rewrite <- app_assoc.
Qed.

(** The legacy pattern, read as a shape: [obsidian_], a capture without
    line terminator, an underscore, digits, an underscore, lower-case letters
    and digits. *)
Lemma legacy_exec_spec key cap :
  legacy_exec key = Some cap
  ↔ ∃ ds an, key = js "obsidian_" ++ cap ++ 95 :: ds ++ 95 :: an
      ∧ cap ≠ [] ∧ Forall noLineTerminator cap
      ∧ ds ≠ [] ∧ Forall (λ c, is_digit c = true) ds
      ∧ an ≠ [] ∧ Forall isLowerAlnum an.
Proof.
  unfold legacy_exec. split.
  - destruct (strip_prefix (js "obsidian_") key) as [rest|] eqn:Hp; [|done].
    apply strip_prefix_spec in Hp as ->.
    intros (more & tail & -> & -> & Hne & Hall & ds & an & -> & Hrest)%lazy_group_sound.
    exists ds, an. destruct Hrest as (Hds & Hd & Han & Ha). by split_and!.
  - intros (ds & an & -> & Hne & Hall & Hrest).
    rewrite (proj2 (strip_prefix_spec (js "obsidian_") _ _) eq_refl).
    rewrite (lazy_group_complete [] cap (95 :: ds ++ 95 :: an)); try done.
    destruct Hrest as (Hds & Hd & Han & Ha). by exists ds, an.
Qed.

(** ** Keys and the registry *)

Lemma digit36_alnum d : d < 36 → isLowerAlnum (digit36 d).
Proof.
  intros Hd. unfold isLowerAlnum, digit36, is_lower, is_digit.
  destruct (N.ltb_spec d 10).
  - apply orb_true_iff. right. apply andb_true_iff. split; apply N.leb_le; lia.
  - apply orb_true_iff. left. apply andb_true_iff. split; apply N.leb_le; lia.
Qed.

Lemma to_base36_aux_alnum fuel n acc :
  Forall isLowerAlnum acc → Forall isLowerAlnum (to_base36_aux fuel n acc).
Proof.
  revert n acc. induction fuel as [|f IH]; intros n acc Hacc; simpl; [done|].
  assert (Forall isLowerAlnum (digit36 (n mod 36) :: acc)) as Hacc'.
  { constructor; [|done]. apply digit36_alnum. by apply N.mod_lt. }
  destruct (n / 36 =? 0); [done|by apply IH].
Qed.

Lemma to_base36_aux_keeps fuel n acc : acc ≠ [] → to_base36_aux fuel n acc ≠ [].
Proof.
  revert n acc. induction fuel as [|f IH]; intros n acc Hacc; simpl; [done|].
  destruct (n / 36 =? 0); [done|]. by apply IH.
Qed.

Lemma to_base36_shape n : to_base36 n ≠ [] ∧ Forall isLowerAlnum (to_base36 n).
Proof.
  unfold to_base36. split.
  - simpl. destruct (n / 36 =? 0); [done|]. by apply to_base36_aux_keeps.
  - by apply to_base36_aux_alnum.
Qed.

Lemma generated_not_legacy path mtime rnd : legacy_exec (uniqueKey path mtime rnd) = None.
Proof. reflexivity. Qed.

Lemma generated_not_inherited path mtime rnd :
  uniqueKey path mtime rnd ∉ objectPrototypeNames.
Proof.
  unfold uniqueKey. intros Hin.
  change (js "oo_" ++ ?r) with (111 :: 111 :: 95 :: r) in Hin.
  repeat (apply elem_of_cons in Hin as [Hin|Hin]; [discriminate Hin|]).
  by apply elem_of_nil in Hin.
Qed.

Lemma legacy_not_inherited key cap :
  legacy_exec key = Some cap → key ∉ objectPrototypeNames.
Proof.
  intros Hl Hin.
  repeat (apply elem_of_cons in Hin as [->|Hin]; [by vm_compute in Hl|]).
  by apply elem_of_nil in Hin.
Qed.

Lemma resolve_own reg key path :
  reg !! key = Some path → path ≠ [] → resolve reg key = Ok (Some (PStr path)).
Proof.
  intros Hk Hp. unfold resolve, registry_get. rewrite Hk. simpl.
  unfold eqs. by rewrite (bool_decide_eq_false_2 _ Hp).
Qed.

(** C10. A key generated on open is [oo_], the hash in base 36, an
    underscore and the random suffix; it does not match the legacy pattern,
    whatever the path, the time and the suffix are, so resolving it consults
    the registry only: the result is the registered path, or nothing when
    the registry holds none. *)
Theorem generated_key_registry_only (path : jsstr) (mtime : N) (rnd : jsstr)
    (reg : gmap jsstr jsstr) :
  (∃ h : jsstr, uniqueKey path mtime rnd = js "oo_" ++ h ++ js "_" ++ rnd
        ∧ h ≠ [] ∧ Forall isLowerAlnum h)
  ∧ legacy_exec (uniqueKey path mtime rnd) = None
  ∧ resolve reg (uniqueKey path mtime rnd)
    = Ok (match reg !! uniqueKey path mtime rnd with
          | Some p => if eqs p [] then None else Some (PStr p)
          | None => None
          end).
Proof.
  split_and!.
  - eexists. split; [reflexivity|]. apply to_base36_shape.
  - apply generated_not_legacy.
  - unfold resolve, registry_get. rewrite generated_not_legacy.
    destruct (reg !! uniqueKey path mtime rnd) as [p|] eqn:Hk.
    + simpl. by destruct (eqs p []).
    + by rewrite (bool_decide_eq_false_2 _ (generated_not_inherited path mtime rnd)).
Qed.


(** ** The callback receiver *)

Section CallbackProps.

Variable url_key : JsValue → option jsstr.
Variable form_entries : jsstr → list (jsstr * jsstr).
Variable requestUrl : JsValue → FetchResult.

Local Abbreviation handler := (callbackHandler url_key form_entries requestUrl).
Local Abbreviation process := (processCallback url_key requestUrl).

Lemma saveTo_inv st fp url_v st' ns :
  saveTo requestUrl st fp url_v = (st', ns) →
  (st' = st ∧ ns = [])
  ∨ ∃ p old buf, fp = PStr p ∧ vault st !! p = Some (VFile old)
      ∧ requestUrl url_v = FetchResponse 200 buf
      ∧ st' = {| keyFileMap := keyFileMap st; vault := <[p := VFile buf]> (vault st) |}
      ∧ ns = [savedNotice].
Proof.
  unfold saveTo. destruct fp as [p|]; simpl.
  - destruct (vault st !! p) as [[old|]|] eqn:Hv; try (intros [= <- <-]; by left).
    destruct (requestUrl url_v) as [|status buf] eqn:Hf; try (intros [= <- <-]; by left).
    destruct (Z.eqb_spec status 200) as [->|Hne]; [|intros [= <- <-]; by left].
    intros [= <- <-]. right. by exists p, old, buf.
  - intros [= <- <-]. by left.
Qed.

(** What a change of state by [processCallback] tells about the callback. *)
Lemma processCallback_inv st data st' ns :
  process st data = Ok (st', ns) →
  (st' = st ∧ ns = [])
  ∨ ∃ status_v url_v key_v k p old buf,
      get_prop data (js "status") = Ok status_v
      ∧ get_prop data (js "url") = Ok url_v
      ∧ get_prop data (js "key") = Ok key_v
      ∧ isSaveRequest data status_v url_v = Ok true
      ∧ truthy (keyOf url_key key_v url_v) = true
      ∧ toString (keyOf url_key key_v url_v) = Ok k
      ∧ resolve (keyFileMap st) k = Ok (Some (PStr p))
      ∧ vault st !! p = Some (VFile old)
      ∧ requestUrl url_v = FetchResponse 200 buf
      ∧ st' = {| keyFileMap := keyFileMap st; vault := <[p := VFile buf]> (vault st) |}
      ∧ ns = [savedNotice].
Proof.
  unfold processCallback.
  destruct (get_prop data (js "status")) as [status_v|] eqn:Hs; simpl; [|done].
  destruct (get_prop data (js "url")) as [url_v|] eqn:Hu; simpl; [|done].
  destruct (isSaveRequest data status_v url_v) as [[|]|] eqn:Hsave; simpl;
    [|intros [= <- <-]; by left|done].
  destruct (get_prop data (js "key")) as [key_v|] eqn:Hk; simpl; [|done].
  destruct (truthy (keyOf url_key key_v url_v)) eqn:Hkey; [|intros [= <- <-]; by left].
  destruct (toString (keyOf url_key key_v url_v)) as [k|] eqn:Hts; simpl; [|done].
  destruct (resolve _ _) as [[fp|]|] eqn:Hr; simpl; [| intros [= <- <-]; by left | done].
  destruct (path_truthy fp) eqn:Hfp; [|intros [= <- <-]; by left].
  intros [= Hsv]. apply saveTo_inv in Hsv as [[-> ->]|(p & old & buf & -> & Hv & Hf & -> & ->)].
  - by left.
  - right. by exists status_v, url_v, key_v, k, p, old, buf.
Qed.

Lemma post_not_options req : isCallbackPost req = true → eqs (method req) (js "OPTIONS") = false.
Proof.
  unfold isCallbackPost, eqs. intros [Hm _]%andb_prop.
  apply bool_decide_eq_true in Hm. rewrite Hm. reflexivity.
Qed.

(** The handler either leaves the state alone and shows nothing, or it is
    a POST to [/callback] whose body went through [processCallback]. *)
Lemma handler_inv st req :
  ((handler st req).1.1 = st ∧ (handler st req).1.2 = [])
  ∨ ∃ data, isCallbackPost req = true
      ∧ parseBody form_entries (body req) = Some data
      ∧ process st data = Ok (handler st req).1.
Proof.
  unfold callbackHandler.
  destruct (eqs (method req) (js "OPTIONS")); [by left|].
  destruct (isCallbackPost req) eqn:Hpost; [|by left].
  destruct (parseBody form_entries (body req)) as [data|] eqn:Hb; [|by left].
  destruct (process st data) as [[st' ns]|e] eqn:Hp; [|by left].
  right. by exists data.
Qed.

(** What a change of state by the handler tells about the request: every
    step from the body to the bytes is the one of this request. *)
Lemma handler_change st req :
  (handler st req).1 = (st, [])
  ∨ ∃ data status_v url_v key_v k p old buf,
      isCallbackPost req = true
      ∧ parseBody form_entries (body req) = Some data
      ∧ get_prop data (js "status") = Ok status_v
      ∧ get_prop data (js "url") = Ok url_v
      ∧ get_prop data (js "key") = Ok key_v
      ∧ isSaveRequest data status_v url_v = Ok true
      ∧ toString (keyOf url_key key_v url_v) = Ok k
      ∧ resolve (keyFileMap st) k = Ok (Some (PStr p))
      ∧ vault st !! p = Some (VFile old)
      ∧ requestUrl url_v = FetchResponse 200 buf
      ∧ (handler st req).1
        = ({| keyFileMap := keyFileMap st; vault := <[p := VFile buf]> (vault st) |},
           [savedNotice]).
Proof.
  destruct (handler_inv st req) as [[H1 H2]|(data & Hpost & Hb & Hp)].
  - left. destruct (handler st req) as [[st' ns] resp]; simpl in *. by subst.
  - destruct (handler st req) as [[st' ns] resp]; simpl in *.
    apply processCallback_inv in Hp
      as [[-> ->]|(status_v & url_v & key_v & k & p & old & buf
                   & Hs & Hu & Hk & Hsave & _ & Hts & Hr & Hv & Hf & -> & ->)];
      [by left|].
    right. by exists data, status_v, url_v, key_v, k, p, old, buf.
Qed.

(** A save request on a resolvable key: the file is fetched and overwritten. *)
Lemma handler_saves st req data status_v url_v key_v k p old buf :
  isCallbackPost req = true →
  parseBody form_entries (body req) = Some data →
  get_prop data (js "status") = Ok status_v →
  get_prop data (js "url") = Ok url_v →
  get_prop data (js "key") = Ok key_v →
  isSaveRequest data status_v url_v = Ok true →
  truthy (keyOf url_key key_v url_v) = true →
  toString (keyOf url_key key_v url_v) = Ok k →
  resolve (keyFileMap st) k = Ok (Some (PStr p)) →
  p ≠ [] →
  vault st !! p = Some (VFile old) →
  requestUrl url_v = FetchResponse 200 buf →
  handler st req
  = ({| keyFileMap := keyFileMap st; vault := <[p := VFile buf]> (vault st) |},
     [savedNotice], ack).
Proof.
  intros Hpost Hb Hs Hu Hk Hsave Hkey Hts Hr Hp Hv Hf.
  unfold callbackHandler. rewrite (post_not_options _ Hpost), Hpost, Hb.
  unfold processCallback. rewrite Hs, Hu. simpl. rewrite Hsave. simpl. rewrite Hk. simpl.
  rewrite Hkey, Hts. simpl. rewrite Hr. simpl.
  assert (eqs p [] = false) as -> by (unfold eqs; by apply bool_decide_eq_false).
  simpl. by rewrite Hv, Hf.
Qed.

(** The test of line 1666 on a status that was read. *)
Lemma isSaveRequest_read data status_v url_v s :
  statusOf status_v = Ok s →
  isSaveRequest data status_v url_v
  = Ok (truthy data
        && (bool_decide (s = 2%Z) || bool_decide (s = 6%Z) || bool_decide (s = 0%Z))
        && truthy url_v).
Proof. intros Hs. unfold isSaveRequest. by rewrite Hs. Qed.

(** A member that is read off a value that is no object is [undefined]. *)
Lemma member_needs_object data name v :
  get_prop data name = Ok v → truthy v = true → truthy data = true.
Proof. destruct data; simpl; try done; by intros [= <-]. Qed.

(** A status that [parseInt] reads as 2 or 6 can only come off an object. *)
Lemma status_needs_object data status_v s :
  get_prop data (js "status") = Ok status_v → statusOf status_v = Ok s → s ≠ 0%Z →
  truthy data = true.
Proof.
  destruct data; simpl; try done; intros [= <-]; vm_compute; by intros [= <-].
Qed.

Lemma post_acknowledged st req : isCallbackPost req = true → (handler st req).2 = ack.
Proof.
  intros Hpost. unfold callbackHandler. rewrite (post_not_options _ Hpost), Hpost.
  destruct (parseBody form_entries (body req)) as [data|]; [|done].
  by destruct (process st data) as [[st' ns]|e].
Qed.

(** A callback leaves the registry as it is. *)
Lemma handler_keeps_registry st req : keyFileMap (handler st req).1.1 = keyFileMap st.
Proof.
  destruct (handler_change st req)
    as [->|(?&?&?&?&?&?&?&?&_&_&_&_&_&_&_&_&_&_&->)]; done.
Qed.

(** C3. Every POST to [/callback] is answered with status 200 and the body
    [{ error: 0 }], whatever the body holds: text that is neither JSON nor
    form-encoded, a value whose members cannot be read, a key that
    resolves to nothing, a capture that does not decode.  The handler is a
    total function, so no exception reaches the sender. *)
Theorem callback_post_acknowledged st req :
  isCallbackPost req = true →
  (handler st req).2 = ack
  ∧ code (handler st req).2 = 200%Z
  ∧ content (handler st req).2 = CJson (JObj [(js "error", JNum (js "0"))]).
Proof.
  intros Hpost. by rewrite (post_acknowledged st req Hpost).
Qed.

(** C9. A callback never touches the registry and never adds or removes a
    path of the vault.  When it changes the state at all, the request is a
    POST to [/callback] and the change is the overwrite of the file that
    exists at the path its own key resolves to, with the bytes its own url
    yielded in a response of status 200.  So when that path names no file of
    the vault (nothing there, a folder, no path at all), or the fetch throws
    or answers another status, nothing is written and nothing is shown.  A
    POST to [/callback] is acknowledged either way. *)
Theorem callback_only_overwrites_existing st req :
  keyFileMap (handler st req).1.1 = keyFileMap st
  ∧ dom (vault (handler st req).1.1) = dom (vault st)
  ∧ ((handler st req).1 = (st, [])
     ∨ ∃ data url_v key_v k p old buf,
         isCallbackPost req = true
         ∧ parseBody form_entries (body req) = Some data
         ∧ get_prop data (js "url") = Ok url_v
         ∧ get_prop data (js "key") = Ok key_v
         ∧ toString (keyOf url_key key_v url_v) = Ok k
         ∧ resolve (keyFileMap st) k = Ok (Some (PStr p))
         ∧ vault st !! p = Some (VFile old)
         ∧ requestUrl url_v = FetchResponse 200 buf
         ∧ (handler st req).1
           = ({| keyFileMap := keyFileMap st; vault := <[p := VFile buf]> (vault st) |},
              [savedNotice]))
  ∧ (∀ data url_v key_v k fp,
       parseBody form_entries (body req) = Some data →
       get_prop data (js "url") = Ok url_v →
       get_prop data (js "key") = Ok key_v →
       toString (keyOf url_key key_v url_v) = Ok k →
       resolve (keyFileMap st) k = Ok fp →
       (∀ p old, fp = Some (PStr p) → vault st !! p ≠ Some (VFile old))
       ∨ (∀ buf, requestUrl url_v ≠ FetchResponse 200 buf) →
       (handler st req).1 = (st, []))
  ∧ (isCallbackPost req = true → (handler st req).2 = ack).
Proof.
  split_and!.
  - apply handler_keeps_registry.
  - destruct (handler_change st req)
      as [->|(?&?&?&?&?&p&old&buf&_&_&_&_&_&_&_&_&Hv&_&->)]; [done|]. simpl.
    rewrite dom_insert_L. apply (elem_of_dom_2 (D := gset jsstr)) in Hv. set_solver.
  - destruct (handler_change st req)
      as [->|(data&?&url_v&key_v&k&p&old&buf&Hpost&Hb&_&Hu&Hk&_&Hts&Hr&Hv&Hf&->)];
      [by left|].
    right. by exists data, url_v, key_v, k, p, old, buf.
  - intros data url_v key_v k fp Hb Hu Hk Hts Hr Hno.
    destruct (handler_change st req)
      as [->|(data'&?&url_v'&key_v'&k'&p&old&buf&_&Hb'&_&Hu'&Hk'&_&Hts'&Hr'&Hv&Hf&_)];
      [done|].
    exfalso. rewrite Hb in Hb'. injection Hb' as <-.
    rewrite Hu in Hu'. injection Hu' as <-. rewrite Hk in Hk'. injection Hk' as <-.
    rewrite Hts in Hts'. injection Hts' as <-. rewrite Hr in Hr'. injection Hr' as ->.
    destruct Hno as [Hno|Hno]; [by apply (Hno p old)|by apply (Hno buf)].
  - apply post_acknowledged.
Qed.

(** C6. A callback of status 2 whose key (its [key] member or, without
    one, the [key] parameter of its url) resolves to a file of the vault and
    whose url yields bytes leaves that file with exactly those bytes, and
    nothing else changed; the same callback once more overwrites the file
    with the same bytes and ends in the same state. *)
Theorem callback_save_idempotent st req data status_v url_v key_v k p old buf :
  isCallbackPost req = true →
  parseBody form_entries (body req) = Some data →
  get_prop data (js "status") = Ok status_v →
  statusOf status_v = Ok 2%Z →
  get_prop data (js "url") = Ok url_v →
  truthy url_v = true →
  get_prop data (js "key") = Ok key_v →
  truthy (keyOf url_key key_v url_v) = true →
  toString (keyOf url_key key_v url_v) = Ok k →
  resolve (keyFileMap st) k = Ok (Some (PStr p)) →
  p ≠ [] →
  vault st !! p = Some (VFile old) →
  requestUrl url_v = FetchResponse 200 buf →
  let st' := {| keyFileMap := keyFileMap st; vault := <[p := VFile buf]> (vault st) |} in
  handler st req = (st', [savedNotice], ack)
  ∧ vault st' !! p = Some (VFile buf)
  ∧ (∀ q, q ≠ p → vault st' !! q = vault st !! q)
  ∧ handler st' req = (st', [savedNotice], ack).
Proof.
  intros Hpost Hb Hs H2 Hu Htu Hk Htk Hts Hr Hp Hv Hf st'.
  assert (isSaveRequest data status_v url_v = Ok true) as Hsave.
  { rewrite (isSaveRequest_read _ _ _ _ H2), Htu.
    by rewrite (status_needs_object _ _ _ Hs H2). }
  split_and!.
  - eapply handler_saves; eauto.
  - apply lookup_insert_eq.
  - intros q Hq. by apply lookup_insert_ne.
  - erewrite (handler_saves st' req); eauto.
    + unfold st'. simpl. by rewrite insert_insert_eq.
    + apply lookup_insert_eq.
Qed.

(** The registry is changed by an open only, and only under the key that
    open generates. *)
Lemma run_keeps_registered st evs key path :
  keyFileMap st !! key = Some path →
  (∀ path' mtime' rnd',
     EvOpen path' mtime' rnd' ∈ evs → uniqueKey path' mtime' rnd' = key → path' = path) →
  keyFileMap (run url_key form_entries requestUrl st evs) !! key = Some path.
Proof.
  revert st. induction evs as [|ev evs IH]; intros st Hk Hev; [done|].
  simpl. apply IH.
  - destruct ev as [path' mtime' rnd'|req]; simpl.
    + unfold register. destruct (decide (uniqueKey path' mtime' rnd' = key)) as [Heq|Hne].
      * rewrite Heq, lookup_insert_eq. f_equal. apply (Hev path' mtime' rnd'); [|done].
        apply elem_of_cons. by left.
      * by rewrite lookup_insert_ne.
    + by rewrite handler_keeps_registry.
  - intros path' mtime' rnd' Hin. apply Hev. apply elem_of_cons. by right.
Qed.

(** C4, as the code has it. A path registered on open is what the callback
    path resolves the key to, through every later callback and every later
    open that does not generate the same key for another file (the registry
    has no deletion; an insertion under the same key replaces the entry).  A
    key without registry entry resolves to a path exactly when it has the
    legacy shape and its captured segment percent-decodes, and then to the
    decoded segment; otherwise no path comes out and nothing is saved. *)
Theorem key_resolution st path mtime rnd evs :
  path ≠ [] →
  (∀ path' mtime' rnd',
     EvOpen path' mtime' rnd' ∈ evs →
     uniqueKey path' mtime' rnd' = uniqueKey path mtime rnd → path' = path) →
  resolve (keyFileMap (run url_key form_entries requestUrl
                         (openFile st path mtime rnd) evs))
          (uniqueKey path mtime rnd) = Ok (Some (PStr path))
  ∧ ∀ (reg : gmap jsstr jsstr) key p,
      reg !! key = None →
      (resolve reg key = Ok (Some (PStr p))
       ↔ ∃ cap ds an,
           key = js "obsidian_" ++ cap ++ 95 :: ds ++ 95 :: an
           ∧ cap ≠ [] ∧ Forall noLineTerminator cap
           ∧ ds ≠ [] ∧ Forall (λ c, is_digit c = true) ds
           ∧ an ≠ [] ∧ Forall isLowerAlnum an
           ∧ decodeURIComponent cap = Ok p).
Proof.
  intros Hp Hev. split.
  - apply resolve_own; [|done]. apply run_keeps_registered; [|done].
    simpl. unfold register. apply lookup_insert_eq.
  - intros reg key p Hk. unfold resolve, registry_get. rewrite Hk. split.
    + destruct (bool_decide (key ∈ objectPrototypeNames)); simpl; [done|].
      destruct (legacy_exec key) as [cap|] eqn:Hl; [|done].
      apply legacy_exec_spec in Hl as (ds & an & Hl).
      destruct (decodeURIComponent cap) as [q|] eqn:Hd; simpl; [|done].
      intros [= ->]. exists cap, ds, an. naive_solver.
    + intros (cap & ds & an & Hkey & Hc1 & Hc2 & Hd1 & Hd2 & Ha1 & Ha2 & Hdec).
      assert (legacy_exec key = Some cap) as Hl.
      { apply legacy_exec_spec. exists ds, an. by split_and!. }
      rewrite (bool_decide_eq_false_2 _ (legacy_not_inherited _ _ Hl)), Hl, Hdec. done.
Qed.

(** A notification that is no save request changes nothing. *)
Lemma handler_skips st req data status_v url_v :
  parseBody form_entries (body req) = Some data →
  get_prop data (js "status") = Ok status_v →
  get_prop data (js "url") = Ok url_v →
  isSaveRequest data status_v url_v ≠ Ok true →
  (handler st req).1 = (st, []).
Proof.
  intros Hb Hs Hu Hno.
  destruct (handler_change st req)
    as [->|(data'&status_v'&url_v'&?&?&?&?&?&_&Hb'&Hs'&Hu'&_&Hsave&_)]; [done|].
  exfalso. rewrite Hb in Hb'. injection Hb' as <-.
  rewrite Hs in Hs'. injection Hs' as <-. rewrite Hu in Hu'. by injection Hu' as <-.
Qed.

(** C2, as the code has it. The save branch is taken exactly when
    [parseInt(status) || 0] yields 2, 6 or 0 and a url is present; 0 is what
    a missing status, or one whose text does not start with a number, reads
    as.  A status that reads as another number, a status that has no string
    form (the conversion throws, which the [catch] of line 1733 answers),
    or a missing url is acknowledged and changes nothing; a status of 2, 6
    or 0 with a url overwrites the file the key resolves to with the fetched
    bytes. *)
Theorem save_on_status_2_6_or_0 st req data status_v url_v :
  parseBody form_entries (body req) = Some data →
  get_prop data (js "status") = Ok status_v →
  get_prop data (js "url") = Ok url_v →
  (¬ (statusOf status_v = Ok 2%Z ∨ statusOf status_v = Ok 6%Z ∨ statusOf status_v = Ok 0%Z)
   ∨ truthy url_v = false →
   (handler st req).1 = (st, [])
   ∧ (isCallbackPost req = true → (handler st req).2 = ack))
  ∧ (∀ key_v k p old buf,
       isCallbackPost req = true →
       statusOf status_v = Ok 2%Z ∨ statusOf status_v = Ok 6%Z ∨ statusOf status_v = Ok 0%Z →
       truthy url_v = true →
       get_prop data (js "key") = Ok key_v →
       truthy (keyOf url_key key_v url_v) = true →
       toString (keyOf url_key key_v url_v) = Ok k →
       resolve (keyFileMap st) k = Ok (Some (PStr p)) →
       p ≠ [] →
       vault st !! p = Some (VFile old) →
       requestUrl url_v = FetchResponse 200 buf →
       handler st req
       = ({| keyFileMap := keyFileMap st; vault := <[p := VFile buf]> (vault st) |},
          [savedNotice], ack)).
Proof.
  intros Hb Hs Hu. split.
  - intros Hno. split; [|apply post_acknowledged].
    apply (handler_skips st req data status_v url_v Hb Hs Hu).
    unfold isSaveRequest. destruct (statusOf status_v) as [s|e] eqn:Hst; [|done].
    simpl. intros [= Hsave]. apply andb_prop in Hsave as [[_ Hst']%andb_prop Htu].
    destruct Hno as [Hno|Hno]; [|by rewrite Hno in Htu].
    apply Hno. apply orb_prop in Hst' as [[H2|H6]%orb_prop|H0].
    + left. f_equal. by apply bool_decide_eq_true in H2.
    + right. left. f_equal. by apply bool_decide_eq_true in H6.
    + right. right. f_equal. by apply bool_decide_eq_true in H0.
  - intros key_v k p old buf Hpost Hst Htu Hk Hkey Hts Hr Hp Hv Hf.
    eapply handler_saves; eauto.
    assert (∃ s, statusOf status_v = Ok s ∧ (s = 2 ∨ s = 6 ∨ s = 0)%Z) as (s & Hread & Hs26).
    { destruct Hst as [H|[H|H]]; eexists; (split; [exact H|]); auto. }
    rewrite (isSaveRequest_read _ _ _ _ Hread), (member_needs_object _ _ _ Hu Htu), Htu.
    by destruct Hs26 as [->|[->| ->]].
Qed.

End CallbackProps.

(** ** Binding the servers *)

Section PortProps.

Import Ports.

Variable listen : Z → bool.
Variable selfTest : Z → TestResult.

(** Up to 2^53 the sum of two whole numbers is exact. *)
Lemma plus_exact x y : (Z.abs (x + y) ≤ 2 ^ 53)%Z → plus x y = (x + y)%Z.
Proof.
  intros H. unfold plus, toDouble.
  destruct (Z.leb_spec (Z.abs (x + y)) (2 ^ 53)) as [_|Hgt]; [done|lia].
Qed.

(** The loop ends as soon as it has more rounds than ports left to try,
    when the ports it counts through are exact. *)
Lemma bindLoop_total fuel port maxPort before :
  (- 2 ^ 53 ≤ port)%Z → (maxPort ≤ 2 ^ 53)%Z →
  (0 `max` (maxPort - port) < Z.of_nat fuel)%Z →
  ∃ r, bindLoop listen fuel port maxPort before = Some r ∧ bindSpec listen port maxPort before r.
Proof.
  intros Hlow Hhigh. revert port before Hlow.
  induction fuel as [|f IH]; intros port before Hlow Hfuel; simpl.
  - lia.
  - destruct (Z.ltb_spec port maxPort) as [Hlt|Hge].
    + destruct (listen port) eqn:Hl.
      * eexists. split; [reflexivity|]. unfold bindSpec. simpl. split_and!; try lia; [done|].
        replace (port - port + 1)%Z with 1%Z by lia.
        rewrite seqZ_cons, seqZ_nil by lia. done.
      * rewrite plus_exact by lia.
        destruct (IH (port + 1)%Z (before ++ [port])) as (r & Hr & Hspec); [lia..|].
        exists r. split; [done|]. unfold bindSpec in *.
        destruct (bound r) as [p|].
        -- destruct Hspec as (Hp & Hlp & Hbelow & Hatt). split_and!; try lia; [done| |].
           ++ intros q Hq. destruct (decide (q = port)) as [->|]; [done|].
              apply Hbelow. lia.
           ++ rewrite Hatt, <- app_assoc. f_equal. simpl.
              rewrite (seqZ_cons port) by lia. f_equal. f_equal; lia.
        -- destruct Hspec as (Hall & Hatt). split.
           ++ intros q Hq. destruct (decide (q = port)) as [->|]; [done|].
              apply Hall. lia.
           ++ rewrite Hatt, <- app_assoc. f_equal. simpl.
              rewrite (seqZ_cons port) by lia. f_equal. f_equal; lia.
    + eexists. split; [reflexivity|]. unfold bindSpec. simpl. split; [intros; lia|].
      rewrite seqZ_nil by lia. by rewrite app_nil_r.
Qed.

(** A port that [listen] refuses and that [port++] leaves as it is keeps
    the loop going for ever. *)
Lemma bindLoop_stuck fuel port maxPort before :
  (port < maxPort)%Z → listen port = false → plus port 1 = port →
  bindLoop listen fuel port maxPort before = None.
Proof.
  intros Hlt Hl Hsame. revert before. induction fuel as [|f IH]; intros before; simpl; [done|].
  destruct (Z.ltb_spec port maxPort) as [_|Hge]; [|lia].
  rewrite Hl, Hsame. apply IH.
Qed.

Lemma startPort_exact setting dflt :
  (Z.abs (default 0%Z setting) ≤ 2 ^ 53 - 1000)%Z → (Z.abs dflt ≤ 2 ^ 53 - 1000)%Z →
  (Z.abs (startPort setting dflt) ≤ 2 ^ 53 - 1000)%Z.
Proof. destruct setting as [[|p|p]|]; simpl; lia. Qed.


End PortProps.

(** ** The configuration builder *)

Section ConfigProps.

Import Config.

Variable signJWT : Claims → jsstr → Result jsstr.
Variable encodeURIComponent : jsstr → Result jsstr.
Variable toLowerCase : jsstr → jsstr.

Local Abbreviation build := (buildEditorConfig signJWT encodeURIComponent toLowerCase).
Local Abbreviation baseOf := (baseConfigOf toLowerCase).

(** C5. With a secret configured and request tokens enabled, a launch of
    the editor carries the request token in the document, callback, create
    and save-as URLs, and the claim set that was signed is made of the
    document and editor sections of the very configuration that is sent:
    the URLs were final when the payload was signed and are not touched
    afterwards. *)
Theorem token_appended_before_signing st port dockerFileUrl dockerBaseUrl cbUrl file
    isStartDocx uniqueKey now1 now2 secret launch :
  secretConfigured st = Some secret →
  requestTokensEnabled st = true →
  build st port dockerFileUrl dockerBaseUrl cbUrl file isStartDocx uniqueKey now1 now2
  = Ok launch →
  let base := baseOf port dockerFileUrl dockerBaseUrl cbUrl file isStartDocx uniqueKey in
  ∃ requestToken encoded token,
    signJWT (RequestClaims uniqueKey (now1 / 1000)) secret = Ok requestToken
    ∧ encodeURIComponent requestToken = Ok encoded
    ∧ url (document (sentConfig launch)) = append encoded (url (document base))
    ∧ callbackUrl (editorConfig (sentConfig launch)) = append encoded cbUrl
    ∧ createUrl (editorConfig (sentConfig launch))
      = append encoded (createUrl (editorConfig base))
    ∧ saveAsUrl (editorConfig (sentConfig launch))
      = append encoded (saveAsUrl (editorConfig base))
    ∧ signedPayload launch
      = Some (ConfigClaims (document (sentConfig launch))
                (editorConfig (sentConfig launch)) (now2 / 1000))
    ∧ signJWT (ConfigClaims (document (sentConfig launch))
                 (editorConfig (sentConfig launch)) (now2 / 1000)) secret = Ok token
    ∧ signedToken launch = Some token.
Proof.
  intros Hsecret Henabled. unfold buildEditorConfig. rewrite Hsecret, Henabled.
  destruct (signJWT (RequestClaims uniqueKey (now1 / 1000)) secret) as [rt|] eqn:Hrt;
    simpl; [|done].
  destruct (encodeURIComponent rt) as [enc|] eqn:Henc; simpl; [|done].
  match goal with
  | |- context [signJWT ?c secret] => destruct (signJWT c secret) as [token|] eqn:Htok
  end; simpl; [|done].
  intros [= <-]. exists rt, enc, token. by split_and!.
Qed.

(** The builder does produce a launch when the signer and the encoder
    succeed. *)
Lemma build_succeeds st port dockerFileUrl dockerBaseUrl cbUrl file isStartDocx
    uniqueKey now1 now2 secret :
  secretConfigured st = Some secret →
  (∀ c, ∃ t, signJWT c secret = Ok t) →
  (∀ t, ∃ e, encodeURIComponent t = Ok e) →
  ∃ launch,
    build st port dockerFileUrl dockerBaseUrl cbUrl file isStartDocx uniqueKey now1 now2
    = Ok launch.
Proof.
  intros Hsecret Hsign Henc. unfold buildEditorConfig. rewrite Hsecret.
  destruct (requestTokensEnabled st).
  - destruct (Hsign (RequestClaims uniqueKey (now1 / 1000))) as [rt ->]. simpl.
    destruct (Henc rt) as [enc ->]. simpl.
    destruct (Hsign (ConfigClaims
                       (document (appendToken enc
                          (baseOf port dockerFileUrl dockerBaseUrl cbUrl file isStartDocx
                             uniqueKey)))
                       (editorConfig (appendToken enc
                          (baseOf port dockerFileUrl dockerBaseUrl cbUrl file isStartDocx
                             uniqueKey)))
                       (now2 / 1000))) as [token Htok].
    simpl in *. rewrite Htok. simpl. by eexists.
  - simpl.
    destruct (Hsign (ConfigClaims
                       (document (baseOf port dockerFileUrl dockerBaseUrl cbUrl file
                                    isStartDocx uniqueKey))
                       (editorConfig (baseOf port dockerFileUrl dockerBaseUrl cbUrl file
                                        isStartDocx uniqueKey))
                       (now2 / 1000))) as [token Htok].
    simpl in *. rewrite Htok. simpl. by eexists.
Qed.

End ConfigProps.

(** ** Paths and the static server *)

Section PathProps.

Lemma split_on_nonempty sep s : split_on sep s ≠ [].
Proof.
  destruct s as [|c s]; simpl; [done|].
  destruct (c =? sep); [done|]. by destruct (split_on sep s).
Qed.

End PathProps.

Section StaticProps.

Variable mime_lookup : jsstr → option jsstr.
Variable search_get : jsstr → jsstr → jsstr → Result (option jsstr).
Variables vaultPath resolvedPluginPath : jsstr.
Variable message : Exn → jsstr.

Local Abbreviation serve :=
  (staticHandler mime_lookup search_get vaultPath resolvedPluginPath message).

Lemma regularFile_inv fs p data :
  regularFile fs p = Some data → fs !! p = Some (FsFile data).
Proof.
  unfold regularFile. destruct (existsSync fs p); [|done].
  by destruct (fs !! p) as [[d|]|]; intros [= ->].
Qed.

(** A page of the plugin directory is sent exactly when it is a regular
    file. *)
Lemma servePage_file fs name p data :
  content (servePage resolvedPluginPath fs name) = CFile p data
  ↔ p = join_paths [resolvedPluginPath; name] ∧ regularFile fs p = Some data.
Proof.
  unfold servePage, regularFile. split.
  - destruct (existsSync _ _) eqn:He; [|done].
    destruct (fs !! _) as [[d|]|] eqn:Hp; simpl; try done.
    intros [= <- <-]. by rewrite He, Hp.
  - intros [-> Hr]. destruct (existsSync _ _); [|done].
    destruct (fs !! _) as [[d|]|]; simpl; try done. by injection Hr as ->.
Qed.

(** The vault is looked into first, the plugin directory only when the
    vault has no regular file at the joined path. *)
Lemma serveFile_file fs reqPath p data :
  content (serveFile mime_lookup vaultPath resolvedPluginPath fs reqPath) = CFile p data
  ↔ (p = join_paths [vaultPath; dropLeadingSlash reqPath] ∧ regularFile fs p = Some data)
    ∨ (regularFile fs (join_paths [vaultPath; dropLeadingSlash reqPath]) = None
       ∧ p = join_paths [resolvedPluginPath; dropLeadingSlash reqPath]
       ∧ regularFile fs p = Some data).
Proof.
  unfold serveFile. split.
  - destruct (regularFile fs (join_paths [vaultPath; _])) as [d|] eqn:Hv; simpl.
    + intros [= <- <-]. by left.
    + destruct (regularFile fs (join_paths [resolvedPluginPath; _])) as [d|] eqn:Hp; simpl.
      * intros [= <- <-]. by right.
      * done.
  - intros [[-> ->]|(-> & -> & ->)]; done.
Qed.

Lemma route_editor fs req reqPath :
  decodeURIComponent (requestedPath req) = Ok reqPath →
  reqPath = js "/" ∨ reqPath = js "/editor.html" →
  route mime_lookup search_get vaultPath resolvedPluginPath fs req
  = Ok (servePage resolvedPluginPath fs (js "editor.html")).
Proof. intros Hdec [-> | ->]; unfold route; by rewrite Hdec. Qed.

Lemma route_embedded fs req :
  decodeURIComponent (requestedPath req) = Ok (js "/embedded-editor.html") →
  route mime_lookup search_get vaultPath resolvedPluginPath fs req
  = Ok (servePage resolvedPluginPath fs (js "embedded-editor.html")).
Proof. intros Hdec. unfold route. by rewrite Hdec. Qed.

Lemma route_file fs req reqPath :
  decodeURIComponent (requestedPath req) = Ok reqPath →
  reqPath ∉ reservedRoutes →
  route mime_lookup search_get vaultPath resolvedPluginPath fs req
  = Ok (serveFile mime_lookup vaultPath resolvedPluginPath fs reqPath).
Proof.
  intros Hdec Hres. unfold route. rewrite Hdec. cbn [rbind].
  unfold reservedRoutes in Hres.
  unfold eqs. by rewrite !bool_decide_eq_false_2 by set_solver.
Qed.


End StaticProps.

(** ** Creating a new document *)

Section CreateProps.

Import Create.

Lemma js_inj a b : js a = js b → a = b.
Proof.
  unfold js. intros H.
  rewrite <- (string_of_list_ascii_of_string a), <- (string_of_list_ascii_of_string b).
  f_equal. revert H. generalize (list_ascii_of_string a) (list_ascii_of_string b).
  induction l as [|x l IH]; intros [|y l']; simpl; try done.
  intros [= Hxy Hl]. f_equal; [|by apply IH].
  by rewrite <- (ascii_N_embedding x), <- (ascii_N_embedding y), Hxy.
Qed.

Lemma decimal_inj i j : decimal i = decimal j → i = j.
Proof.
  unfold decimal. intros H%js_inj.
  assert (N.to_uint i = N.to_uint j) as Hu.
  { apply (f_equal NilEmpty.uint_of_string) in H. rewrite !NilEmpty.usu in H.
    by injection H. }
  by rewrite <- (Unsigned.of_to i), <- (Unsigned.of_to j), Hu.
Qed.

Lemma candidate_inj base t i j : candidate base t i = candidate base t j → i = j.
Proof.
  unfold candidate. intros H%app_inv_head%app_inv_head%app_inv_tail.
  by apply decimal_inj.
Qed.

Lemma untitled_inj t i j : untitled t i = untitled t j → i = j.
Proof.
  unfold untitled. intros H%app_inv_head%app_inv_tail. by apply decimal_inj.
Qed.

(** The search ends: with names that differ for different counters it
    cannot run through more taken names than the vault holds entries. *)
Lemma firstFree_total (vault m : gmap jsstr VaultEntry) mk fuel i :
  (∀ a b, mk a = mk b → a = b) →
  (∀ k, i ≤ k → is_Some (vault !! mk k) → is_Some (m !! mk k)) →
  (size m < fuel)%nat →
  ∃ name, firstFree vault mk fuel i = Some name ∧ firstFreeSpec vault mk i name.
Proof.
  intros Hinj. revert m i. induction fuel as [|f IH]; intros m i Hm Hsize; [lia|].
  simpl. destruct (vault !! mk i) as [e|] eqn:Hi.
  - destruct (Hm i) as [e' He']; [lia|by eexists|].
    destruct (IH (delete (mk i) m) (i + 1)) as (name & -> & Hfree & j & Hj & -> & Hbelow).
    + intros k Hk Hv. rewrite lookup_delete_ne; [apply Hm; [lia|done]|].
      intros Heq%Hinj. lia.
    + assert (size m ≠ 0%nat) as Hpos.
      { intros H0%map_size_empty_iff. rewrite H0 in He'. by rewrite lookup_empty in He'. }
      rewrite map_size_delete_Some by (by eexists). lia.
    + exists (mk j). split; [done|]. split; [done|]. exists j. split_and!; [lia|done|].
      intros k Hk. destruct (decide (k = i)) as [->|]; [by eexists|]. apply Hbelow. lia.
  - exists (mk i). split; [done|]. split; [done|]. exists i. split_and!; [lia|done|].
    intros k Hk. lia.
Qed.

Lemma sameLetters_length e ext : sameLetters e ext = true → length e = length ext.
Proof.
  unfold sameLetters. intros H%bool_decide_eq_true.
  apply (f_equal length) in H. by rewrite !length_fmap in H.
Qed.

(** The pattern on a name that ends in one unit and the letters of the
    type: it matches, and what lies before the match is the rest. *)
Lemma extRegex_match t pre c e :
  is_line_terminator c = false → sameLetters e (extOf t) = true →
  extRegex t (pre ++ c :: e) = Some pre.
Proof.
  intros Hc He. unfold extRegex.
  pose proof (sameLetters_length _ _ He) as Hlen.
  assert (length (pre ++ c :: e) - S (length (extOf t)) = length pre)%nat as ->.
  { rewrite length_app. simpl. lia. }
  rewrite drop_app_length, take_app_length, Hc, He. simpl.
  rewrite bool_decide_eq_true_2; [done|]. rewrite length_app. simpl. lia.
Qed.

Lemma sameLetters_refl t : sameLetters (extOf t) (extOf t) = true.
Proof. unfold sameLetters. by apply bool_decide_eq_true. Qed.

Variable fs : gmap jsstr FsNode.
Variables basePath pluginDir : jsstr.
Variable minimalDocx : list byte.

Local Abbreviation openNew := (openNewDocument fs basePath pluginDir minimalDocx).

Lemma uniqueName_spec vault fuel t n full base :
  naming t n full base →
  (size vault < fuel)%nat →
  ∃ name, uniqueName vault fuel t n = Some name
    ∧ vault !! name = None
    ∧ (vault !! full = None → name = full)
    ∧ (is_Some (vault !! full) → firstFreeSpec vault (candidate base t) 1 name).
Proof.
  intros Hnaming Hfuel. unfold uniqueName.
  assert ((match extRegex t n with
           | Some _ => n
           | None => n ++ js "." ++ extOf t
           end) = full ∧ extRegex t full = Some base) as [-> Hbase].
  { destruct Hnaming as [(-> & -> & ->)|(e & -> & He & ->)].
    - split; [done|]. apply (extRegex_match t n 46 (extOf t)); [done|].
      apply sameLetters_refl.
    - by rewrite (extRegex_match t base 46 e). }
  rewrite Hbase. simpl.
  destruct (vault !! full) as [entry|] eqn:Hfull.
  - destruct (firstFree_total vault vault (candidate base t) fuel 1)
      as (name & -> & Hspec); [apply candidate_inj|done|done|].
    exists name. split_and!; [done|apply Hspec|done|done].
  - exists full. split_and!; [done|done|done|]. by intros [? ?].
Qed.

(** C7, as the code has it. A create-new request whose name, once the
    forbidden characters are removed and it is trimmed, is not empty and
    does not already end in the type after some other character than a dot,
    and for whose type a template is at hand, always creates a file.  The
    extension is appended unless the name already carries it; if that name
    is free it is the file's name, and if it is taken the file is named
    [base (i).ext] for the first [i] from 1 on whose name is free: the loop
    over the counter ends, and a conflict never makes the creation fail. *)
Theorem new_document_gets_free_name vault fuel prompt v t data full base :
  prompt ≠ Some false →
  (size vault < fuel)%nat →
  sanitize v ≠ [] →
  naming t (sanitize v) full base →
  templateData fs basePath pluginDir minimalDocx t = Ok (Some data) →
  ∃ name,
    openNew vault fuel prompt (Some (v, t)) = Some (<[name := VFile data]> vault, Created name)
    ∧ vault !! name = None
    ∧ (vault !! full = None → name = full)
    ∧ (is_Some (vault !! full) →
       ∃ i, 1 ≤ i ∧ name = candidate base t i
            ∧ ∀ k, 1 ≤ k < i → is_Some (vault !! candidate base t k))
    ∧ (is_Some (vault !! full) → vault !! candidate base t 1 = None →
       name = candidate base t 1).
Proof.
  intros Hprompt Hfuel Hne Hnaming Htpl.
  destruct (uniqueName_spec vault fuel t (sanitize v) full base Hnaming Hfuel)
    as (name & Hname & Hfree & Hfull & Htaken).
  assert (name ≠ []) as Hnonempty.
  { destruct (vault !! full) as [entry|] eqn:Hf.
    - destruct Htaken as (_ & j & _ & -> & _); [by eexists|].
      unfold candidate. intros Heq. apply (f_equal length) in Heq.
      rewrite !length_app in Heq. simpl in Heq. lia.
    - rewrite Hfull by done. destruct Hnaming as [(_ & -> & _)|(e & _ & _ & ->)]; [|done].
      intros Heq. apply (f_equal length) in Heq. rewrite !length_app in Heq.
      simpl in Heq. lia. }
  exists name. split_and!; try done.
  - assert (openNew vault fuel prompt (Some (v, t))
            = create fs basePath pluginDir minimalDocx vault fuel t (Some name)) as ->.
    { unfold openNewDocument. unfold eqs. rewrite (bool_decide_eq_false_2 _ Hne), Hname.
      by destruct prompt as [[|]|]. }
    unfold create, createBinary. rewrite Htpl. unfold eqs.
    by rewrite (bool_decide_eq_false_2 _ Hnonempty), Hfree.
  - intros Hf. destruct (Htaken Hf) as (_ & j & Hj & -> & Hbelow). by exists j.
  - intros Hf H1. destruct (Htaken Hf) as (_ & j & Hj & -> & Hbelow).
    destruct (decide (j = 1)) as [->|Hj1]; [done|].
    destruct (Hbelow 1) as [entry He]; [lia|]. by rewrite H1 in He.
Qed.

End CreateProps.

(** C3 on a body that is neither JSON nor form-encoded. *)
Lemma callback_post_acknowledged_witness :
  isCallbackPost Sample.malformed = true
  ∧ (callbackHandler Sample.noUrlKey Sample.noForm Sample.net Sample.state
       Sample.malformed).2 = ack.
Proof.
  split; [reflexivity|].
  apply (callback_post_acknowledged Sample.noUrlKey Sample.noForm Sample.net
           Sample.state Sample.malformed). reflexivity.
Defined.

(** C2 as stated fails: a callback that carries no status at all (read as
    0, which is neither 2 nor 6) replaces the bytes of the file. *)
Lemma missing_status_overwrites :
  get_prop (JObj [(js "key", JStr Sample.reportKey); (js "url", JStr Sample.outUrl)])
    (js "status") = Ok JUndefined
  ∧ statusOf JUndefined = Ok 0%Z
  ∧ vault Sample.state !! Sample.reportPath = Some (VFile Sample.oldBytes)
  ∧ vault (callbackHandler Sample.noUrlKey Sample.noForm Sample.net Sample.state
             Sample.noStatus).1.1 !! Sample.reportPath
    = Some (VFile Sample.newBytes).
Proof. split_and!; by vm_compute. Qed.

(** C2 on the notification without status: it is read as status 0 and
    saved. *)
Lemma save_on_status_2_6_or_0_witness :
  parseBody Sample.noForm (body Sample.noStatus)
  = Some (JObj [(js "key", JStr Sample.reportKey); (js "url", JStr Sample.outUrl)])
  ∧ callbackHandler Sample.noUrlKey Sample.noForm Sample.net Sample.state Sample.noStatus
    = ({| keyFileMap := keyFileMap Sample.state;
          vault := <[Sample.reportPath := VFile Sample.newBytes]> (vault Sample.state) |},
       [savedNotice], ack).
Proof.
  split; [reflexivity|].
  refine (proj2 (save_on_status_2_6_or_0 Sample.noUrlKey Sample.noForm Sample.net
                   Sample.state Sample.noStatus _ JUndefined (JStr Sample.outUrl)
                   _ _ _)
            (JStr Sample.reportKey) Sample.reportKey Sample.reportPath Sample.oldBytes
            Sample.newBytes _ _ _ _ _ _ _ _ _ _);
    try reflexivity.
  - right. right. reflexivity.
  - discriminate.
Defined.

(** C6 on the notification of status 2. *)
Lemma callback_save_idempotent_witness :
  statusOf (JNum (js "2")) = Ok 2%Z
  ∧ vault Sample.state !! Sample.reportPath = Some (VFile Sample.oldBytes)
  ∧ Sample.net (JStr Sample.outUrl) = FetchResponse 200 Sample.newBytes
  ∧ let st' := {| keyFileMap := keyFileMap Sample.state;
                  vault := <[Sample.reportPath := VFile Sample.newBytes]>
                             (vault Sample.state) |} in
    callbackHandler Sample.noUrlKey Sample.noForm Sample.net Sample.state Sample.mustSave
    = (st', [savedNotice], ack)
    ∧ vault st' !! Sample.reportPath = Some (VFile Sample.newBytes)
    ∧ (∀ q, q ≠ Sample.reportPath → vault st' !! q = vault Sample.state !! q)
    ∧ callbackHandler Sample.noUrlKey Sample.noForm Sample.net st' Sample.mustSave
      = (st', [savedNotice], ack).
Proof.
  split_and!; [reflexivity..|].
  apply (callback_save_idempotent Sample.noUrlKey Sample.noForm Sample.net Sample.state
           Sample.mustSave
           (JObj [(js "key", JStr Sample.reportKey); (js "status", JNum (js "2"));
                  (js "url", JStr Sample.outUrl)])
           (JNum (js "2")) (JStr Sample.outUrl) (JStr Sample.reportKey) Sample.reportKey
           Sample.reportPath Sample.oldBytes Sample.newBytes);
    try reflexivity.
  discriminate.
Defined.

(** C9 on the notification of status 2 when its key is registered for a
    folder: nothing is written. *)
Lemma callback_only_overwrites_existing_witness :
  resolve (keyFileMap Sample.folderState) Sample.reportKey = Ok (Some (PStr (js "Notes")))
  ∧ vault Sample.folderState !! js "Notes" = Some VFolder
  ∧ (callbackHandler Sample.noUrlKey Sample.noForm Sample.net Sample.folderState
       Sample.mustSave).1 = (Sample.folderState, []).
Proof.
  split; [reflexivity|]. split; [reflexivity|].
  refine (proj1 (proj2 (proj2 (proj2
            (callback_only_overwrites_existing Sample.noUrlKey Sample.noForm Sample.net
               Sample.folderState Sample.mustSave))))
            _ (JStr Sample.outUrl) (JStr Sample.reportKey) Sample.reportKey
            (Some (PStr (js "Notes"))) _ _ _ _ _ _);
    try reflexivity.
  left. intros p old [= <-]. discriminate.
Defined.

(** C4 as stated fails: after [Aa.docx] is opened, an open of [BB.docx]
    that draws the same suffix generates the same key, and the key then
    resolves to [BB.docx]. *)
Lemma later_open_replaces_path :
  uniqueKey (js "BB.docx") 1700000000000 (js "k3j9x2ab")
  = uniqueKey (js "Aa.docx") 1700000000000 (js "k3j9x2ab")
  ∧ resolve (keyFileMap (run Sample.noUrlKey Sample.noForm Sample.net Sample.state
                           [Sample.firstOpen]))
      (uniqueKey (js "Aa.docx") 1700000000000 (js "k3j9x2ab"))
    = Ok (Some (PStr (js "Aa.docx")))
  ∧ resolve (keyFileMap (run Sample.noUrlKey Sample.noForm Sample.net Sample.state
                           [Sample.firstOpen; Sample.secondOpen]))
      (uniqueKey (js "Aa.docx") 1700000000000 (js "k3j9x2ab"))
    = Ok (Some (PStr (js "BB.docx"))).
Proof. split_and!; by vm_compute. Qed.

(** C4 on a callback and an open of another file after the registration. *)
Lemma key_resolution_witness :
  js "Aa.docx" ≠ []
  ∧ resolve (keyFileMap (run Sample.noUrlKey Sample.noForm Sample.net
                           (openFile Sample.state (js "Aa.docx") 1700000000000
                              (js "k3j9x2ab"))
                           [EvCallback Sample.mustSave; Sample.otherOpen]))
      (uniqueKey (js "Aa.docx") 1700000000000 (js "k3j9x2ab"))
    = Ok (Some (PStr (js "Aa.docx"))).
Proof.
  split; [discriminate|].
  refine (proj1 (key_resolution Sample.noUrlKey Sample.noForm Sample.net Sample.state
                   (js "Aa.docx") 1700000000000 (js "k3j9x2ab")
                   [EvCallback Sample.mustSave; Sample.otherOpen] _ _)).
  - discriminate.
  - intros path' mtime' rnd' Hin Heq.
    apply elem_of_cons in Hin as [Hin|Hin]; [discriminate Hin|].
    apply elem_of_cons in Hin as [Hin|Hin]; [|by apply elem_of_nil in Hin].
    injection Hin as -> -> ->. vm_compute in Heq. discriminate Heq.
Defined.



(** C5 with a toy signer: the four URLs end in the request token. *)
Lemma token_appended_before_signing_witness :
  Config.secretConfigured Sample.settings = Some (js "s3cret")
  ∧ Config.requestTokensEnabled Sample.settings = true
  ∧ ∃ launch,
      Config.buildEditorConfig Sample.toySign Ok id Sample.settings 8081
        (js "http://host.docker.internal:8081/Notes/report.docx")
        (js "http://host.docker.internal:8081")
        (js "http://host.docker.internal:8082/callback")
        Sample.report false (Some Sample.reportKey) 1700000000000 1700000000001
      = Ok launch
      ∧ Config.url (Config.document (Config.sentConfig launch))
        = js "http://host.docker.internal:8081/Notes/report.docx?token=rq."
      ∧ Config.createUrl (Config.editorConfig (Config.sentConfig launch))
        = js "http://127.0.0.1:8081/api/createNew?fileType=word&token=rq."
      ∧ Config.signedPayload launch
        = Some (Config.ConfigClaims (Config.document (Config.sentConfig launch))
                  (Config.editorConfig (Config.sentConfig launch)) 1700000000).
Proof.
  split; [reflexivity|]. split; [reflexivity|].
  eexists. split; [reflexivity|].
  edestruct (token_appended_before_signing Sample.toySign Ok id Sample.settings 8081
               (js "http://host.docker.internal:8081/Notes/report.docx")
               (js "http://host.docker.internal:8081")
               (js "http://host.docker.internal:8082/callback")
               Sample.report false (Some Sample.reportKey) 1700000000000 1700000000001
               (js "s3cret") _ eq_refl eq_refl eq_refl)
    as (rt & enc & token & Hrt & Henc & Hurl & _ & Hcreate & _ & Hpayload & _).
  injection Hrt as <-. injection Henc as <-.
  split; [exact Hurl|]. split; [exact Hcreate|exact Hpayload].
Defined.



(** C7 as stated fails: for the requested name [Draft.xlsx] and the type
    xlsx, with [Draft.xlsx.xlsx] in the vault, the file is created as
    [Draft.xlsx], not as [Draft.xlsx (1).xlsx]. *)
Lemma typed_extension_is_kept :
  is_Some (Sample.doubled !! (js "Draft.xlsx" ++ js "." ++ Create.extOf Create.xlsx))
  ∧ Create.openNewDocument Sample.templates Sample.vaultRoot Sample.pluginRoot []
      Sample.doubled 2 None (Some (js "Draft.xlsx", Create.xlsx))
    = Some (<[js "Draft.xlsx" := VFile []]> Sample.doubled, Create.Created (js "Draft.xlsx"))
  ∧ js "Draft.xlsx" ≠ Create.candidate (js "Draft.xlsx") Create.xlsx 1.
Proof.
  split_and!.
  - by eexists.
  - by vm_compute.
  - by vm_compute.
Qed.

(** C7 on the name [Draft] with [Draft.xlsx] in the vault. *)
Lemma new_document_gets_free_name_witness :
  (size Sample.drafts < 2)%nat
  ∧ Create.sanitize (js " Draft ") = js "Draft"
  ∧ is_Some (Sample.drafts !! js "Draft.xlsx")
  ∧ ∃ name,
      Create.openNewDocument Sample.templates Sample.vaultRoot Sample.pluginRoot []
        Sample.drafts 2 None (Some (js " Draft ", Create.xlsx))
      = Some (<[name := VFile []]> Sample.drafts, Create.Created name)
      ∧ name = js "Draft (1).xlsx".
Proof.
  split; [vm_compute; lia|]. split; [reflexivity|]. split; [by eexists|].
  destruct (new_document_gets_free_name Sample.templates Sample.vaultRoot Sample.pluginRoot
              [] Sample.drafts 2 None
              (js " Draft ") Create.xlsx [] (js "Draft.xlsx") (js "Draft"))
    as (name & Hopen & _ & _ & _ & Hfirst).
  - discriminate.
  - vm_compute. lia.
  - discriminate.
  - left. split_and!; reflexivity.
  - reflexivity.
  - exists name. split; [exact Hopen|]. apply Hfirst; [by eexists|reflexivity].
Defined.

(** * More of the code *)

(** ** Encoding a path on open and decoding it in the static server *)

Section EncodeProps.

Ltac Zify.zify_post_hook ::= Z.to_euclidean_division_equations.

Lemma hex_byte_digits b :
  b < 256 → hex_byte (hexdigit (b / 16)) (hexdigit (b mod 16)) = Some b.
Proof.
  intros Hb.
  assert (forallb (λ n, bool_decide
                          (hex_byte (hexdigit (N.of_nat n / 16))
                             (hexdigit (N.of_nat n mod 16)) = Some (N.of_nat n)))
            (seq 0 256) = true) as Hall by (by vm_compute).
  pose proof (proj1 (forallb_forall _ _) Hall (N.to_nat b)) as Hn.
  cbv beta in Hn. rewrite N2Nat.id in Hn.
  apply (bool_decide_eq_true_1 _), Hn, in_seq. lia.
Qed.

Lemma decode_plain c t :
  (c =? 37) = false →
  decodeURIComponent (c :: t) = let* r := decodeURIComponent t in Ok (c :: r).
Proof. intros Hc. simpl. by rewrite Hc. Qed.

Lemma decode_escape1 b t :
  b < 0x80 →
  decodeURIComponent (pct b ++ t) = let* r := decodeURIComponent t in Ok (b :: r).
Proof.
  intros Hb. unfold pct. cbn [app decodeURIComponent N.eqb Pos.eqb negb].
  rewrite hex_byte_digits by lia.
  by rewrite (proj2 (N.ltb_lt b 0x80) Hb).
Qed.

Lemma decode_escape2 b1 b2 t :
  0xC0 ≤ b1 < 0xE0 → b2 < 256 →
  decodeURIComponent (pct b1 ++ pct b2 ++ t) = emit [b1; b2] (decodeURIComponent t).
Proof.
  intros Hb1 Hb2. unfold pct. cbn [app decodeURIComponent N.eqb Pos.eqb negb].
  rewrite hex_byte_digits by lia.
  rewrite (proj2 (N.ltb_ge b1 0x80)), (proj2 (N.ltb_ge b1 0xC0)),
    (proj2 (N.ltb_lt b1 0xE0)) by lia.
  unfold escape. cbn [N.eqb Pos.eqb]. by rewrite hex_byte_digits by lia.
Qed.

Lemma decode_escape3 b1 b2 b3 t :
  0xE0 ≤ b1 < 0xF0 → b2 < 256 → b3 < 256 →
  decodeURIComponent (pct b1 ++ pct b2 ++ pct b3 ++ t)
  = emit [b1; b2; b3] (decodeURIComponent t).
Proof.
  intros Hb1 Hb2 Hb3. unfold pct. cbn [app decodeURIComponent N.eqb Pos.eqb negb].
  rewrite hex_byte_digits by lia.
  rewrite (proj2 (N.ltb_ge b1 0x80)), (proj2 (N.ltb_ge b1 0xC0)),
    (proj2 (N.ltb_ge b1 0xE0)), (proj2 (N.ltb_lt b1 0xF0)) by lia.
  unfold escape. cbn [N.eqb Pos.eqb]. by rewrite !hex_byte_digits by lia.
Qed.

Lemma decode_escape4 b1 b2 b3 b4 t :
  0xF0 ≤ b1 < 0xF8 → b2 < 256 → b3 < 256 → b4 < 256 →
  decodeURIComponent (pct b1 ++ pct b2 ++ pct b3 ++ pct b4 ++ t)
  = emit [b1; b2; b3; b4] (decodeURIComponent t).
Proof.
  intros Hb1 Hb2 Hb3 Hb4. unfold pct. cbn [app decodeURIComponent N.eqb Pos.eqb negb].
  rewrite hex_byte_digits by lia.
  rewrite (proj2 (N.ltb_ge b1 0x80)), (proj2 (N.ltb_ge b1 0xC0)),
    (proj2 (N.ltb_ge b1 0xE0)), (proj2 (N.ltb_ge b1 0xF0)),
    (proj2 (N.ltb_lt b1 0xF8)) by lia.
  unfold escape. cbn [N.eqb Pos.eqb]. by rewrite !hex_byte_digits by lia.
Qed.

Lemma utf8_code_point_utf8 v :
  0x80 ≤ v → v ≤ 0x10FFFF → ¬ (0xD800 ≤ v ≤ 0xDFFF) →
  utf8_code_point (utf8 v) = Some v.
Proof.
  intros Hlo Hhi Hsur. unfold utf8.
  rewrite (proj2 (N.ltb_ge v 0x80)) by lia.
  destruct (N.ltb_spec v 0x800) as [H2|H2].
  { unfold utf8_code_point, is_cont.
    rewrite (proj2 (N.leb_le 0x80 (0x80 + v mod 64))),
      (proj2 (N.ltb_lt (0x80 + v mod 64) 0xC0)) by lia. simpl.
    rewrite (proj2 (N.leb_le 0x80 _)) by lia. f_equal. lia. }
  destruct (N.ltb_spec v 0x10000) as [H3|H3].
  { unfold utf8_code_point, is_cont.
    rewrite (proj2 (N.leb_le 0x80 (0x80 + (v / 64) mod 64))),
      (proj2 (N.ltb_lt (0x80 + (v / 64) mod 64) 0xC0)),
      (proj2 (N.leb_le 0x80 (0x80 + v mod 64))),
      (proj2 (N.ltb_lt (0x80 + v mod 64) 0xC0)) by lia. simpl.
    assert ((0xE0 + v / 4096 - 0xE0) * 4096 + (0x80 + (v / 64) mod 64 - 0x80) * 64
            + (0x80 + v mod 64 - 0x80) = v) as -> by lia.
    rewrite (proj2 (N.leb_le 0x800 v)) by lia. simpl.
    destruct (N.leb_spec 0xD800 v); [|done].
    destruct (N.leb_spec v 0xDFFF); [lia|done]. }
  unfold utf8_code_point, is_cont.
  rewrite (proj2 (N.leb_le 0x80 (0x80 + (v / 4096) mod 64))),
    (proj2 (N.ltb_lt (0x80 + (v / 4096) mod 64) 0xC0)),
    (proj2 (N.leb_le 0x80 (0x80 + (v / 64) mod 64))),
    (proj2 (N.ltb_lt (0x80 + (v / 64) mod 64) 0xC0)),
    (proj2 (N.leb_le 0x80 (0x80 + v mod 64))),
    (proj2 (N.ltb_lt (0x80 + v mod 64) 0xC0)) by lia. simpl.
  assert ((0xF0 + v / 262144 - 0xF0) * 262144 + (0x80 + (v / 4096) mod 64 - 0x80) * 4096
          + (0x80 + (v / 64) mod 64 - 0x80) * 64 + (0x80 + v mod 64 - 0x80) = v) as ->
    by lia.
  by rewrite (proj2 (N.leb_le 0x10000 v)), (proj2 (N.leb_le v 0x10FFFF)) by lia.
Qed.

(** The escapes of a code point decode to its UTF-16 units. *)
Lemma decode_of_escapes v t :
  v ≤ 0x10FFFF → ¬ (0xD800 ≤ v ≤ 0xDFFF) →
  decodeURIComponent (escapes v ++ t)
  = let* r := decodeURIComponent t in Ok (utf16 v ++ r).
Proof.
  intros Hhi Hsur. unfold escapes.
  destruct (N.ltb_spec v 0x80) as [H1|H1].
  { unfold utf8. rewrite (proj2 (N.ltb_lt v 0x80)) by lia.
    cbn [fmap list_fmap concat]. rewrite app_nil_r, decode_escape1 by lia.
    unfold utf16. by rewrite (proj2 (N.ltb_lt v 0x10000)) by lia. }
  pose proof (utf8_code_point_utf8 v H1 Hhi Hsur) as Hcp. revert Hcp. unfold utf8.
  rewrite (proj2 (N.ltb_ge v 0x80)) by lia.
  destruct (N.ltb_spec v 0x800) as [H2|H2].
  { intros Hcp. cbn [fmap list_fmap concat]. rewrite app_nil_r, <- !app_assoc.
    rewrite decode_escape2 by lia. unfold emit. by rewrite Hcp. }
  destruct (N.ltb_spec v 0x10000) as [H3|H3].
  { intros Hcp. cbn [fmap list_fmap concat]. rewrite app_nil_r, <- !app_assoc.
    rewrite decode_escape3 by lia. unfold emit. by rewrite Hcp. }
  intros Hcp. cbn [fmap list_fmap concat]. rewrite app_nil_r, <- !app_assoc.
  rewrite decode_escape4 by lia. unfold emit. by rewrite Hcp.
Qed.

Lemma unreserved_not_percent c : unreserved c = true → (c =? 37) = false.
Proof.
  intros Hc. destruct (N.eqb_spec c 37) as [->|]; [|done]. by vm_compute in Hc.
Qed.

(** Decoding undoes encoding, also in front of more text. *)
Lemma decode_encode_app s e t :
  wellFormed s → encodeURIComponent s = Ok e →
  decodeURIComponent (e ++ t) = let* r := decodeURIComponent t in Ok (s ++ r).
Proof.
  assert (∀ n s e, (length s ≤ n)%nat → wellFormed s → encodeURIComponent s = Ok e →
            decodeURIComponent (e ++ t) = let* r := decodeURIComponent t in Ok (s ++ r))
    as Hind; [|by apply (Hind (length s))].
  clear s e. induction n as [|n IH]; intros s e Hlen Hwf.
  { destruct s; [|simpl in Hlen; lia]. intros [= <-]. simpl. by destruct (decodeURIComponent t). }
  destruct s as [|c s]; [intros [= <-]; simpl; by destruct (decodeURIComponent t)|].
  inversion Hwf as [|? ? Hc Hs]; subst. simpl in Hlen.
  cbn [encodeURIComponent].
  destruct (unreserved c) eqn:Hun.
  { destruct (encodeURIComponent s) as [r0|] eqn:Hr0; [|done]. intros [= <-].
    rewrite <- app_comm_cons, decode_plain by (by apply unreserved_not_percent).
    rewrite (IH s r0) by (done || lia). by destruct (decodeURIComponent t). }
  destruct (isLowSurrogate c) eqn:Hlow; [done|].
  destruct (isHighSurrogate c) eqn:Hhigh.
  - destruct s as [|c2 s']; [done|].
    destruct (isLowSurrogate c2) eqn:Hlow2; [|done].
    destruct (encodeURIComponent s') as [r0|] eqn:Hr0; [|done]. intros [= <-].
    inversion Hs as [|? ? Hc2 Hs']; subst. simpl in Hlen.
    unfold isHighSurrogate, isLowSurrogate in *.
    apply andb_prop in Hhigh as [H1%N.leb_le H2%N.leb_le].
    apply andb_prop in Hlow2 as [H3%N.leb_le H4%N.leb_le].
    rewrite <- app_assoc, decode_of_escapes by lia.
    rewrite (IH s' r0) by (done || lia).
    assert (utf16 ((c - 0xD800) * 0x400 + (c2 - 0xDC00) + 0x10000) = [c; c2]) as ->.
    { unfold utf16. rewrite (proj2 (N.ltb_ge _ 0x10000)) by lia. f_equal; [lia|].
      f_equal. lia. }
    by destruct (decodeURIComponent t).
  - destruct (encodeURIComponent s) as [r0|] eqn:Hr0; [|done]. intros [= <-].
    unfold isHighSurrogate, isLowSurrogate in *.
    apply andb_false_iff in Hhigh. apply andb_false_iff in Hlow.
    rewrite <- app_assoc, decode_of_escapes.
    + rewrite (IH s r0) by (done || lia). unfold utf16.
      rewrite (proj2 (N.ltb_lt c 0x10000)) by lia. by destruct (decodeURIComponent t).
    + lia.
    + intros [H1 H2].
      destruct Hhigh as [Hh|Hh]; apply N.leb_gt in Hh;
        destruct Hlow as [Hl|Hl]; apply N.leb_gt in Hl; lia.
Qed.

Lemma pct_units b : b < 256 → Forall urlUnit (pct b).
Proof.
  intros Hb. unfold pct. repeat apply Forall_cons_2; [| | |apply Forall_nil_2].
  - right. by left.
  - right. right. exists (b / 16). split; [lia|done].
  - right. right. exists (b mod 16). split; [lia|done].
Qed.

Lemma escapes_units v : v < 0x110000 → Forall urlUnit (escapes v).
Proof.
  intros Hv. unfold escapes, utf8.
  destruct (N.ltb_spec v 0x80); [|destruct (N.ltb_spec v 0x800);
    [|destruct (N.ltb_spec v 0x10000)]];
    cbn [fmap list_fmap concat]; rewrite app_nil_r;
    repeat (apply Forall_app; split); apply pct_units; lia.
Qed.

Lemma encode_units s e :
  wellFormed s → encodeURIComponent s = Ok e → Forall urlUnit e.
Proof.
  assert (∀ n s e, (length s ≤ n)%nat → wellFormed s → encodeURIComponent s = Ok e →
            Forall urlUnit e) as Hind; [|by apply (Hind (length s))].
  clear s e. induction n as [|n IH]; intros s e Hlen Hwf.
  { destruct s; [|simpl in Hlen; lia]. by intros [= <-]. }
  destruct s as [|c s]; [by intros [= <-]|].
  inversion Hwf as [|? ? Hc Hs]; subst. simpl in Hlen.
  cbn [encodeURIComponent].
  destruct (unreserved c) eqn:Hun.
  { destruct (encodeURIComponent s) as [r0|] eqn:Hr0; [|done]. intros [= <-].
    constructor; [by left|]. apply (IH s); [lia|done..]. }
  destruct (isLowSurrogate c); [done|].
  destruct (isHighSurrogate c) eqn:Hhigh.
  - destruct s as [|c2 s']; [done|].
    destruct (isLowSurrogate c2) eqn:Hlow2; [|done].
    destruct (encodeURIComponent s') as [r0|] eqn:Hr0; [|done]. intros [= <-].
    inversion Hs as [|? ? Hc2 Hs']; subst. simpl in Hlen.
    unfold isHighSurrogate, isLowSurrogate in *.
    apply andb_prop in Hhigh as [H1%N.leb_le H2%N.leb_le].
    apply andb_prop in Hlow2 as [H3%N.leb_le H4%N.leb_le].
    apply Forall_app. split; [apply escapes_units; lia|].
    apply (IH s'); [lia|done..].
  - destruct (encodeURIComponent s) as [r0|] eqn:Hr0; [|done]. intros [= <-].
    apply Forall_app. split; [apply escapes_units; lia|].
    apply (IH s); [lia|done..].
Qed.

Lemma urlUnit_plain c : urlUnit c → c ≠ 63 ∧ c ≠ 47 ∧ c ≠ 35 ∧ c ≠ 92 ∧ c ≠ 32.
Proof.
  intros [Hc|[->|(d & Hd & ->)]].
  - split_and!; intros ->; by vm_compute in Hc.
  - by split_and!.
  - unfold hexdigit. destruct (N.ltb_spec d 10); split_and!; lia.
Qed.

Lemma encodeAll_inv seg rest es :
  encodeAll (seg :: rest) = Ok es →
  ∃ e es', es = e :: es' ∧ encodeURIComponent seg = Ok e ∧ encodeAll rest = Ok es'.
Proof.
  cbn [encodeAll]. destruct (encodeURIComponent seg) as [e|]; [|done].
  destruct (encodeAll rest) as [es'|]; [|done]. intros [= <-]. by exists e, es'.
Qed.

Lemma decode_join segs es :
  Forall wellFormed segs → encodeAll segs = Ok es →
  decodeURIComponent (join [47] es) = Ok (join [47] segs).
Proof.
  intros Hwf. revert es. induction Hwf as [|seg rest Hseg Hrest IH]; intros es.
  { by intros [= <-]. }
  intros (e & es' & -> & He & Hes)%encodeAll_inv.
  destruct rest as [|seg' rest'].
  - injection Hes as <-. cbn [join].
    rewrite <- (app_nil_r e), (decode_encode_app seg e [] Hseg He).
    cbn. by rewrite app_nil_r.
  - destruct (encodeAll_inv _ _ _ Hes) as (e' & es'' & -> & _).
    change (join [47] (e :: e' :: es'')) with (e ++ 47 :: join [47] (e' :: es'')).
    change (join [47] (seg :: seg' :: rest')) with (seg ++ 47 :: join [47] (seg' :: rest')).
    rewrite (decode_encode_app seg e _ Hseg He), decode_plain by done.
    by rewrite (IH _ Hes).
Qed.

Lemma join_units segs (es : list jsstr) :
  Forall wellFormed segs → encodeAll segs = Ok es →
  Forall (λ c, urlUnit c ∨ c = 47) (join [47] es).
Proof.
  intros Hwf. revert es. induction Hwf as [|seg rest Hseg Hrest IH]; intros es.
  { by intros [= <-]. }
  intros (e & es' & -> & He & Hes)%encodeAll_inv.
  assert (Forall (λ c, urlUnit c ∨ c = 47) e) as Hu.
  { eapply Forall_impl; [by apply (encode_units seg)|]. by left. }
  destruct es' as [|e' es'']; [done|].
  change (join [47] (e :: e' :: es'')) with (e ++ 47 :: join [47] (e' :: es'')).
  apply Forall_app. split; [done|]. constructor; [by right|]. by apply IH.
Qed.

Lemma join_split sep s : join [sep] (split_on sep s) = s.
Proof.
  induction s as [|c s IH]; [done|]. cbn [split_on].
  pose proof (split_on_nonempty sep s) as Hne.
  destruct (N.eqb_spec c sep) as [->|Hc].
  - destruct (split_on sep s) as [|seg segs]; [done|].
    change (join [sep] ([] :: seg :: segs)) with (sep :: join [sep] (seg :: segs)).
    by rewrite IH.
  - destruct (split_on sep s) as [|seg segs]; [done|]. rewrite <- IH.
    by destruct segs.
Qed.

Lemma split_on_wellFormed sep s : wellFormed s → Forall wellFormed (split_on sep s).
Proof.
  induction 1 as [|c s Hc Hs IH]; cbn [split_on].
  { apply Forall_cons_2; [apply Forall_nil_2|apply Forall_nil_2]. }
  destruct (c =? sep); [apply Forall_cons_2; [apply Forall_nil_2|done]|].
  destruct (split_on sep s) as [|seg segs].
  { apply Forall_cons_2; [|apply Forall_nil_2]. by apply Forall_cons_2; [|apply Forall_nil_2]. }
  inversion IH; subst. apply Forall_cons_2; [by apply Forall_cons_2|done].
Qed.

Lemma toSlashes_wellFormed path : wellFormed path → wellFormed (toSlashes path).
Proof.
  unfold wellFormed, toSlashes. intros H. apply Forall_fmap.
  eapply Forall_impl; [exact H|]. intros c Hc. simpl.
  destruct (N.eqb_spec c 92); [done|done].
Qed.

Lemma before_first_app sep a b : sep ∉ a → before_first sep (a ++ sep :: b) = a.
Proof.
  induction a as [|c a IH]; intros Ha; simpl; [by rewrite N.eqb_refl|].
  destruct (N.eqb_spec c sep) as [->|Hc]; [set_solver|]. rewrite IH; [done|set_solver].
Qed.

Lemma before_first_free sep a : sep ∉ a → before_first sep a = a.
Proof.
  induction a as [|c a IH]; intros Ha; simpl; [done|].
  destruct (N.eqb_spec c sep) as [->|Hc]; [set_solver|]. rewrite IH; [done|set_solver].
Qed.

Lemma relPathOf_inv path rel :
  relPathOf path = Ok rel →
  ∃ es, encodeAll (split_on 47 (toSlashes path)) = Ok es ∧ rel = join [47] es.
Proof.
  unfold relPathOf. destruct (encodeAll _) as [es|]; [|done]. intros [= <-]. by exists es.
Qed.

Lemma relPathOf_decodes path rel :
  wellFormed path → relPathOf path = Ok rel →
  Forall (λ c, c ≠ 63 ∧ c ≠ 35 ∧ c ≠ 92 ∧ c ≠ 32) rel
  ∧ decodeURIComponent rel = Ok (toSlashes path).
Proof.
  intros Hwf (es & Hes & ->)%relPathOf_inv.
  assert (Forall wellFormed (split_on 47 (toSlashes path))) as Hsegs.
  { by apply split_on_wellFormed, toSlashes_wellFormed. }
  split.
  - eapply Forall_impl; [by apply (join_units _ _ Hsegs)|].
    intros c [Hc%urlUnit_plain| ->]; [tauto|done].
  - by rewrite (decode_join _ _ Hsegs Hes), join_split.
Qed.

(** X1. The path of the URL built for a file on open holds only
    unreserved characters, percent escapes and slashes, so no [?], [#],
    backslash or space; and percent-decoding it gives back the path of the
    file, its backslashes turned into slashes. *)
Theorem rel_path_round_trip path rel :
  wellFormed path → relPathOf path = Ok rel →
  Forall (λ c, c ≠ 63 ∧ c ≠ 35 ∧ c ≠ 92 ∧ c ≠ 32) rel
  ∧ decodeURIComponent rel = Ok (toSlashes path).
Proof. apply relPathOf_decodes. Qed.

(** A path without surrogate units always encodes. *)
Lemma encode_total s :
  Forall (λ c, isHighSurrogate c = false ∧ isLowSurrogate c = false) s →
  ∃ e, encodeURIComponent s = Ok e.
Proof.
  induction 1 as [|c s [Hh Hl] _ [e IH]]; [by exists []|].
  cbn [encodeURIComponent]. rewrite Hh, Hl, IH.
  destruct (unreserved c); by eexists.
Qed.

End EncodeProps.

Section ServeOpened.

Variable mime_lookup : jsstr → option jsstr.
Variable search_get : jsstr → jsstr → jsstr → Result (option jsstr).
Variables vaultPath resolvedPluginPath : jsstr.
Variable message : Exn → jsstr.

Lemma requested_rel rel req q :
  Forall (λ c, c ≠ 63 ∧ c ≠ 35 ∧ c ≠ 92 ∧ c ≠ 32) rel →
  url req = Some (47 :: rel) ∨ url req = Some (47 :: rel ++ 63 :: q) →
  requestedPath req = 47 :: rel.
Proof.
  intros Hrel Hurl.
  assert (63 ∉ 47 :: rel) as Hq.
  { intros [Heq|Hin]%elem_of_cons; [done|].
    by destruct (proj1 (Forall_forall _ _) Hrel _ Hin). }
  unfold requestedPath.
  destruct Hurl as [-> | ->]; change (default [] (Some ?x)) with x.
  - by rewrite before_first_free.
  - change (47 :: rel ++ 63 :: q) with ((47 :: rel) ++ 63 :: q).
    by rewrite (before_first_app 63 (47 :: rel) q Hq).
Qed.

(** X2. The file URL built on open, asked from the static server with or
    without a query string (the request token), is answered with the bytes
    of the regular file at the vault root joined with the path of the file,
    unless the path is one the server answers itself. *)
Theorem opened_file_is_served fs req path rel q data :
  wellFormed path → relPathOf path = Ok rel →
  url req = Some (47 :: rel) ∨ url req = Some (47 :: rel ++ 63 :: q) →
  method req ≠ js "OPTIONS" →
  47 :: toSlashes path ∉ reservedRoutes →
  regularFile fs (join_paths [vaultPath; toSlashes path]) = Some data →
  staticHandler mime_lookup search_get vaultPath resolvedPluginPath message fs req
  = fileResponse (mimeOf mime_lookup (join_paths [vaultPath; toSlashes path]))
      (join_paths [vaultPath; toSlashes path]) data.
Proof.
  intros Hwf Hrel Hurl Hm Hres Hfile.
  destruct (relPathOf_decodes path rel Hwf Hrel) as [Hplain Hdec].
  unfold staticHandler, eqs. rewrite (bool_decide_eq_false_2 _ Hm).
  unfold route. rewrite (requested_rel rel req q Hplain Hurl).
  rewrite decode_plain by done. rewrite Hdec. cbn [rbind].
  unfold reservedRoutes in Hres.
  unfold eqs. rewrite !bool_decide_eq_false_2 by set_solver. cbn [orb].
  unfold serveFile. cbn [dropLeadingSlash]. rewrite N.eqb_refl. by rewrite Hfile.
Qed.

End ServeOpened.

(** ** Keys *)

Section KeyProps.

Lemma alnum_not_underscore c : isLowerAlnum c → c ≠ 95.
Proof. intros Hc ->. by vm_compute in Hc. Qed.

Lemma cut_at_first sep (h h' r r' : jsstr) :
  sep ∉ h → sep ∉ h' → h ++ sep :: r = h' ++ sep :: r' → h = h' ∧ r = r'.
Proof.
  revert h'. induction h as [|c h IH]; intros [|c' h'] Hh Hh'; simpl.
  - by intros [= ->].
  - intros [= <- _]. set_solver.
  - intros [= -> _]. set_solver.
  - intros [= -> Heq]. destruct (IH h') as [-> ->]; [set_solver..|done|done].
Qed.

Lemma base36_no_underscore n : 95 ∉ to_base36 n.
Proof.
  intros Hin. destruct (to_base36_shape n) as [_ Hall].
  apply (alnum_not_underscore 95); [|done].
  by apply (proj1 (Forall_forall _ _) Hall).
Qed.

(** Two generated keys are equal only when the same suffix was drawn. *)
Lemma uniqueKey_suffix path mtime rnd path' mtime' rnd' :
  uniqueKey path' mtime' rnd' = uniqueKey path mtime rnd → rnd' = rnd.
Proof.
  unfold uniqueKey. intros Heq%app_inv_head.
  change (js "_" ++ ?r) with (95 :: r) in Heq.
  by destruct (cut_at_first 95 _ _ _ _ (base36_no_underscore _) (base36_no_underscore _) Heq).
Qed.

Lemma to_base36_aux_length fuel n acc k :
  n < 36 ^ N.of_nat (S k) →
  (length (to_base36_aux fuel n acc) ≤ length acc + S k)%nat.
Proof.
  revert n acc k. induction fuel as [|f IH]; intros n acc k Hn; simpl; [lia|].
  destruct (N.eqb_spec (n / 36) 0) as [H0|H0]; [simpl; lia|].
  destruct k as [|k].
  - exfalso. apply H0. apply N.div_small. simpl in Hn. lia.
  - etrans; [apply (IH (n / 36) _ k)|simpl; lia].
    apply N.Div0.div_lt_upper_bound.
    replace (36 * 36 ^ N.of_nat (S k)) with (36 ^ N.of_nat (S (S k))); [done|].
    rewrite (Nat2N.inj_succ (S k)), N.pow_succ_r'. done.
Qed.

Lemma fold_hash_bound s h : h < 2 ^ 32 → fold_left hashStep s h < 2 ^ 32.
Proof.
  revert h. induction s as [|c s IH]; intros h Hh; simpl; [done|].
  apply IH. unfold hashStep. by apply N.mod_lt.
Qed.

Lemma base36_hash_length s : (length (to_base36 (rollingHash s)) ≤ 7)%nat.
Proof.
  unfold to_base36.
  etrans; [apply (to_base36_aux_length _ _ [] 6)|simpl; lia].
  etrans; [apply (fold_hash_bound s 0); by vm_compute|]. by vm_compute.
Qed.

(** X3. A key generated on open is safe to carry in a URL and short: with a
    suffix of lower-case letters and digits, as [toString(36)] draws it, the
    key holds only such characters and underscores, and it is at most eleven
    characters longer than the suffix.  Two generated keys are equal only
    when the same suffix was drawn. *)
Theorem generated_key_safe (path : jsstr) (mtime : N) (rnd : jsstr) :
  Forall isLowerAlnum rnd →
  Forall (λ c, isLowerAlnum c ∨ c = 95) (uniqueKey path mtime rnd)
  ∧ (length (uniqueKey path mtime rnd) ≤ 11 + length rnd)%nat
  ∧ ∀ (path' : jsstr) (mtime' : N) (rnd' : jsstr),
      uniqueKey path' mtime' rnd' = uniqueKey path mtime rnd → rnd' = rnd.
Proof.
  intros Hrnd. split_and!.
  - unfold uniqueKey. repeat (apply Forall_app; split).
    + apply Forall_forall. intros c Hc.
      repeat (apply elem_of_cons in Hc as [->|Hc]; [by vm_compute; auto|]).
      by apply elem_of_nil in Hc.
    + eapply Forall_impl; [apply to_base36_shape|]. by left.
    + apply Forall_cons_2; [by right|apply Forall_nil_2].
    + eapply Forall_impl; [exact Hrnd|]. by left.
  - unfold uniqueKey. rewrite !length_app.
    pose proof (base36_hash_length
                  (path ++ js "|" ++ decimal mtime ++ js "|" ++ rnd)) as Hlen.
    change (length (js "oo_")) with 3%nat. change (length (js "_")) with 1%nat. lia.
  - intros path' mtime' rnd'. apply uniqueKey_suffix.
Qed.

End KeyProps.

Section KeyRunProps.

Variable url_key : JsValue → option jsstr.
Variable form_entries : jsstr → list (jsstr * jsstr).
Variable requestUrl : JsValue → FetchResult.

Lemma run_registry_step st ev key path :
  keyFileMap st !! key = Some path →
  (∀ path' mtime' rnd', ev = EvOpen path' mtime' rnd' → uniqueKey path' mtime' rnd' ≠ key) →
  keyFileMap (step url_key form_entries requestUrl st ev) !! key = Some path.
Proof.
  intros Hk Hev. destruct ev as [path' mtime' rnd'|req]; simpl.
  - unfold register. rewrite lookup_insert_ne; [done|]. by apply (Hev path' mtime' rnd').
  - destruct (handler_inv url_key form_entries requestUrl st req)
      as [[-> _]|(data & _ & _ & Hp)]; [done|].
    destruct (callbackHandler url_key form_entries requestUrl st req) as [[st' ns] resp];
      simpl in *.
    apply processCallback_inv in Hp
      as [[-> _]|(?&?&?&?&?&?&?&_&_&_&_&_&_&_&_&_&->&_)]; done.
Qed.

(** X4. A file registered on open stays the one its key resolves to through
    every later callback and every later open that draws another suffix:
    the suffix alone tells generated keys apart. *)
Theorem fresh_suffix_keeps_registration st (path : jsstr) (mtime : N) (rnd : jsstr) evs :
  path ≠ [] →
  (∀ (path' : jsstr) (mtime' : N) (rnd' : jsstr),
     EvOpen path' mtime' rnd' ∈ evs → rnd' ≠ rnd) →
  resolve (keyFileMap (run url_key form_entries requestUrl
                         (openFile st path mtime rnd) evs))
          (uniqueKey path mtime rnd) = Ok (Some (PStr path)).
Proof.
  intros Hp Hev. apply resolve_own; [|done].
  assert (keyFileMap (openFile st path mtime rnd) !! uniqueKey path mtime rnd = Some path)
    as Hk by (simpl; unfold register; apply lookup_insert_eq).
  revert Hk Hev. generalize (openFile st path mtime rnd). clear st.
  induction evs as [|ev evs IH]; intros st Hk Hev; [done|].
  simpl. apply IH.
  - apply run_registry_step; [done|].
    intros path' mtime' rnd' -> Heq%uniqueKey_suffix.
    apply (Hev path' mtime' rnd'); [|done]. apply elem_of_cons. by left.
  - intros path' mtime' rnd' Hin. apply (Hev path' mtime' rnd').
    apply elem_of_cons. by right.
Qed.

End KeyRunProps.

(** ** The callback receiver over a run *)

Section RunProps.

Variable url_key : JsValue → option jsstr.
Variable form_entries : jsstr → list (jsstr * jsstr).
Variable requestUrl : JsValue → FetchResult.

Local Abbreviation handler := (callbackHandler url_key form_entries requestUrl).

(** The request with its query cut off. *)
Lemma isCallbackPost_query req q :
  url req = Some (js "/callback" ++ 63 :: q) →
  isCallbackPost req = eqs (method req) (js "POST").
Proof.
  intros Hurl. unfold isCallbackPost. rewrite Hurl.
  assert (eqs (js "/callback" ++ 63 :: q) [] = false) as -> by done.
  rewrite before_first_app; [by rewrite andb_true_r|].
  apply (bool_decide_unpack _). by vm_compute.
Qed.


Lemma step_vault st ev p :
  (vault (step url_key form_entries requestUrl st ev) !! p = None ↔ vault st !! p = None)
  ∧ (vault (step url_key form_entries requestUrl st ev) !! p = Some VFolder
     ↔ vault st !! p = Some VFolder).
Proof.
  destruct ev as [path mtime rnd|req]; simpl; [done|].
  destruct (handler_inv url_key form_entries requestUrl st req)
    as [[-> _]|(data & _ & _ & Hp)]; [done|].
  destruct (handler st req) as [[st' ns] resp]; simpl in *.
  apply processCallback_inv in Hp
    as [[-> _]|(?&?&?&?&q&old&buf&_&_&_&_&_&_&_&Hv&_&->&_)]; [done|]. simpl.
  destruct (decide (p = q)) as [->|Hne].
  - rewrite lookup_insert_eq, Hv. split; split; done.
  - by rewrite lookup_insert_ne.
Qed.

Lemma step_registry st ev key path :
  keyFileMap (step url_key form_entries requestUrl st ev) !! key = Some path →
  keyFileMap st !! key = Some path
  ∨ ∃ mtime rnd, ev = EvOpen path mtime rnd ∧ key = uniqueKey path mtime rnd.
Proof.
  destruct ev as [path' mtime rnd|req]; simpl.
  - unfold register. destruct (decide (uniqueKey path' mtime rnd = key)) as [<-|Hne].
    + rewrite lookup_insert_eq. intros [= ->]. right. by exists mtime, rnd.
    + rewrite lookup_insert_ne by done. by left.
  - destruct (handler_inv url_key form_entries requestUrl st req)
      as [[-> _]|(data & _ & _ & Hp)]; [by left|].
    destruct (handler st req) as [[st' ns] resp]; simpl in *.
    apply processCallback_inv in Hp
      as [[-> _]|(?&?&?&?&q&old&buf&_&_&_&_&_&_&_&Hv&_&->&_)]; by left.
Qed.

Lemma step_registry_grows st ev key :
  is_Some (keyFileMap st !! key) →
  is_Some (keyFileMap (step url_key form_entries requestUrl st ev) !! key).
Proof.
  destruct ev as [path' mtime rnd|req]; simpl.
  - unfold register. intros Hk. destruct (decide (uniqueKey path' mtime rnd = key)) as [<-|Hne].
    + rewrite lookup_insert_eq. by eexists.
    + by rewrite lookup_insert_ne.
  - destruct (handler_inv url_key form_entries requestUrl st req)
      as [[-> _]|(data & _ & _ & Hp)]; [done|].
    destruct (handler st req) as [[st' ns] resp]; simpl in *.
    apply processCallback_inv in Hp
      as [[-> _]|(?&?&?&?&q&old&buf&_&_&_&_&_&_&_&Hv&_&->&_)]; done.
Qed.

(** X6. Whatever documents are opened and whatever callbacks arrive, the
    vault keeps its shape: no path appears or disappears and a folder stays
    a folder, only the bytes of files change.  The registry never loses a
    key, and a key it gains holds the path of an open that generated it. *)
Theorem run_keeps_shape st evs :
  let st' := run url_key form_entries requestUrl st evs in
  (∀ p, vault st' !! p = None ↔ vault st !! p = None)
  ∧ (∀ p, vault st' !! p = Some VFolder ↔ vault st !! p = Some VFolder)
  ∧ (∀ key, is_Some (keyFileMap st !! key) → is_Some (keyFileMap st' !! key))
  ∧ (∀ key path, keyFileMap st' !! key = Some path →
       keyFileMap st !! key = Some path
       ∨ ∃ mtime rnd, EvOpen path mtime rnd ∈ evs ∧ key = uniqueKey path mtime rnd).
Proof.
  revert st. induction evs as [|ev evs IH]; intros st; simpl.
  { split_and!; auto. }
  destruct (IH (step url_key form_entries requestUrl st ev)) as (H1 & H2 & H3 & H4).
  split_and!.
  - intros p. rewrite H1. apply step_vault.
  - intros p. rewrite H2. apply step_vault.
  - intros key Hk. by apply H3, step_registry_grows.
  - intros key path Hk. destruct (H4 key path Hk) as [Hs|(mtime & rnd & Hin & ->)].
    + destruct (step_registry _ _ _ _ Hs) as [?|(mtime & rnd & -> & ->)]; [by left|].
      right. exists mtime, rnd. split; [|done]. apply elem_of_cons. by left.
    + right. exists mtime, rnd. split; [|done]. apply elem_of_cons. by right.
Qed.

End RunProps.

(** ** More on creating a document *)

Section CreateMore.

Import Create.

Lemma trim_start_suffix s :
  ∃ pre, s = pre ++ trim_start s ∧ Forall (λ c, is_white_space c = true) pre.
Proof.
  induction s as [|c s (pre & Hs & Hpre)]; simpl; [by exists []|].
  destruct (is_white_space c) eqn:Hc.
  - exists (c :: pre). split; [by rewrite Hs at 1|by apply Forall_cons_2].
  - by exists [].
Qed.

Lemma trim_start_head s c : head (trim_start s) = Some c → is_white_space c = false.
Proof.
  induction s as [|x s IH]; simpl; [done|].
  destruct (is_white_space x) eqn:Hx; [done|]. simpl. by intros [= <-].
Qed.

Lemma trim_start_fixed s :
  (∀ c, head s = Some c → is_white_space c = false) → trim_start s = s.
Proof. destruct s as [|c s]; simpl; [done|]. intros H. by rewrite (H c). Qed.

Lemma trim_start_Forall (P : N → Prop) s : Forall P s → Forall P (trim_start s).
Proof.
  destruct (trim_start_suffix s) as (pre & Hs & _). intros H.
  rewrite Hs in H. by apply Forall_app in H as [_ ?].
Qed.

Lemma trim_Forall (P : N → Prop) s : Forall P s → Forall P (trim s).
Proof.
  intros H. unfold trim. apply Forall_reverse, trim_start_Forall, Forall_reverse.
  by apply trim_start_Forall.
Qed.

Lemma head_reverse (s : jsstr) : head (reverse s) = last s.
Proof.
  induction s as [|c s IH] using rev_ind; [done|].
  by rewrite reverse_snoc, last_snoc.
Qed.

Lemma last_reverse (s : jsstr) : last (reverse s) = head s.
Proof. by rewrite <- head_reverse, reverse_involutive. Qed.

Lemma trim_start_last s c :
  last (trim_start s) = Some c → last s = Some c.
Proof.
  destruct (trim_start_suffix s) as (pre & Hs & _). intros Hl.
  rewrite Hs. destruct (trim_start s) as [|x t] eqn:Ht; [done|].
  rewrite last_app. by rewrite Hl.
Qed.

Lemma trim_ends s :
  (∀ c, head (trim s) = Some c → is_white_space c = false)
  ∧ (∀ c, last (trim s) = Some c → is_white_space c = false).
Proof.
  unfold trim. split; intros c.
  - rewrite head_reverse. intros Hl%trim_start_last.
    rewrite last_reverse in Hl. by apply trim_start_head in Hl.
  - rewrite last_reverse. apply trim_start_head.
Qed.

Lemma trim_fixed s :
  (∀ c, head s = Some c → is_white_space c = false) →
  (∀ c, last s = Some c → is_white_space c = false) →
  trim s = s.
Proof.
  intros Hh Hl. unfold trim. rewrite (trim_start_fixed s Hh).
  rewrite trim_start_fixed; [by rewrite reverse_involutive|].
  intros c. rewrite head_reverse. apply Hl.
Qed.

Lemma filter_fixed (P : N → bool) (s : jsstr) :
  Forall (λ c, P c = true) s → filter (λ c, P c) s = s.
Proof.
  induction 1 as [|c s Hc _ IH]; [done|].
  rewrite filter_cons_True by (by rewrite Hc). by rewrite IH.
Qed.

Lemma sanitize_allowed v : Forall (λ c, negb (forbidden c) = true) (sanitize v).
Proof.
  unfold sanitize. apply trim_Forall.
  apply Forall_forall. intros c Hc%list_elem_of_filter. by destruct Hc as [Hc%Is_true_true _].
Qed.

(** X7. The name taken from the dialog holds none of the nine characters
    that are removed (backslash, slash, colon, star, question mark, double
    quote, angle brackets, bar), so no path separator, and no white space at
    either end; cleaning a cleaned name changes nothing. *)
Theorem sanitize_clean v :
  Forall (λ c, c ∉ [92; 47; 58; 42; 63; 34; 60; 62; 124]) (sanitize v)
  ∧ (∀ c, head (sanitize v) = Some c → is_white_space c = false)
  ∧ (∀ c, last (sanitize v) = Some c → is_white_space c = false)
  ∧ sanitize (sanitize v) = sanitize v.
Proof.
  split_and!.
  - eapply Forall_impl; [apply sanitize_allowed|].
    intros c Hc Hin. unfold forbidden in Hc.
    by rewrite (bool_decide_eq_true_2 _ Hin) in Hc.
  - apply trim_ends.
  - apply trim_ends.
  - unfold sanitize at 1.
    rewrite (filter_fixed (λ c, negb (forbidden c))) by apply sanitize_allowed.
    apply trim_fixed; unfold sanitize; apply trim_ends.
Qed.

Variable fs : gmap jsstr FsNode.
Variables basePath pluginDir : jsstr.
Variable minimalDocx : list byte.

Local Abbreviation openNew := (openNewDocument fs basePath pluginDir minimalDocx).
Local Abbreviation templateOf := (templateData fs basePath pluginDir minimalDocx).

Lemma create_inv vault fuel t requested vault' out :
  create fs basePath pluginDir minimalDocx vault fuel t requested = Some (vault', out) →
  (vault' = vault ∧ (out = NoTemplate ∨ out = Failed))
  ∨ ∃ name data, out = Created name ∧ vault !! name = None
      ∧ templateOf t = Ok (Some data)
      ∧ vault' = <[name := VFile data]> vault.
Proof.
  unfold create. destruct (templateOf t) as [[data|]|e];
    [|intros [= <- <-]; left; auto..].
  match goal with
  | |- context [match ?f with Some n => _ | None => None end] =>
      destruct f as [n|]; [|done]
  end.
  unfold createBinary. destruct (vault !! n) eqn:Hn.
  - intros [= <- <-]. left. auto.
  - intros [= <- <-]. right. by exists n, data.
Qed.


(** The search reads the first candidate that exists. *)
Lemma firstTemplate_first paths p :
  firstExisting fs paths p →
  firstTemplate fs paths = let* buf := readFile fs p in Ok (Some buf).
Proof.
  intros (before & after & -> & Hbefore & Hp).
  induction Hbefore as [|q before Hq _ IH]; simpl.
  - by rewrite Hp.
  - by rewrite Hq.
Qed.

Lemma firstTemplate_none paths :
  Forall (λ q, existsSync fs q = false) paths → firstTemplate fs paths = Ok None.
Proof. induction 1 as [|q paths Hq _ IH]; simpl; [done|]. by rewrite Hq. Qed.

(** The untitled name: the plain one when it is free, else the first free
    numbered one. *)
Lemma untitled_name vault fuel data :
  (size vault < fuel)%nat →
  templateOf docx = Ok (Some data) →
  ∃ name,
    create fs basePath pluginDir minimalDocx vault fuel docx None
    = Some (<[name := VFile data]> vault, Created name)
    ∧ vault !! name = None
    ∧ (vault !! js "Untitled Document.docx" = None → name = js "Untitled Document.docx")
    ∧ (is_Some (vault !! js "Untitled Document.docx") →
       ∃ i, 2 ≤ i ∧ name = untitled docx i
            ∧ ∀ k, 2 ≤ k < i → is_Some (vault !! untitled docx k)).
Proof.
  intros Hfuel Htpl. unfold create. rewrite Htpl.
  change (js "Untitled Document." ++ extOf docx) with (js "Untitled Document.docx").
  destruct (vault !! js "Untitled Document.docx") as [e|] eqn:Hfirst.
  - destruct (firstFree_total vault vault (untitled docx) fuel 2)
      as (name & -> & Hfree & j & Hj & -> & Hbelow); [apply untitled_inj|done|done|].
    exists (untitled docx j). unfold createBinary. rewrite Hfree.
    split_and!; [done|done|done|]. intros _. by exists j.
  - exists (js "Untitled Document.docx"). unfold createBinary. rewrite Hfirst.
    split_and!; [done|done|done|]. by intros [? ?].
Qed.

(** X9. With the name dialog switched off a Word document is created
    without a question: from the first of the four template candidates that
    exists or, when none exists, from the embedded minimal document, as
    [Untitled Document.docx] when that name is free and else as
    [Untitled Document i.docx] for the first [i] from 2 on whose name is
    free.  The one way to fail is a first existing candidate that cannot be
    read (a folder of that name): then nothing is created and the failure is
    reported. *)
Theorem untitled_document_created vault fuel modal :
  (size vault < fuel)%nat →
  (∀ data,
     (Forall (λ q, existsSync fs q = false) (candidatePaths basePath pluginDir docx)
      ∧ data = minimalDocx)
     ∨ (∃ p, firstExisting fs (candidatePaths basePath pluginDir docx) p
             ∧ readFile fs p = Ok data) →
     ∃ name,
       openNew vault fuel (Some false) modal
       = Some (<[name := VFile data]> vault, Created name)
       ∧ vault !! name = None
       ∧ (vault !! js "Untitled Document.docx" = None → name = js "Untitled Document.docx")
       ∧ (is_Some (vault !! js "Untitled Document.docx") →
          ∃ i, 2 ≤ i ∧ name = untitled docx i
               ∧ ∀ k, 2 ≤ k < i → is_Some (vault !! untitled docx k)))
  ∧ (∀ p e,
       firstExisting fs (candidatePaths basePath pluginDir docx) p →
       readFile fs p = Throw e →
       openNew vault fuel (Some false) modal = Some (vault, Failed)).
Proof.
  intros Hfuel. split.
  - intros data Hdata. apply untitled_name; [done|]. unfold templateData.
    destruct Hdata as [[Hnone ->]|(p & Hp & Hread)].
    + by rewrite (firstTemplate_none _ Hnone).
    + by rewrite (firstTemplate_first _ p Hp), Hread.
  - intros p e Hp Hread. unfold openNewDocument, create, templateData.
    by rewrite (firstTemplate_first _ p Hp), Hread.
Qed.

End CreateMore.

(** ** Escapes that do not decode, and legacy keys *)

Section DecodeProps.

Lemma hex_byte_not_percent h1 h2 b : hex_byte h1 h2 = Some b → h1 ≠ 37 ∧ h2 ≠ 37.
Proof.
  intros H. split; intros ->.
  - by vm_compute in H.
  - unfold hex_byte in H. destruct (hexval h1); [|done]. by vm_compute in H.
Qed.

Lemma wellEscaped_escape h1 h2 b t :
  hex_byte h1 h2 = Some b → wellEscaped t = true → wellEscaped (37 :: h1 :: h2 :: t) = true.
Proof.
  intros Hb Ht. destruct (hex_byte_not_percent _ _ _ Hb) as [H1 H2].
  cbn [wellEscaped]. rewrite N.eqb_refl, Hb.
  rewrite (proj2 (N.eqb_neq h1 37) H1), (proj2 (N.eqb_neq h2 37) H2), Ht.
  by rewrite bool_decide_eq_true_2 by (by eexists).
Qed.

Lemma escape_inv p h1 h2 b : escape p h1 h2 = Some b → p = 37 ∧ hex_byte h1 h2 = Some b.
Proof. unfold escape. by destruct (N.eqb_spec p 37) as [->|]. Qed.

Lemma emit_ok octets rest r : emit octets rest = Ok r → ∃ r0, rest = Ok r0.
Proof.
  unfold emit. destruct (utf8_code_point octets); [|done].
  destruct rest as [r0|]; [|done]. by exists r0.
Qed.

(** A string that decodes has two hexadecimal digits after every [%]. *)
Lemma decode_wellEscaped s r : decodeURIComponent s = Ok r → wellEscaped s = true.
Proof.
  assert (∀ n s r, (length s ≤ n)%nat → decodeURIComponent s = Ok r → wellEscaped s = true)
    as Hind; [|by apply (Hind (length s))].
  clear s r. induction n as [|n IH]; intros s r Hlen.
  { destruct s; [done|simpl in Hlen; lia]. }
  destruct s as [|c t]; [done|]. simpl in Hlen. cbn [decodeURIComponent].
  destruct (N.eqb_spec c 37) as [->|Hc]; cbn [negb].
  2:{ destruct (decodeURIComponent t) as [r0|] eqn:Ht; [|done]. intros _.
      cbn [wellEscaped]. rewrite (proj2 (N.eqb_neq c 37) Hc). cbn.
      apply (IH t r0); [lia|done]. }
  destruct t as [|h1 [|h2 t1]]; [done..|]. simpl in Hlen.
  destruct (hex_byte h1 h2) as [b1|] eqn:Hb1; [|done].
  destruct (b1 <? 0x80).
  { destruct (decodeURIComponent t1) as [r0|] eqn:Ht; [|done]. intros _.
    apply (wellEscaped_escape _ _ _ _ Hb1). apply (IH t1 r0); [lia|done]. }
  destruct (b1 <? 0xC0); [done|].
  destruct (b1 <? 0xE0).
  { destruct t1 as [|p2 [|h3 [|h4 t2]]]; [done..|]. simpl in Hlen.
    destruct (escape p2 h3 h4) as [b2|] eqn:Hb2; [|done].
    apply escape_inv in Hb2 as [-> Hb2].
    intros [r0 Hr0]%emit_ok.
    apply (wellEscaped_escape _ _ _ _ Hb1), (wellEscaped_escape _ _ _ _ Hb2).
    apply (IH t2 r0); [lia|done]. }
  destruct (b1 <? 0xF0).
  { destruct t1 as [|p2 [|h3 [|h4 [|p3 [|h5 [|h6 t3]]]]]]; [done..|]. simpl in Hlen.
    destruct (escape p2 h3 h4) as [b2|] eqn:Hb2; [|done].
    destruct (escape p3 h5 h6) as [b3|] eqn:Hb3; [|done].
    apply escape_inv in Hb2 as [-> Hb2]. apply escape_inv in Hb3 as [-> Hb3].
    intros [r0 Hr0]%emit_ok.
    apply (wellEscaped_escape _ _ _ _ Hb1), (wellEscaped_escape _ _ _ _ Hb2),
      (wellEscaped_escape _ _ _ _ Hb3).
    apply (IH t3 r0); [lia|done]. }
  destruct (b1 <? 0xF8); [|done].
  destruct t1 as [|p2 [|h3 [|h4 [|p3 [|h5 [|h6 [|p4 [|h7 [|h8 t4]]]]]]]]]; [done..|].
  simpl in Hlen.
  destruct (escape p2 h3 h4) as [b2|] eqn:Hb2; [|done].
  destruct (escape p3 h5 h6) as [b3|] eqn:Hb3; [|done].
  destruct (escape p4 h7 h8) as [b4|] eqn:Hb4; [|done].
  apply escape_inv in Hb2 as [-> Hb2]. apply escape_inv in Hb3 as [-> Hb3].
  apply escape_inv in Hb4 as [-> Hb4].
  intros [r0 Hr0]%emit_ok.
  apply (wellEscaped_escape _ _ _ _ Hb1), (wellEscaped_escape _ _ _ _ Hb2),
    (wellEscaped_escape _ _ _ _ Hb3), (wellEscaped_escape _ _ _ _ Hb4).
  apply (IH t4 r0); [lia|done].
Qed.

Lemma emit_throws octets rest e :
  emit octets rest = Throw e → e = URIError ∨ rest = Throw e.
Proof.
  unfold emit. destruct (utf8_code_point octets); [|intros [= <-]; by left].
  destruct rest as [r0|e0]; [done|]. intros [= <-]. by right.
Qed.

(** The one exception of [decodeURIComponent] is the [URIError]. *)
Lemma decode_throws s e : decodeURIComponent s = Throw e → e = URIError.
Proof.
  assert (∀ n s e, (length s ≤ n)%nat → decodeURIComponent s = Throw e → e = URIError)
    as Hind; [|by apply (Hind (length s))].
  clear s e. induction n as [|n IH]; intros s e Hlen.
  { destruct s; [done|simpl in Hlen; lia]. }
  destruct s as [|c t]; [done|]. simpl in Hlen. cbn [decodeURIComponent].
  destruct (negb (c =? 37)).
  { destruct (decodeURIComponent t) as [r0|e0] eqn:Ht; [done|]. intros [= <-].
    apply (IH t); [lia|done]. }
  destruct t as [|h1 [|h2 t1]]; [by intros [= <-]..|]. simpl in Hlen.
  destruct (hex_byte h1 h2) as [b1|]; [|by intros [= <-]].
  destruct (b1 <? 0x80).
  { destruct (decodeURIComponent t1) as [r0|e0] eqn:Ht; [done|]. intros [= <-].
    apply (IH t1); [lia|done]. }
  destruct (b1 <? 0xC0); [by intros [= <-]|].
  destruct (b1 <? 0xE0).
  { destruct t1 as [|p2 [|h3 [|h4 t2]]]; [by intros [= <-]..|]. simpl in Hlen.
    destruct (escape p2 h3 h4); [|by intros [= <-]].
    intros [->|Hr]%emit_throws; [done|]. apply (IH t2); [lia|done]. }
  destruct (b1 <? 0xF0).
  { destruct t1 as [|p2 [|h3 [|h4 [|p3 [|h5 [|h6 t3]]]]]]; [by intros [= <-]..|].
    simpl in Hlen.
    destruct (escape p2 h3 h4); [|by intros [= <-]].
    destruct (escape p3 h5 h6); [|by intros [= <-]].
    intros [->|Hr]%emit_throws; [done|]. apply (IH t3); [lia|done]. }
  destruct (b1 <? 0xF8); [|by intros [= <-]].
  destruct t1 as [|p2 [|h3 [|h4 [|p3 [|h5 [|h6 [|p4 [|h7 [|h8 t4]]]]]]]]];
    [by intros [= <-]..|].
  simpl in Hlen.
  destruct (escape p2 h3 h4); [|by intros [= <-]].
  destruct (escape p3 h5 h6); [|by intros [= <-]].
  destruct (escape p4 h7 h8); [|by intros [= <-]].
  intros [->|Hr]%emit_throws; [done|]. apply (IH t4); [lia|done].
Qed.

Variable mime_lookup : jsstr → option jsstr.
Variable search_get : jsstr → jsstr → jsstr → Result (option jsstr).
Variables vaultPath resolvedPluginPath : jsstr.
Variable message : Exn → jsstr.

(** X10. A request whose path holds a [%] that is not followed by two
    hexadecimal digits is answered with status 500 and a plain text, the
    answer of the [catch] with the message of the [URIError], whatever the
    file system holds: no file is looked up. *)
Theorem stray_percent_is_500 fs req :
  method req ≠ js "OPTIONS" →
  wellEscaped (requestedPath req) = false →
  code (staticHandler mime_lookup search_get vaultPath resolvedPluginPath message fs req) = 500%Z
  ∧ contentType (staticHandler mime_lookup search_get vaultPath resolvedPluginPath message fs req)
    = Some (js "text/plain")
  ∧ content (staticHandler mime_lookup search_get vaultPath resolvedPluginPath message fs req)
    = CText (js "Internal server error: " ++ message URIError).
Proof.
  intros Hm Hbad. unfold staticHandler, eqs. rewrite (bool_decide_eq_false_2 _ Hm).
  unfold route.
  destruct (decodeURIComponent (requestedPath req)) as [r|e] eqn:Hdec.
  - apply decode_wellEscaped in Hdec. by rewrite Hdec in Hbad.
  - apply decode_throws in Hdec as ->. by cbn.
Qed.

Lemma encode_nonempty s e : s ≠ [] → encodeURIComponent s = Ok e → e ≠ [].
Proof.
  destruct s as [|c t]; [done|]. intros _. cbn [encodeURIComponent].
  destruct (unreserved c).
  { destruct (encodeURIComponent t); [|done]. by intros [= <-]. }
  destruct (isLowSurrogate c); [done|].
  assert (∀ v r, escapes v ++ r ≠ []) as Hesc.
  { intros v r. unfold escapes, utf8.
    destruct (v <? 0x80); [done|]. destruct (v <? 0x800); [done|].
    by destruct (v <? 0x10000). }
  destruct (isHighSurrogate c).
  - destruct t as [|c2 t']; [done|]. destruct (isLowSurrogate c2); [|done].
    destruct (encodeURIComponent t'); [|done]. intros [= <-]. apply Hesc.
  - destruct (encodeURIComponent t); [|done]. intros [= <-]. apply Hesc.
Qed.

Lemma urlUnit_no_terminator c : urlUnit c → noLineTerminator c.
Proof.
  unfold noLineTerminator, is_line_terminator.
  intros [Hc|[->|(d & Hd & ->)]].
  - destruct (N.eqb_spec c 10) as [->|]; [by vm_compute in Hc|].
    destruct (N.eqb_spec c 13) as [->|]; [by vm_compute in Hc|].
    destruct (N.eqb_spec c 0x2028) as [->|]; [by vm_compute in Hc|].
    destruct (N.eqb_spec c 0x2029) as [->|]; [by vm_compute in Hc|]. done.
  - done.
  - unfold hexdigit. destruct (N.ltb_spec d 10).
    + rewrite !(proj2 (N.eqb_neq _ _)); [done|lia..].
    + rewrite !(proj2 (N.eqb_neq _ _)); [done|lia..].
Qed.

(** X11. A key of the legacy form whose middle part is the percent-encoding
    of a path (underscores in the path included) resolves to that path when
    the registry holds nothing under the key. *)
Theorem legacy_key_round_trip (reg : gmap jsstr jsstr) (path enc ds an : jsstr) :
  wellFormed path → path ≠ [] → encodeURIComponent path = Ok enc →
  ds ≠ [] → Forall (λ c, is_digit c = true) ds →
  an ≠ [] → Forall isLowerAlnum an →
  reg !! (js "obsidian_" ++ enc ++ 95 :: ds ++ 95 :: an) = None →
  resolve reg (js "obsidian_" ++ enc ++ 95 :: ds ++ 95 :: an) = Ok (Some (PStr path)).
Proof.
  intros Hwf Hne Henc Hds Hd Han Ha Hreg.
  assert (legacy_exec (js "obsidian_" ++ enc ++ 95 :: ds ++ 95 :: an) = Some enc) as Hl.
  { apply legacy_exec_spec. exists ds, an. split_and!; try done.
    - by apply (encode_nonempty path).
    - eapply Forall_impl; [by apply (encode_units path)|]. apply urlUnit_no_terminator. }
  unfold resolve, registry_get. rewrite Hreg.
  rewrite (bool_decide_eq_false_2 _ (legacy_not_inherited _ _ Hl)), Hl.
  rewrite <- (app_nil_r enc), (decode_encode_app path enc [] Hwf Henc).
  cbn. by rewrite app_nil_r.
Qed.

End DecodeProps.

(** ** Opening a file in the view *)

Section LoadProps.

Import Load.

Variable head : jsstr → nat → bool.
Variable toLowerCase : jsstr → jsstr.

Lemma probe_total fuel u k i :
  (i ≤ 20)%nat → (20 - i < fuel)%nat →
  ∃ r, probe head fuel u k (250 * Z.of_nat i) = Some r
    ∧ match r with
      | (true, k') =>
          (k < k' ≤ k + (20 - i))%nat ∧ head u (k' - 1)%nat = true
          ∧ ∀ j, (k ≤ j < k' - 1)%nat → head u j = false
      | (false, k') =>
          k' = (k + (20 - i))%nat ∧ ∀ j, (k ≤ j < k + (20 - i))%nat → head u j = false
      end.
Proof.
  revert k i. induction fuel as [|f IH]; intros k i Hi Hfuel; [lia|]. simpl.
  unfold maxWait. destruct (Z.ltb_spec (250 * Z.of_nat i) 5000) as [Hlt|Hge].
  - destruct (head u k) eqn:Hk.
    + eexists. split; [reflexivity|]. simpl. rewrite Nat.sub_0_r.
      split_and!; [lia|lia|done|]. intros j Hj. lia.
    + destruct (IH (S k) (S i)) as (r & Hr & Hspec); [lia..|].
      replace (250 * Z.of_nat i + checkInterval)%Z with (250 * Z.of_nat (S i))%Z
        by (unfold checkInterval; lia).
      exists r. split; [done|]. destruct r as [[|] k'].
      * destruct Hspec as (Hk' & Hlast & Hbefore). split_and!; try lia; [done|].
        intros j Hj. destruct (decide (j = k)) as [->|]; [done|]. apply Hbefore. lia.
      * destruct Hspec as (-> & Hall). split; [lia|].
        intros j Hj. destruct (decide (j = k)) as [->|]; [done|]. apply Hall. lia.
  - assert (i = 20)%nat as -> by lia. eexists. split; [reflexivity|]. simpl.
    split; [lia|]. intros j Hj. lia.
Qed.

Lemma probe_fresh fuel u k :
  (20 < fuel)%nat →
  ∃ r, probe head fuel u k 0 = Some r ∧ probeSpec head u k r.
Proof.
  intros Hfuel. destruct (probe_total fuel u k 0) as (r & Hr & Hspec); [lia..|].
  exists r. split; [exact Hr|]. unfold probeSpec. destruct r as [[|] k'].
  - destruct Hspec as (Hk' & Hlast & Hbefore). split_and!; [lia..|done|done].
  - destruct Hspec as (-> & Hall). split; [lia|]. intros j Hj. apply Hall. lia.
Qed.

(** X12. Each of the two probes of a load makes at most twenty HEAD
    requests, one every 250 ms for 5 seconds: it ends at the first request
    that is answered, or after twenty requests without an answer. *)
Theorem probe_stops_at_first_answer fuel u k :
  (20 < fuel)%nat →
  ∃ r, probe head fuel u k 0 = Some r ∧ probeSpec head u k r.
Proof. apply probe_fresh. Qed.


Lemma encodeAll_total segs :
  Forall (Forall (λ c, isHighSurrogate c = false ∧ isLowSurrogate c = false)) segs →
  ∃ es, encodeAll segs = Ok es.
Proof.
  induction 1 as [|seg rest Hseg _ [es IH]]; [by exists []|].
  destruct (encode_total seg Hseg) as [e He]. cbn [encodeAll]. rewrite He, IH. by eexists.
Qed.

Lemma split_on_Forall (P : N → Prop) sep s : Forall P s → Forall (Forall P) (split_on sep s).
Proof.
  induction 1 as [|c s Hc Hs IH]; cbn [split_on].
  { apply Forall_cons_2; [apply Forall_nil_2|apply Forall_nil_2]. }
  destruct (c =? sep); [apply Forall_cons_2; [apply Forall_nil_2|done]|].
  destruct (split_on sep s) as [|seg segs].
  { apply Forall_cons_2; [|apply Forall_nil_2]. by apply Forall_cons_2; [|apply Forall_nil_2]. }
  inversion IH; subst. apply Forall_cons_2; [by apply Forall_cons_2|done].
Qed.

Lemma relPathOf_total p :
  Forall (λ c, isHighSurrogate c = false ∧ isLowSurrogate c = false) p →
  ∃ rel, relPathOf p = Ok rel.
Proof.
  intros Hp. unfold relPathOf.
  destruct (encodeAll_total (split_on 47 (toSlashes p))) as [es ->]; [|by eexists].
  apply split_on_Forall. unfold toSlashes. apply Forall_fmap.
  eapply Forall_impl; [exact Hp|]. intros c Hc. simpl.
  destruct (N.eqb_spec c 92); [done|done].
Qed.

(** X24. Building the file URL is the one step of a load that can throw,
    and it throws only on a surrogate code unit: for a path without
    surrogate units no load ends in the [catch]. *)
Theorem load_fails_only_on_surrogate fuel env reg view container file leafFile now
    (rnd : jsstr) reg' view' k :
  onLoadFile head toLowerCase fuel env reg view container file leafFile now rnd
  = Some (reg', view', LoadFailed, k) →
  ∃ f c, file = Some f ∧ c ∈ path f ∧ 0xD800 ≤ c ≤ 0xDFFF.
Proof.
  unfold onLoadFile. destruct (negb container); [done|].
  destruct file as [f|]; [|done].
  destruct (match leafFile with
            | Some current => negb (bool_decide (current = Some (path f)))
            | None => false
            end); [done|].
  destruct (probe head fuel _ 0 0) as [[[|] k1]|]; [|done..].
  destruct (relPathOf (path f)) as [rel|e] eqn:Hrel.
  { destruct (probe head fuel _ k1 0) as [[[|] k2]|]; [|done..].
    by destruct (bool_decide (toLowerCase (extension f) ∈ supported)). }
  intros _.
  destruct (decide (Forall (λ c, isHighSurrogate c = false ∧ isLowSurrogate c = false)
                      (path f))) as [Hplain|Hsur].
  { destruct (relPathOf_total _ Hplain) as [rel Hok]. by rewrite Hok in Hrel. }
  apply not_Forall_Exists in Hsur; [|solve_decision].
  apply Exists_exists in Hsur as (c & Hin & Hc).
  exists f, c. split; [done|]. split; [done|].
  unfold isHighSurrogate, isLowSurrogate in Hc.
  assert (¬ (c < 0xD800 ∨ 0xDFFF < c)) as Hrange; [|lia].
  intros Hout. apply Hc. split; apply andb_false_iff.
  - destruct Hout; [left|right]; apply N.leb_gt; lia.
  - destruct Hout; [left|right]; apply N.leb_gt; lia.
Qed.

End LoadProps.

(** ** Save As *)

Section SaveAsProps.

Import SaveAs.

Variable toLowerCase : jsstr → jsstr.
Variable stripExt : jsstr → jsstr → Result jsstr.
Variable requestUrl : JsValue → FetchResult.
Variable prompt : nat → option jsstr.

Local Abbreviation saveAs := (saveAsDocument toLowerCase stripExt requestUrl prompt).

Lemma alt_inj base ext i j : alt base ext i = alt base ext j → i = j.
Proof.
  unfold alt. intros H%app_inv_head%app_inv_head%app_inv_tail. by apply decimal_inj.
Qed.

(** Past the first conflict the loop tries the numbered names in turn. *)
Lemma nameLoop_numbered fuel vault retry base ext a fileName :
  1 ≤ a →
  nameLoop toLowerCase (S fuel) vault retry base ext a fileName
  = match vault !! fileName with
    | None => Some fileName
    | Some _ => Create.firstFree vault (alt base ext) fuel (a + 1)
    end.
Proof.
  revert a fileName. induction fuel as [|f IH]; intros a fileName Ha.
  - simpl. destruct (vault !! fileName); [|done].
    by rewrite (proj2 (N.eqb_neq (a + 1) 1)) by lia.
  - cbn [nameLoop]. destruct (vault !! fileName); [|done].
    rewrite (proj2 (N.eqb_neq (a + 1) 1)) by lia.
    change (nameLoop toLowerCase (S f) vault retry base ext (a + 1)
              (alt base ext (a + 1))
            = Create.firstFree vault (alt base ext) (S f) (a + 1)).
    rewrite IH by lia. done.
Qed.

Lemma nameLoop_first fuel vault retry base ext fileName :
  nameLoop toLowerCase (S fuel) vault retry base ext 0 fileName
  = match vault !! fileName with
    | None => Some fileName
    | Some _ =>
        match present retry with
        | Some r => nameLoop toLowerCase fuel vault retry base ext 1
                      (withExt toLowerCase ext r)
        | None => nameLoop toLowerCase fuel vault retry base ext 1 (alt base ext 1)
        end
    end.
Proof. reflexivity. Qed.

Lemma nameLoop_spec fuel vault retry base ext fileName :
  (size vault + 2 < fuel)%nat →
  ∃ final,
    nameLoop toLowerCase fuel vault retry base ext 0 fileName = Some final
    ∧ nameSpec (withExt toLowerCase ext) vault retry base ext fileName final.
Proof.
  intros Hfuel. destruct fuel as [|[|[|f]]]; try lia.
  rewrite nameLoop_first. unfold nameSpec.
  destruct (vault !! fileName) as [e|] eqn:Hfile.
  2:{ exists fileName. split; [done|]. split_and!; [done|done|]. by intros [? ?]. }
  destruct (present retry) as [r|] eqn:Hretry.
  - rewrite nameLoop_numbered by lia.
    destruct (vault !! withExt toLowerCase ext r) as [e'|] eqn:Hr.
    + destruct (firstFree_total vault vault (alt base ext) (S f) (1 + 1))
        as (name & -> & Hspec); [apply alt_inj|done|lia|].
      exists name. split; [done|]. split_and!; [apply Hspec|congruence|].
      intros _. split; [congruence|]. by intros _.
    + exists (withExt toLowerCase ext r). split; [done|]. split_and!; [done|congruence|].
      intros _. split; [done|]. by intros [? ?].
  - rewrite nameLoop_numbered by lia.
    destruct (firstFree_total vault vault (alt base ext) (S (S f)) 1)
      as (name & Hn & Hspec); [apply alt_inj|done|lia|].
    exists name. split; [exact Hn|].
    split_and!; [apply Hspec|congruence|]. by intros _.
Qed.

(** X14. Save As into the vault, once the copy was downloaded and a name is
    at hand, always ends with a new file that holds the downloaded bytes
    under a name that was free: the name asked for, with the extension
    appended when it lacks it; on a conflict the name entered in the second
    dialog; and else the first free numbered name.  The pending name is
    consumed. *)
Theorem save_as_creates_free_name fuel vault view iso stored force data urlValue title
    entered base buf :
  fallbackEditor view = false →
  truthy data = true →
  get_prop data (js "url") = Ok urlValue → truthy urlValue = true →
  get_prop data (js "title") = Ok title →
  requestUrl urlValue = FetchResponse 200 buf →
  firstName (pendingSaveAsName view) title [] = JStr entered → entered ≠ [] →
  stripExt (activeExtOf toLowerCase view)
    (withExt toLowerCase (activeExtOf toLowerCase view) entered) = Ok base →
  (size vault + 2 < fuel)%nat →
  ∃ final,
    saveAs fuel false vault view iso stored force (Some data)
    = Some (<[final := VFile buf]> vault, consume view None, Saved final)
    ∧ nameSpec (withExt toLowerCase (activeExtOf toLowerCase view)) vault (prompt 0) base
        (activeExtOf toLowerCase view)
        (withExt toLowerCase (activeExtOf toLowerCase view) entered) final.
Proof.
  intros Hfb Hdata Hurl Htu Htitle Hfetch Hfirst Hne Hstrip Hfuel.
  destruct (nameLoop_spec fuel vault (prompt 0) base (activeExtOf toLowerCase view)
              (withExt toLowerCase (activeExtOf toLowerCase view) entered) Hfuel)
    as (final & Hloop & Hspec).
  exists final. split; [|done].
  unfold saveAsDocument. rewrite Hfb.
  change (default JUndefined (Some data)) with data. rewrite Hdata, Hurl, Htu, Htitle.
  cbn [andb]. unfold saveIntoVault. rewrite Hfetch. cbn [Z.eqb Pos.eqb negb].
  assert (truthy (JStr entered) = true) as Htr.
  { cbn [truthy]. unfold eqs. by rewrite (bool_decide_eq_false_2 _ Hne). }
  rewrite Hfirst, Htr. cbn [negb asString]. rewrite Hstrip, Hloop, ?Htr.
  unfold Create.createBinary. cbn [negb]. by rewrite (proj1 Hspec).
Qed.

Lemma created_extends (vault vault' : gmap jsstr VaultEntry) name data :
  Create.createBinary vault name data = Ok vault' →
  vault !! name = None ∧ vault' = <[name := VFile data]> vault.
Proof.
  unfold Create.createBinary. destruct (vault !! name); [done|]. by intros [= <-].
Qed.


Lemma endsWith_app a b : endsWith (a ++ b) b = true.
Proof.
  unfold endsWith, eqs. rewrite length_app.
  rewrite bool_decide_eq_true_2 by lia.
  replace (length a + length b - length b)%nat with (length a) by lia.
  rewrite drop_app_length. by rewrite bool_decide_eq_true_2.
Qed.

(** X16. The download offered by the system Save As fallback is named after
    the open file: its name is the base name of the file, or the base name
    with a dot and the extension appended once; it always ends in the dot
    and the extension, and it is the bare base name only when that already
    ends so. *)
Theorem fallback_name_has_extension view (basename extension : jsstr) :
  let base := if eqs basename [] then js "Document" else basename in
  let ext := if negb (eqs (currentExt view) []) then currentExt view
             else if negb (eqs extension []) then extension else js "docx" in
  let out := fallbackDownloadName toLowerCase view basename extension in
  endsWith out (46 :: ext) = true
  ∧ (out = base ∨ out = base ++ 46 :: ext)
  ∧ (out = base → endsWith base (46 :: ext) = true).
Proof.
  intros base ext. unfold fallbackDownloadName. fold base. fold ext.
  destruct (endsWith (toLowerCase base) (46 :: ext)).
  - destruct (endsWith base (46 :: ext)) eqn:He; cbn zeta.
    + split_and!; [done|by left|done].
    + split_and!; [apply endsWith_app|by right|].
      intros Heq. apply (f_equal length) in Heq. rewrite length_app in Heq.
      simpl in Heq. lia.
  - rewrite endsWith_app. cbn zeta. split_and!; [apply endsWith_app|by right|].
    intros Heq. apply (f_equal length) in Heq. rewrite length_app in Heq.
    simpl in Heq. lia.
Qed.

End SaveAsProps.

(** ** Events of the editor *)

Section BridgeProps.

Import Bridge.

Variable json_parse : jsstr → option JsValue.
Variable useSystemSaveAs : bool.

Local Abbreviation console := (onConsoleMessage json_parse useSystemSaveAs).

Lemma console_prefixed f rest payload :
  json_parse rest = Some payload →
  console f (js "OO-EVT:" ++ rest)
  = match dispatch useSystemSaveAs f payload with
    | Ok r => r
    | Throw _ => (f, [Log])
    end.
Proof.
  intros Hp. unfold onConsoleMessage.
  rewrite (proj2 (strip_prefix_spec (js "OO-EVT:") _ rest) eq_refl). by rewrite Hp.
Qed.

Lemma truthyMember_truthy v name : truthyMember v name = true → truthy v = true.
Proof. unfold truthyMember. by intros [? _]%andb_prop. Qed.

Lemma dispatch_event f channel data :
  dispatch useSystemSaveAs f (eventPayload channel data)
  = if eqs channel saveAsChannel then
      if truthyMember data (js "url") then
        Ok ({| isDirty := isDirty f; systemSaveAsRetryPending := false;
               performingSystemSaveAsFallback := false |},
            [CallSaveAs false (Some data)])
      else if useSystemSaveAs then
        if negb (performingSystemSaveAsFallback f)
        then Ok ({| isDirty := isDirty f;
                    systemSaveAsRetryPending := systemSaveAsRetryPending f;
                    performingSystemSaveAsFallback := true |},
                 [CallFallbackSaveAs])
        else Ok (f, [])
      else Ok (f, [CallSaveAs true None])
    else if eqs channel createNewChannel then Ok (f, [CallOpenNew])
    else if eqs channel dirtyChannel
    then Ok (setDirty f (truthyMember data (js "isDirty")), [])
    else Ok (f, []).
Proof. reflexivity. Qed.

(** X17. The [console-message] listener changes a flag or starts something
    only for a message that begins with [OO-EVT:] and whose rest parses to
    an object with one of the three channels it knows; every other message
    (other text, text that does not parse, [null], a value that is no
    object, another channel) is logged or dropped. *)
Theorem console_message_needs_event f msg :
  console f msg = (f, [Log]) ∨ console f msg = (f, [])
  ∨ ∃ rest props ch,
      msg = js "OO-EVT:" ++ rest ∧ json_parse rest = Some (JObj props)
      ∧ assoc (js "channel") props = Some (JStr ch)
      ∧ ch ∈ [saveAsChannel; createNewChannel; dirtyChannel].
Proof.
  unfold onConsoleMessage.
  destruct (strip_prefix (js "OO-EVT:") msg) as [rest|] eqn:Hpre; [|by left].
  apply strip_prefix_spec in Hpre as ->.
  destruct (json_parse rest) as [payload|] eqn:Hp; [|by left].
  destruct payload as [| |b|r|t|items|props];
    try (by left); try (right; by left).
  unfold dispatch. cbn [get_prop rbind].
  destruct (assoc (js "channel") props) as [[| |b|r|ch|items|props']|] eqn:Hch;
    cbn [default from_option id isStr]; try (right; by left).
  unfold eqs.
  destruct (decide (ch = saveAsChannel)) as [->|H1].
  { right. right. exists rest, props, saveAsChannel. split_and!; try done. set_solver. }
  rewrite (bool_decide_eq_false_2 _ H1).
  destruct (decide (ch = createNewChannel)) as [->|H2].
  { right. right. exists rest, props, createNewChannel. split_and!; try done. set_solver. }
  rewrite (bool_decide_eq_false_2 _ H2).
  destruct (decide (ch = dirtyChannel)) as [->|H3].
  { right. right. exists rest, props, dirtyChannel. split_and!; try done. set_solver. }
  rewrite (bool_decide_eq_false_2 _ H3). right. by left.
Qed.

Lemma count_app p a b : count p (a ++ b) = (count p a + count p b)%nat.
Proof. unfold count. by rewrite List.filter_app, length_app. Qed.

Lemma console_step_guard f msg :
  let r := console f msg in
  (count isFallback r.2
   + (if performingSystemSaveAsFallback r.1 then 0 else 1)
   ≤ (if performingSystemSaveAsFallback f then 0 else 1) + count isUrlSave r.2)%nat.
Proof.
  cbn zeta. unfold onConsoleMessage.
  destruct (strip_prefix (js "OO-EVT:") msg) as [rest|]; [|unfold count; simpl; lia].
  destruct (json_parse rest) as [payload|]; [|unfold count; simpl; lia].
  unfold dispatch.
  destruct (get_prop payload (js "channel")) as [channel|]; cbn [rbind]; [|unfold count; simpl; lia].
  destruct (get_prop payload (js "data")) as [data|]; cbn [rbind]; [|unfold count; simpl; lia].
  destruct (isStr channel saveAsChannel).
  - destruct (truthyMember data (js "url")).
    + unfold count. simpl. destruct (performingSystemSaveAsFallback f); lia.
    + destruct useSystemSaveAs; [|unfold count; simpl; lia].
      destruct (performingSystemSaveAsFallback f) eqn:Hp; unfold count; simpl; rewrite ?Hp; lia.
  - destruct (isStr channel createNewChannel); [unfold count; simpl; lia|].
    destruct (isStr channel dirtyChannel); unfold count; simpl; lia.
Qed.

(** X23. The guard against concurrent fallbacks works: over any sequence of
    console messages (and as long as a started fallback has not finished) a
    vault-based fallback Save As is started at most once more than Save As
    events with a url were handled, and not at all while one is already
    marked as running and no such event came. *)
Theorem fallback_started_once f msgs :
  let r := consoleRun json_parse useSystemSaveAs f msgs in
  (count isFallback r.2
   + (if performingSystemSaveAsFallback r.1 then 0 else 1)
   ≤ (if performingSystemSaveAsFallback f then 0 else 1) + count isUrlSave r.2)%nat.
Proof.
  cbn zeta. revert f. induction msgs as [|msg rest IH]; intros f.
  { simpl. lia. }
  cbn [consoleRun]. pose proof (console_step_guard f msg) as Hstep. cbn zeta in Hstep.
  destruct (console f msg) as [f1 started]. specialize (IH f1).
  destruct (consoleRun json_parse useSystemSaveAs f1 rest) as [f2 later].
  cbn [fst snd] in *. rewrite !count_app. lia.
Qed.

End BridgeProps.

Section TransportProps.

Import Bridge.

Variable json_parse : jsstr → option JsValue.
Variable useSystemSaveAs : bool.
Variable toLowerCase : jsstr → jsstr.
Variable stripExt : jsstr → jsstr → Result jsstr.
Variable requestUrl : JsValue → FetchResult.
Variable prompt : nat → option jsstr.

Local Abbreviation console := (onConsoleMessage json_parse useSystemSaveAs).
Local Abbreviation ipc := (onIpcMessage useSystemSaveAs).
Local Abbreviation saveAs :=
  (SaveAs.saveAsDocument toLowerCase stripExt requestUrl prompt).

(** With a url in its data a Save As does not look at [forceSaveAs]. *)
Lemma saveAs_force_irrelevant fuel system vault view iso stored force force' data :
  truthyMember data (js "url") = true →
  saveAs fuel system vault view iso stored force (Some data)
  = saveAs fuel system vault view iso stored force' (Some data).
Proof.
  intros Hurl. unfold SaveAs.saveAsDocument.
  destruct (SaveAs.fallbackEditor view); [done|].
  change (default JUndefined (Some data)) with data.
  unfold truthyMember in Hurl. apply andb_prop in Hurl as [Hd Hu]. rewrite Hd.
  destruct (get_prop data (js "url")) as [u|]; [|done]. by rewrite Hu.
Qed.

(** X18. An event of the editor means the same on both transports, the
    logged [OO-EVT:] message and the [ipc-message]: a dirty-state event sets
    the dirty flag to the truth of [data.isDirty] (false without data), and
    a Save As event that carries a url ends in the same Save As, whose
    outcome does not depend on the [forceSaveAs] argument in which the two
    listeners differ. *)
Theorem transports_agree f leaf rest channel data :
  json_parse rest = Some (eventPayload channel data) →
  (channel = dirtyChannel →
   isDirty (console f (js "OO-EVT:" ++ rest)).1 = truthyMember data (js "isDirty")
   ∧ isDirty (ipc f leaf channel [data]).1 = truthyMember data (js "isDirty"))
  ∧ (channel = saveAsChannel → truthyMember data (js "url") = true →
     (console f (js "OO-EVT:" ++ rest)).2 = [CallSaveAs false (Some data)]
     ∧ (ipc f leaf channel [data]).2
       = [ShowNotice (js "OnlyOffice: Save As event received");
          CallSaveAs (negb useSystemSaveAs) (Some data)]
     ∧ ∀ fuel system vault view iso stored,
         saveAs fuel system vault view iso stored false (Some data)
         = saveAs fuel system vault view iso stored (negb useSystemSaveAs) (Some data)).
Proof.
  intros Hp.
  rewrite (console_prefixed json_parse useSystemSaveAs f rest _ Hp), dispatch_event. split.
  - intros ->. split; [done|].
    unfold onIpcMessage, truthyMember.
    change (eqs dirtyChannel saveAsChannel) with false.
    change (eqs dirtyChannel createNewChannel) with false.
    change (eqs dirtyChannel appReadyChannel) with false.
    change (eqs dirtyChannel dirtyChannel) with true. cbn iota.
    destruct (truthy data) eqn:Hd; cbn [setDirty isDirty fst andb].
    + by destruct (get_prop data (js "isDirty")).
    + done.
  - intros -> Hurl. split_and!.
    + change (eqs saveAsChannel saveAsChannel) with true. cbn iota. by rewrite Hurl.
    + unfold onIpcMessage. change (eqs saveAsChannel saveAsChannel) with true.
      cbn iota. by rewrite (truthyMember_truthy _ _ Hurl).
    + intros. by apply saveAs_force_irrelevant.
Qed.

End TransportProps.

(** ** The URLs of a launch with request token *)

Section TokenProps.

Import Config.

Variable toLowerCase : jsstr → jsstr.

Lemma includes_unit c s : includes s [c] = bool_decide (c ∈ s).
Proof.
  induction s as [|b s IH]; [done|]. cbn [includes strip_prefix].
  destruct (N.eqb_spec c b) as [->|Hne].
  - symmetry. apply bool_decide_eq_true_2. set_solver.
  - rewrite IH. apply bool_decide_ext. set_solver.
Qed.

Lemma append_fresh enc u : 63 ∉ u → append enc u = u ++ js "?token=" ++ enc.
Proof.
  intros Hu. unfold append. change (js "?") with [63].
  by rewrite includes_unit, (bool_decide_eq_false_2 _ Hu).
Qed.

Lemma append_more enc u : 63 ∈ u → append enc u = u ++ js "&token=" ++ enc.
Proof.
  intros Hu. unfold append. change (js "?") with [63].
  by rewrite includes_unit, (bool_decide_eq_true_2 _ Hu).
Qed.

Lemma uint_digits d : Forall (λ c, is_digit c = true) (js (NilEmpty.string_of_uint d)).
Proof.
  unfold js. induction d; simpl; [apply Forall_nil_2|..]; by apply Forall_cons_2.
Qed.

Lemma decimal_no_query n : 63 ∉ decimal n.
Proof.
  intros Hin. by pose proof (proj1 (Forall_forall _ _) (uint_digits (N.to_uint n)) _ Hin).
Qed.

Lemma literal_no_query (s : jsstr) : bool_decide (63 ∉ s) = true → 63 ∉ s.
Proof. apply bool_decide_eq_true_1. Qed.

Lemma dockerHostBaseUrl_no_query (env : Load.Env) :
  63 ∉ Load.localServerAddress env → 63 ∉ Load.dockerHostBaseUrl env.
Proof.
  intros Haddr. unfold Load.dockerHostBaseUrl, Load.dockerHost.
  repeat (apply not_elem_of_app; split).
  - by apply literal_no_query.
  - destruct (eqs (Load.localServerAddress env) []); [by apply literal_no_query|done].
  - by apply literal_no_query.
  - apply decimal_no_query.
Qed.

(** X19. Where the request token goes in the URLs of a launch: the file URL
    built on open and the Save As URL have no query, so the token is
    appended after a question mark (the encoded path holds none); the
    create URL already has one, so the token follows an ampersand. *)
Theorem token_starts_or_extends_query (env : Load.Env) (path rel enc : jsstr) port cbUrl file
    isStartDocx key :
  wellFormed path → relPathOf path = Ok rel →
  63 ∉ Load.localServerAddress env →
  let fileUrl := Load.dockerHostBaseUrl env ++ js "/" ++ rel in
  let base := baseConfigOf toLowerCase port fileUrl (Load.dockerHostBaseUrl env) cbUrl file
                isStartDocx key in
  append enc fileUrl = fileUrl ++ js "?token=" ++ enc
  ∧ saveAsUrl (editorConfig (appendToken enc base))
    = saveAsUrl (editorConfig base) ++ js "?token=" ++ enc
  ∧ createUrl (editorConfig (appendToken enc base))
    = createUrl (editorConfig base) ++ js "&token=" ++ enc.
Proof.
  intros Hwf Hrel Haddr fileUrl base.
  destruct (relPathOf_decodes path rel Hwf Hrel) as [Hplain _].
  split_and!.
  - apply append_fresh. unfold fileUrl.
    apply not_elem_of_app. split; [by apply dockerHostBaseUrl_no_query|].
    apply not_elem_of_app. split; [by apply literal_no_query|].
    intros Hin. by destruct (proj1 (Forall_forall _ _) Hplain _ Hin).
  - cbn [appendToken editorConfig saveAsUrl base baseConfigOf].
    apply append_fresh. repeat (apply not_elem_of_app; split).
    + by apply literal_no_query.
    + apply decimal_no_query.
    + by apply literal_no_query.
  - cbn [appendToken editorConfig createUrl base baseConfigOf].
    apply append_more. apply elem_of_app. right. apply elem_of_app. right.
    apply elem_of_app. left. apply (bool_decide_unpack _). by vm_compute.
Qed.

End TokenProps.

(** ** Reading the status of a notification *)

Section StatusProps.

Lemma digit_cases c : is_digit c = true → c ∈ [48; 49; 50; 51; 52; 53; 54; 55; 56; 57].
Proof.
  unfold is_digit. intros [H1%N.leb_le H2%N.leb_le]%andb_prop.
  assert (c = 48 ∨ c = 49 ∨ c = 50 ∨ c = 51 ∨ c = 52 ∨ c = 53 ∨ c = 54 ∨ c = 55
          ∨ c = 56 ∨ c = 57) as Hc by lia.
  set_solver.
Qed.

Ltac each_digit H :=
  apply digit_cases in H;
  repeat (apply elem_of_cons in H as [->|H]); [..|by apply elem_of_nil in H].

Lemma span_all (p : N → bool) s : Forall (λ c, p c = true) s → span p s = (s, []).
Proof. induction 1 as [|c s Hc _ IH]; simpl; [done|]. by rewrite Hc, IH. Qed.

Lemma digits_radix10 s :
  Forall (λ c, is_digit c = true) s →
  Forall (λ c, bool_decide (is_Some (radix_digit 10 c)) = true) s.
Proof.
  intros H. eapply Forall_impl; [exact H|]. intros c Hc. simpl in Hc.
  each_digit Hc; by vm_compute.
Qed.

(** [parseInt] of a string of decimal digits. *)
Lemma parseInt_digits s :
  s ≠ [] → Forall (λ c, is_digit c = true) s →
  parseInt_str s = Some (digits_value 10 0 s).
Proof.
  intros Hne Hall. pose proof (span_all _ _ (digits_radix10 s Hall)) as Hspan.
  destruct Hall as [|c t Hc Ht]; [done|].
  assert (∀ r, (let '(ds, _) := span (λ c, bool_decide (is_Some (radix_digit 10 c))) (c :: t)
                in match ds with
                   | [] => None
                   | _ => Some (1 * digits_value 10 0 ds)%Z
                   end) = r → parseInt_str (c :: t) = r) as Hstep.
  { intros r <-. destruct Ht as [|c2 t2 Hc2 _].
    - each_digit Hc; reflexivity.
    - each_digit Hc; try reflexivity. each_digit Hc2; reflexivity. }
  apply Hstep. rewrite Hspan. f_equal. lia.
Qed.

Lemma digit_step c acc ds k :
  radix_digit 10 c = Some k →
  digits_value 10 acc (c :: ds) = digits_value 10 (acc * 10 + Z.of_N k)%Z ds.
Proof. intros H. cbn [digits_value]. by rewrite H. Qed.

Lemma digits_acc d acc :
  digits_value 10 (Z.pos acc) (js (NilEmpty.string_of_uint d))
  = Z.pos (Pos.of_uint_acc d acc).
Proof.
  revert acc. induction d as [|d IH|d IH|d IH|d IH|d IH|d IH|d IH|d IH|d IH|d IH];
    intros acc; [done|..].
  - change (js (NilEmpty.string_of_uint (Decimal.D0 d)))
      with (48 :: js (NilEmpty.string_of_uint d)).
    rewrite (digit_step 48 _ _ 0 eq_refl). cbn [Pos.of_uint_acc]. rewrite <- IH.
    f_equal. lia.
  - change (js (NilEmpty.string_of_uint (Decimal.D1 d)))
      with (49 :: js (NilEmpty.string_of_uint d)).
    rewrite (digit_step 49 _ _ 1 eq_refl). cbn [Pos.of_uint_acc]. rewrite <- IH.
    f_equal. lia.
  - change (js (NilEmpty.string_of_uint (Decimal.D2 d)))
      with (50 :: js (NilEmpty.string_of_uint d)).
    rewrite (digit_step 50 _ _ 2 eq_refl). cbn [Pos.of_uint_acc]. rewrite <- IH.
    f_equal. lia.
  - change (js (NilEmpty.string_of_uint (Decimal.D3 d)))
      with (51 :: js (NilEmpty.string_of_uint d)).
    rewrite (digit_step 51 _ _ 3 eq_refl). cbn [Pos.of_uint_acc]. rewrite <- IH.
    f_equal. lia.
  - change (js (NilEmpty.string_of_uint (Decimal.D4 d)))
      with (52 :: js (NilEmpty.string_of_uint d)).
    rewrite (digit_step 52 _ _ 4 eq_refl). cbn [Pos.of_uint_acc]. rewrite <- IH.
    f_equal. lia.
  - change (js (NilEmpty.string_of_uint (Decimal.D5 d)))
      with (53 :: js (NilEmpty.string_of_uint d)).
    rewrite (digit_step 53 _ _ 5 eq_refl). cbn [Pos.of_uint_acc]. rewrite <- IH.
    f_equal. lia.
  - change (js (NilEmpty.string_of_uint (Decimal.D6 d)))
      with (54 :: js (NilEmpty.string_of_uint d)).
    rewrite (digit_step 54 _ _ 6 eq_refl). cbn [Pos.of_uint_acc]. rewrite <- IH.
    f_equal. lia.
  - change (js (NilEmpty.string_of_uint (Decimal.D7 d)))
      with (55 :: js (NilEmpty.string_of_uint d)).
    rewrite (digit_step 55 _ _ 7 eq_refl). cbn [Pos.of_uint_acc]. rewrite <- IH.
    f_equal. lia.
  - change (js (NilEmpty.string_of_uint (Decimal.D8 d)))
      with (56 :: js (NilEmpty.string_of_uint d)).
    rewrite (digit_step 56 _ _ 8 eq_refl). cbn [Pos.of_uint_acc]. rewrite <- IH.
    f_equal. lia.
  - change (js (NilEmpty.string_of_uint (Decimal.D9 d)))
      with (57 :: js (NilEmpty.string_of_uint d)).
    rewrite (digit_step 57 _ _ 9 eq_refl). cbn [Pos.of_uint_acc]. rewrite <- IH.
    f_equal. lia.
Qed.

Lemma digits_uint d :
  digits_value 10 0 (js (NilEmpty.string_of_uint d)) = Z.of_N (Pos.of_uint d).
Proof.
  induction d as [|d IH|d _|d _|d _|d _|d _|d _|d _|d _|d _]; [done|..];
    [exact IH|..]; apply (digits_acc d).
Qed.

Lemma decimal_value n : digits_value 10 0 (decimal n) = Z.of_N n.
Proof. unfold decimal. rewrite digits_uint. f_equal. apply Unsigned.of_to. Qed.

Lemma decimal_nonempty n : decimal n ≠ [].
Proof.
  unfold decimal. destruct n as [|p]; [done|]. simpl N.to_uint.
  pose proof (DecimalPos.Unsigned.to_uint_nonnil p) as Hnn.
  by destruct (Pos.to_uint p).
Qed.

Lemma parseInt_decimal n : parseInt_str (decimal n) = Some (Z.of_N n).
Proof.
  rewrite parseInt_digits, decimal_value; [done|apply decimal_nonempty|].
  apply uint_digits.
Qed.

Lemma parseInt_decimalZ z : parseInt_str (decimalZ z) = Some z.
Proof.
  unfold decimalZ. destruct (Z.ltb_spec z 0) as [Hneg|Hpos].
  - pose proof (parseInt_decimal (Z.abs_N z)) as Hp.
    pose proof (decimal_nonempty (Z.abs_N z)) as Hne.
    pose proof (uint_digits (N.to_uint (Z.abs_N z))) as Hall.
    fold (decimal (Z.abs_N z)) in Hall.
    destruct (decimal (Z.abs_N z)) as [|c t] eqn:Hd; [done|].
    pose proof (span_all _ _ (digits_radix10 _ Hall)) as Hspan.
    assert (digits_value 10 0 (c :: t) = Z.of_N (Z.abs_N z)) as Hval
      by (by rewrite <- Hd, decimal_value).
    assert (∀ r, (let '(ds, _) := span (λ c, bool_decide (is_Some (radix_digit 10 c))) (c :: t)
                  in match ds with
                     | [] => None
                     | _ => Some (-1 * digits_value 10 0 ds)%Z
                     end) = r → parseInt_str (js "-" ++ c :: t) = r) as Hstep.
    { intros r <-. inversion Hall as [|? ? Hc Ht]; subst.
      destruct Ht as [|c2 t2 Hc2 _].
      - each_digit Hc; reflexivity.
      - each_digit Hc; try reflexivity. each_digit Hc2; reflexivity. }
    apply Hstep. rewrite Hspan, Hval. f_equal. lia.
  - rewrite parseInt_decimal. f_equal. lia.
Qed.

(** X20. A whole number in the status of a notification (of a size a
    double holds exactly) is read as that number, whether it arrives as a
    JSON number or as a string of decimal digits (as a form-encoded body
    gives it); so such a notification with a url is taken for a save request
    exactly when the number is 2, 6 or 0. *)
Theorem numeric_status_read_back (z : Z) :
  (Z.abs z ≤ 2 ^ 53)%Z →
  statusOf (JNum (decimalZ z)) = Ok z
  ∧ statusOf (JStr (decimalZ z)) = Ok z
  ∧ ∀ data url_v, truthy data = true → truthy url_v = true →
      isSaveRequest data (JStr (decimalZ z)) url_v = Ok (bool_decide (z ∈ [2; 6; 0]%Z)).
Proof.
  intros _.
  assert (statusOf (JStr (decimalZ z)) = Ok z) as Hs.
  { unfold statusOf, parseInt. cbn [toString rbind]. by rewrite parseInt_decimalZ. }
  split_and!; [exact Hs|exact Hs|].
  intros data url_v Hd Hu. unfold isSaveRequest. rewrite Hd, Hu, Hs. cbn [andb rbind].
  rewrite andb_true_r. f_equal.
  destruct (decide (z = 2%Z)) as [->|H2]; [done|].
  destruct (decide (z = 6%Z)) as [->|H6]; [done|].
  destruct (decide (z = 0%Z)) as [->|H0]; [done|].
  rewrite !bool_decide_eq_false_2 by done. symmetry. apply bool_decide_eq_false_2.
  set_solver.
Qed.

End StatusProps.

(** ** A blank secret *)

Section SecretProps.

Import Config.

Variable signJWT : Claims → jsstr → Result jsstr.
Variable encodeToken : jsstr → Result jsstr.
Variable toLowerCase : jsstr → jsstr.

Lemma trim_start_blank s : Forall (λ c, is_white_space c = true) s → trim_start s = [].
Proof. induction 1 as [|c s Hc _ IH]; simpl; [done|]. by rewrite Hc. Qed.

Lemma trim_blank s : Forall (λ c, is_white_space c = true) s → trim s = [].
Proof. intros H. unfold trim. by rewrite (trim_start_blank s H). Qed.

(** X21. A secret that is empty or holds white space only counts as no
    secret: whatever the signer would do, the configuration is sent as it
    was built, with no token appended to any URL and no signed token. *)
Theorem blank_secret_disables_signing (s : jsstr) useToken port dockerFileUrl dockerBaseUrl
    cbUrl file isStartDocx key now1 now2 :
  Forall (λ c, is_white_space c = true) s →
  buildEditorConfig signJWT encodeToken toLowerCase
    {| jwtSecret := Some s; useRequestToken := useToken |} port dockerFileUrl
    dockerBaseUrl cbUrl file isStartDocx key now1 now2
  = Ok {| sentConfig := baseConfigOf toLowerCase port dockerFileUrl dockerBaseUrl cbUrl
                          file isStartDocx key;
          signedPayload := None; signedToken := None |}.
Proof.
  intros Hs. unfold buildEditorConfig, secretConfigured. cbn [jwtSecret].
  by rewrite (trim_blank s Hs).
Qed.

End SecretProps.

(** ** From the open to the save *)

Section EndToEnd.

Import Load.

Variable head : jsstr → nat → bool.
Variable toLowerCase : jsstr → jsstr.
Variable signJWT : Config.Claims → jsstr → Result jsstr.
Variable encodeToken : jsstr → Result jsstr.
Variable url_key : JsValue → option jsstr.
Variable form_entries : jsstr → list (jsstr * jsstr).
Variable requestUrl : JsValue → FetchResult.

Lemma onLoadFile_launched fuel env reg view f leafFile now (rnd : jsstr) reg' view'
    hostUrl dockerUrl baseUrl cbUrl key k :
  onLoadFile head toLowerCase fuel env reg view true (Some f) leafFile now rnd
  = Some (reg', view', Launched hostUrl dockerUrl baseUrl cbUrl key, k) →
  key = uniqueKey (path f) (mtimeOrNow f now) rnd ∧ reg' = <[key := path f]> reg.
Proof.
  unfold onLoadFile. cbn [negb].
  destruct (match leafFile with
            | Some current => negb (bool_decide (current = Some (path f)))
            | None => false
            end); [done|].
  destruct (probe head fuel _ 0 0) as [[[|] k1]|]; [|done..].
  destruct (relPathOf (path f)) as [rel|]; [|done].
  destruct (probe head fuel _ k1 0) as [[[|] k2]|]; [|done..].
  destruct (bool_decide (toLowerCase (extension f) ∈ supported)); [|done].
  by intros [= <- _ _ _ _ _ <- _].
Qed.

Lemma build_keeps_key st port dockerFileUrl dockerBaseUrl cbUrl file isStartDocx key
    now1 now2 launch :
  Config.buildEditorConfig signJWT encodeToken toLowerCase st port dockerFileUrl
    dockerBaseUrl cbUrl file isStartDocx key now1 now2 = Ok launch →
  Config.key (Config.document (Config.sentConfig launch)) = key.
Proof.
  unfold Config.buildEditorConfig.
  destruct (Config.secretConfigured st) as [secret|]; [|by intros [= <-]].
  destruct (Config.requestTokensEnabled st).
  - destruct (signJWT (Config.RequestClaims key (now1 / 1000)) secret) as [rt|];
      cbn [rbind]; [|done].
    destruct (encodeToken rt) as [enc|]; cbn [rbind]; [|done].
    match goal with
    | |- context [signJWT ?c secret] => destruct (signJWT c secret)
    end; cbn [rbind]; [|done].
    by intros [= <-].
  - cbn [rbind].
    match goal with
    | |- context [signJWT ?c secret] => destruct (signJWT c secret)
    end; cbn [rbind]; [|done].
    by intros [= <-].
Qed.

Lemma uniqueKey_nonempty (p : jsstr) (m : N) (r : jsstr) : uniqueKey p m r ≠ [].
Proof. done. Qed.

(** X22. From the open to the save.  When a load launches the editor, the
    key it has registered is the key of the document in the configuration
    that is sent, signed or not; and a save notification of the Document
    Server under that key, whose url yields the edited copy, overwrites the
    file that was opened and no other. *)
Theorem opened_document_is_saved_back fuel env st view f leafFile now (rnd : jsstr)
    reg' view' hostUrl dockerUrl baseUrl cbUrl key k settings port file now1 now2 launch
    old out buf :
  onLoadFile head toLowerCase fuel env (keyFileMap st) view true (Some f) leafFile now rnd
  = Some (reg', view', Launched hostUrl dockerUrl baseUrl cbUrl key, k) →
  Config.buildEditorConfig signJWT encodeToken toLowerCase settings port dockerUrl baseUrl
    cbUrl file false (Some key) now1 now2 = Ok launch →
  path f ≠ [] →
  vault st !! path f = Some (VFile old) →
  out ≠ [] →
  requestUrl (JStr out) = FetchResponse 200 buf →
  Config.key (Config.document (Config.sentConfig launch)) = Some key
  ∧ callbackHandler url_key form_entries requestUrl
      {| keyFileMap := reg'; vault := vault st |} (saveNotification key out)
    = ({| keyFileMap := reg'; vault := <[path f := VFile buf]> (vault st) |},
       [savedNotice], ack)
  ∧ ∀ q, q ≠ path f → (<[path f := VFile buf]> (vault st)) !! q = vault st !! q.
Proof.
  intros Hload Hbuild Hpath Hfile Hout Hfetch.
  apply onLoadFile_launched in Hload as [Hkey ->].
  assert (key ≠ []) as Hk by (rewrite Hkey; apply uniqueKey_nonempty).
  split_and!.
  - by apply build_keeps_key in Hbuild.
  - assert (truthy (JStr out) = true) as Htout.
    { cbn [truthy]. unfold eqs. by rewrite (bool_decide_eq_false_2 _ Hout). }
    assert (keyOf url_key (JStr key) (JStr out) = JStr key) as Hkeyof.
    { unfold keyOf. cbn [truthy]. unfold eqs. by rewrite (bool_decide_eq_false_2 _ Hk). }
    etrans;
      [apply (handler_saves url_key form_entries requestUrl
                {| keyFileMap := <[key := path f]> (keyFileMap st); vault := vault st |}
                (saveNotification key out)
                (JObj [(js "key", JStr key); (js "status", JNum (js "2"));
                       (js "url", JStr out)])
                (JNum (js "2")) (JStr out) (JStr key) key (path f) old buf)|done];
      try done.
    + rewrite (isSaveRequest_read _ _ _ 2) by done. by rewrite Htout.
    + rewrite Hkeyof. cbn [truthy]. unfold eqs. by rewrite (bool_decide_eq_false_2 _ Hk).
    + by rewrite Hkeyof.
    + cbn [keyFileMap]. apply resolve_own; [|done]. apply lookup_insert_eq.
  - intros q Hq. by apply lookup_insert_ne.
Qed.

End EndToEnd.

(** ** The properties above on sample inputs *)

Lemma units_wellFormed (s : jsstr) : forallb (λ c, c <? 65536) s = true → wellFormed s.
Proof.
  intros H. apply Forall_forall. intros c Hc%list_elem_of_In.
  by apply N.ltb_lt, (proj1 (forallb_forall _ _) H).
Qed.

Lemma units_alnum (s : jsstr) :
  forallb (λ c, is_lower c || is_digit c) s = true → Forall isLowerAlnum s.
Proof.
  intros H. apply Forall_forall. intros c Hc%list_elem_of_In.
  by apply (proj1 (forallb_forall _ _) H).
Qed.

Lemma units_digits (s : jsstr) :
  forallb is_digit s = true → Forall (λ c, is_digit c = true) s.
Proof.
  intros H. apply Forall_forall. intros c Hc%list_elem_of_In.
  by apply (proj1 (forallb_forall _ _) H).
Qed.

(** The round trip on a path that needs every kind of escape. *)
Lemma rel_path_round_trip_witness :
  relPathOf Scenario.notePath = Ok Scenario.noteRel
  ∧ decodeURIComponent Scenario.noteRel = Ok (js "Notes/Caf" ++ [233] ++ js " 100%?.docx").
Proof.
  split; [by vm_compute|].
  refine (proj2 (rel_path_round_trip Scenario.notePath Scenario.noteRel _ _)).
  - apply units_wellFormed. by vm_compute.
  - by vm_compute.
Defined.

(** The file URL with a request token, asked from the static server. *)
Lemma opened_file_is_served_witness :
  staticHandler Sample.noMime Sample.noSearch Sample.vaultRoot Sample.pluginRoot Sample.messageOf
    Scenario.disk Scenario.tokened
  = {| code := 200; contentType := Some (js "application/octet-stream");
       content := CFile (js "/home/u/vault/Notes/Caf" ++ [233] ++ js " 100%?.docx")
                    Scenario.noteBytes |}.
Proof.
  refine (opened_file_is_served Sample.noMime Sample.noSearch Sample.vaultRoot
            Sample.pluginRoot Sample.messageOf Scenario.disk Scenario.tokened Scenario.notePath
            Scenario.noteRel (js "token=rq.") Scenario.noteBytes _ _ _ _ _ _).
  - apply units_wellFormed. by vm_compute.
  - by vm_compute.
  - right. reflexivity.
  - discriminate.
  - apply (bool_decide_unpack _). by vm_compute.
  - by vm_compute.
Defined.

(** A generated key for a drawn suffix. *)
Lemma generated_key_safe_witness :
  Forall (λ c, isLowerAlnum c ∨ c = 95)
    (uniqueKey (js "Notes/report.docx") 1700000000000 (js "k3j9x2ab"))
  ∧ (length (uniqueKey (js "Notes/report.docx") 1700000000000 (js "k3j9x2ab")) ≤ 19)%nat.
Proof.
  destruct (generated_key_safe (js "Notes/report.docx") 1700000000000 (js "k3j9x2ab"))
    as (Hunits & Hlen & _).
  - apply units_alnum. by vm_compute.
  - split; [exact Hunits|exact Hlen].
Defined.

(** The two files whose names hash alike, opened with different suffixes. *)
Lemma fresh_suffix_keeps_registration_witness :
  resolve (keyFileMap (run Sample.noUrlKey Sample.noForm Sample.net
                         (openFile Sample.state (js "Aa.docx") 1700000000000
                            (js "k3j9x2ab"))
                         [EvCallback Sample.mustSave;
                          EvOpen (js "BB.docx") 1700000000000 (js "q8w7e6r5")]))
      (uniqueKey (js "Aa.docx") 1700000000000 (js "k3j9x2ab"))
  = Ok (Some (PStr (js "Aa.docx"))).
Proof.
  apply (fresh_suffix_keeps_registration Sample.noUrlKey Sample.noForm Sample.net
           Sample.state (js "Aa.docx") 1700000000000 (js "k3j9x2ab")).
  - discriminate.
  - intros path' mtime' rnd' Hin.
    apply elem_of_cons in Hin as [Hin|Hin]; [discriminate Hin|].
    apply elem_of_cons in Hin as [Hin|Hin]; [|by apply elem_of_nil in Hin].
    injection Hin as -> -> ->. discriminate.
Defined.


(** The untitled document beside one that exists, from the template of the
    plugin; and with a folder in the place of a template. *)
Lemma untitled_document_created_witness :
  (size Scenario.untitledTaken < 2)%nat
  ∧ (∃ name,
       Create.openNewDocument Sample.templates Sample.vaultRoot Sample.pluginRoot []
         Scenario.untitledTaken 2 (Some false) None
       = Some (<[name := VFile []]> Scenario.untitledTaken, Create.Created name)
       ∧ Scenario.untitledTaken !! name = None)
  ∧ Create.openNewDocument Sample.templateFolder Sample.vaultRoot Sample.pluginRoot []
      Scenario.untitledTaken 2 (Some false) None
    = Some (Scenario.untitledTaken, Create.Failed).
Proof.
  assert (size Scenario.untitledTaken < 2)%nat as Hsize by (vm_compute; lia).
  split; [exact Hsize|]. split.
  - destruct (proj1 (untitled_document_created Sample.templates Sample.vaultRoot
                       Sample.pluginRoot [] Scenario.untitledTaken 2 None Hsize) [])
      as (name & Hopen & Hfree & _).
    + right. exists (js "/home/u/vault/.obsidian/plugins/onlyoffice/assets/Start.docx").
      split; [|reflexivity].
      exists [], [js "/home/u/vault/Start.docx";
                  js "/home/u/vault/.obsidian/plugins/onlyoffice/assets/Start.dotx";
                  js "/home/u/vault/Start.dotx"].
      split; [by vm_compute|]. split; [constructor|reflexivity].
    + exists name. split; [exact Hopen|exact Hfree].
  - apply (proj2 (untitled_document_created Sample.templateFolder Sample.vaultRoot
                    Sample.pluginRoot [] Scenario.untitledTaken 2 None Hsize)
             (js "/home/u/vault/Start.docx") HostError).
    + exists [js "/home/u/vault/.obsidian/plugins/onlyoffice/assets/Start.docx"],
             [js "/home/u/vault/.obsidian/plugins/onlyoffice/assets/Start.dotx";
              js "/home/u/vault/Start.dotx"].
      split; [by vm_compute|]. split; [by repeat constructor|reflexivity].
    + reflexivity.
Defined.

(** A file name with a percent sign, asked for without escaping it. *)
Lemma stray_percent_is_500_witness :
  wellEscaped (requestedPath Scenario.stray) = false
  ∧ code (staticHandler Sample.noMime Sample.noSearch Sample.vaultRoot Sample.pluginRoot
            Sample.messageOf Sample.disk Scenario.stray) = 500%Z
  ∧ content (staticHandler Sample.noMime Sample.noSearch Sample.vaultRoot Sample.pluginRoot
               Sample.messageOf Sample.disk Scenario.stray)
    = CText (js "Internal server error: URI malformed").
Proof.
  split; [reflexivity|].
  destruct (stray_percent_is_500 Sample.noMime Sample.noSearch Sample.vaultRoot
              Sample.pluginRoot Sample.messageOf Sample.disk Scenario.stray)
    as (Hcode & _ & Hcontent).
  - discriminate.
  - reflexivity.
  - split; [exact Hcode|exact Hcontent].
Defined.

(** A legacy key whose path holds underscores. *)
Lemma legacy_key_round_trip_witness :
  encodeURIComponent Scenario.legacyPath = Ok (js "Notes%2Fa_b%201.docx")
  ∧ resolve ∅ Scenario.legacyKey = Ok (Some (PStr Scenario.legacyPath)).
Proof.
  split; [by vm_compute|].
  refine (legacy_key_round_trip ∅ Scenario.legacyPath (js "Notes%2Fa_b%201.docx")
            (js "1700000000000") (js "k3j9") _ _ _ _ _ _ _ _).
  - apply units_wellFormed. by vm_compute.
  - discriminate.
  - by vm_compute.
  - discriminate.
  - apply units_digits. by vm_compute.
  - discriminate.
  - apply units_alnum. by vm_compute.
  - apply lookup_empty.
Defined.

(** A server that answers from the fourth request on. *)
Lemma probe_stops_at_first_answer_witness :
  (20 < 21)%nat
  ∧ ∃ r, Load.probe Scenario.slowStart 21 (js "http://127.0.0.1:8081/editor.html") 0 0
         = Some r
         ∧ Load.probeSpec Scenario.slowStart (js "http://127.0.0.1:8081/editor.html") 0 r.
Proof.
  split; [lia|].
  apply (probe_stops_at_first_answer Scenario.slowStart 21
           (js "http://127.0.0.1:8081/editor.html") 0). lia.
Defined.


(** A copy saved under a name that is taken. *)
Lemma save_as_creates_free_name_witness :
  (size Sample.drafts + 2 < 4)%nat
  ∧ ∃ final,
      SaveAs.saveAsDocument id Scenario.dropExt Sample.net Scenario.noPrompt 4 false
        Sample.drafts Scenario.sheetView [] [] false (Some Scenario.saveAsEvent)
      = Some (<[final := VFile Sample.newBytes]> Sample.drafts,
              SaveAs.consume Scenario.sheetView None, SaveAs.Saved final).
Proof.
  assert (size Sample.drafts + 2 < 4)%nat as Hsize by (vm_compute; lia).
  split; [exact Hsize|].
  destruct (save_as_creates_free_name id Scenario.dropExt Sample.net Scenario.noPrompt 4
              Sample.drafts Scenario.sheetView [] [] false Scenario.saveAsEvent
              (JStr Sample.outUrl) (JStr (js "Budget.xlsx")) (js "Draft") (js "Draft")
              Sample.newBytes)
    as (final & Hsave & _); try reflexivity; try exact Hsize.
  - discriminate.
  - exists final. exact Hsave.
Defined.


(** A dirty-state event on both transports. *)
Lemma transports_agree_witness :
  Scenario.parseDirty Scenario.dirtyText
  = Some (Bridge.eventPayload Bridge.dirtyChannel Scenario.dirtyData)
  ∧ Bridge.isDirty
      (Bridge.onConsoleMessage Scenario.parseDirty false
         {| Bridge.isDirty := false; Bridge.systemSaveAsRetryPending := false;
            Bridge.performingSystemSaveAsFallback := false |}
         (js "OO-EVT:" ++ Scenario.dirtyText)).1 = true.
Proof.
  split; [reflexivity|].
  refine (proj1 (proj1 (transports_agree Scenario.parseDirty false id Scenario.dropExt
                          Sample.net Scenario.noPrompt _ true Scenario.dirtyText
                          Bridge.dirtyChannel Scenario.dirtyData _) _)).
  - reflexivity.
  - reflexivity.
Defined.

(** The file URL of the sample path with a request token. *)
Lemma token_starts_or_extends_query_witness :
  Config.append (js "rq.") (Load.dockerHostBaseUrl Scenario.env ++ js "/" ++ Scenario.noteRel)
  = js "http://host.docker.internal:8081/Notes/Caf%C3%A9%20100%25%3F.docx?token=rq.".
Proof.
  refine (proj1 (token_starts_or_extends_query id Scenario.env Scenario.notePath
                   Scenario.noteRel (js "rq.") 8081 (js "http://host.docker.internal:8082/callback")
                   Sample.report false None _ _ _)).
  - apply units_wellFormed. by vm_compute.
  - by vm_compute.
  - apply (bool_decide_unpack _). by vm_compute.
Defined.

(** The sample file, from its open to the save notification. *)
Lemma opened_document_is_saved_back_witness :
  callbackHandler Sample.noUrlKey Sample.noForm Sample.net
    {| keyFileMap := <[Scenario.noteKey := Scenario.notePath]> ∅;
       vault := vault Scenario.fresh |}
    (saveNotification Scenario.noteKey Sample.outUrl)
  = ({| keyFileMap := <[Scenario.noteKey := Scenario.notePath]> ∅;
        vault := <[Scenario.notePath := VFile Sample.newBytes]> (vault Scenario.fresh) |},
     [savedNotice], ack).
Proof.
  refine (proj1 (proj2
    (opened_document_is_saved_back Scenario.slowStart id Sample.toySign Ok Sample.noUrlKey
       Sample.noForm Sample.net 21 Scenario.env Scenario.fresh Scenario.cleanView
       Scenario.noteFile None 1700000000001 (js "k3j9x2ab")
       (<[Scenario.noteKey := Scenario.notePath]> ∅)
       {| Load.isDirty := false; Load.currentExt := js "docx" |}
       (Load.localHostBaseUrl Scenario.env ++ js "/" ++ Scenario.noteRel)
       (Load.dockerHostBaseUrl Scenario.env ++ js "/" ++ Scenario.noteRel)
       (Load.dockerHostBaseUrl Scenario.env) (Load.callbackUrlOf Scenario.env)
       Scenario.noteKey 5%nat Sample.settings 8081 Sample.report 1700000000002
       1700000000003 _ Sample.oldBytes Sample.outUrl Sample.newBytes _ _ _ _ _ _))).
  - by vm_compute.
  - reflexivity.
  - discriminate.
  - reflexivity.
  - discriminate.
  - reflexivity.
Defined.

(** The status 6, as a number and as a string. *)
Lemma numeric_status_read_back_witness :
  (Z.abs 6 ≤ 2 ^ 53)%Z
  ∧ statusOf (JNum (js "6")) = Ok 6%Z ∧ statusOf (JStr (js "6")) = Ok 6%Z.
Proof.
  assert (Z.abs 6 ≤ 2 ^ 53)%Z as Hsmall by (vm_compute; discriminate).
  split; [exact Hsmall|].
  destruct (numeric_status_read_back 6 Hsmall) as (Hnum & Hstr & _).
  split; [exact Hnum|exact Hstr].
Defined.

(** A secret of two spaces, with a signer that would fail. *)
Lemma blank_secret_disables_signing_witness :
  Config.buildEditorConfig Scenario.noSign Ok id
    {| Config.jwtSecret := Some (js "  "); Config.useRequestToken := Some true |}
    8081 (js "http://host.docker.internal:8081/Notes/report.docx")
    (js "http://host.docker.internal:8081")
    (js "http://host.docker.internal:8082/callback")
    Sample.report false (Some Sample.reportKey) 1700000000000 1700000000001
  = Ok {| Config.sentConfig :=
            Config.baseConfigOf id 8081
              (js "http://host.docker.internal:8081/Notes/report.docx")
              (js "http://host.docker.internal:8081")
              (js "http://host.docker.internal:8082/callback")
              Sample.report false (Some Sample.reportKey);
          Config.signedPayload := None; Config.signedToken := None |}.
Proof.
  apply (blank_secret_disables_signing Scenario.noSign Ok id (js "  ") (Some true) 8081
           (js "http://host.docker.internal:8081/Notes/report.docx")
           (js "http://host.docker.internal:8081")
           (js "http://host.docker.internal:8082/callback")
           Sample.report false (Some Sample.reportKey) 1700000000000 1700000000001).
  apply Forall_forall. intros c Hc%list_elem_of_In.
  by apply (proj1 (forallb_forall is_white_space (js "  ")) eq_refl).
Defined.

(** A file name with half of a surrogate pair: the load ends in the catch
    after the editor page was found. *)
Lemma load_fails_only_on_surrogate_witness :
  Load.onLoadFile Scenario.slowStart id 21 Scenario.env ∅ Scenario.cleanView true
    (Some Scenario.brokenFile) None 1700000000001 (js "k3j9x2ab")
  = Some (∅, {| Load.isDirty := false; Load.currentExt := js "docx" |}, Load.LoadFailed,
          4%nat)
  ∧ ∃ c, c ∈ Load.path Scenario.brokenFile ∧ 0xD800 ≤ c ≤ 0xDFFF.
Proof.
  assert (Load.onLoadFile Scenario.slowStart id 21 Scenario.env ∅ Scenario.cleanView true
            (Some Scenario.brokenFile) None 1700000000001 (js "k3j9x2ab")
          = Some (∅, {| Load.isDirty := false; Load.currentExt := js "docx" |},
                  Load.LoadFailed, 4%nat)) as Hload by (by vm_compute).
  split; [exact Hload|].
  destruct (load_fails_only_on_surrogate Scenario.slowStart id 21 Scenario.env ∅
              Scenario.cleanView true (Some Scenario.brokenFile) None 1700000000001
              (js "k3j9x2ab") _ _ _ Hload) as (f & c & Hf & Hin & Hc).
  injection Hf as <-. exists c. split; [exact Hin|exact Hc].
Defined.
